(** * DavaoClean AI: a shallow embedding of the client code

    The development follows the source tree:
    - [Supabase]   : lib/supabase.ts (start-up configuration check, row types);
    - [Navbar]     : app/components/Navbar.tsx (active link, mobile menu);
    - [Classifier] : the classifier page (handleClassify and its state);
    - [Backend]    : the hosted tables as the volunteer page queries them;
    - [Volunteer]  : the volunteer page handlers (catalogue loader, join,
                     status update, event form, photo upload).

    JavaScript values are modelled as the code uses them: a value of type
    [string | undefined] is an [option string], a string literal union is
    kept as a [string] wherever the value crosses the wire, React state is
    a record and a handler is a function from the rendered snapshot and the
    current world to the next world. *)

From Stdlib Require Import String List Bool Arith ZArith QArith Qround Lia.
Import ListNotations.
Close Scope Q_scope.
Local Open Scope string_scope.
Local Open Scope list_scope.

(** ** JavaScript truthiness of [string | undefined] *)

(** [!!v] for a value that is a string or [undefined]: only the empty
    string and [undefined] are falsy. *)
Definition truthy (v : option string) : bool :=
  match v with
  | None => false
  | Some s => negb (s =? "")
  end.

(** [!s] for a plain string. *)
Definition js_not (s : string) : bool := s =? "".

(** [a ?? b] *)
Definition nullish {A : Type} (a : option A) (b : A) : A :=
  match a with
  | Some x => x
  | None => b
  end.

(** A browser [File], as far as the pages look at it. *)
Record File : Type := { file_name : string; file_type : string }.

(** ** lib/supabase.ts *)

Module Supabase.

(** The two variables read from [process.env]. *)
Record ProcessEnv : Type := {
  NEXT_PUBLIC_SUPABASE_URL : option string;
  NEXT_PUBLIC_SUPABASE_ANON_KEY : option string
}.

(** The handle returned by [createClient(url, key)] of the client
    library, recorded as the two arguments it was built from. The
    non-null assertions of lines 23-24 are erased at run time, so the
    arguments are the raw values. *)
Record SupabaseClient : Type := {
  supabaseUrl : option string;
  supabaseKey : option string
}.

(** [createClient] is imported from the client library, which is not part
    of this repository. It checks its arguments and throws on those it
    does not take (an endpoint that is not a URL, for one). Which
    arguments these are is the library's business: [rejects url key] is
    the message of the error it throws for them, if it throws. *)
Record Library : Type := {
  rejects : option string -> option string -> option string
}.

(** How a call ends. *)
Inductive Completion (A : Type) : Type :=
| Returned (value : A)
| Thrown (message : string).
Arguments Returned {A} value.
Arguments Thrown {A} message.

Definition createClient (L : Library) (url key : option string)
  : Completion SupabaseClient :=
  match rejects L url key with
  | Some message => Thrown message
  | None => Returned {| supabaseUrl := url; supabaseKey := key |}
  end.

(** Outcome of evaluating the module body. *)
Inductive ModuleInit : Type :=
| Threw (message : string)
| Exported (supabase : SupabaseClient).

Definition missing_env_message : string :=
  "Missing Supabase environment variables. " ++
  "Ensure NEXT_PUBLIC_SUPABASE_URL and NEXT_PUBLIC_SUPABASE_ANON_KEY are set in .env.local at the project root.".

(** Lines 23-33. An error thrown by [createClient] is not caught: it
    ends the evaluation of the module like the one of line 27. *)
Definition init (L : Library) (env : ProcessEnv) : ModuleInit :=
  let supabaseUrl := NEXT_PUBLIC_SUPABASE_URL env in
  let supabaseAnonKey := NEXT_PUBLIC_SUPABASE_ANON_KEY env in
  if negb (truthy supabaseUrl) || negb (truthy supabaseAnonKey)
  then Threw missing_env_message
  else match createClient L supabaseUrl supabaseAnonKey with
       | Thrown message => Threw message
       | Returned supabase => Exported supabase
       end.

(** Whether the module exports a client. *)
Definition constructed (r : ModuleInit) : bool :=
  match r with
  | Threw _ => false
  | Exported _ => true
  end.

(** Row types, lines 37-67. *)
Record Profile : Type := {
  profile_id : string;
  profile_email : string;
  role : string;
  updated_at : string
}.

Record Event : Type := {
  event_id_ : string;          (* id *)
  organizer_id : string;
  title : string;
  description : string;
  location : string;
  event_date : string;
  event_created_at : string
}.

Record Participant : Type := {
  participant_id : string;     (* id *)
  p_event_id : string;         (* event_id *)
  volunteer_id : string;
  status : string
}.

(** The declared [Upload] type: five attributes, no [event_id]. The
    declaration is erased at run time: it does not change what the
    records read from the table hold. *)
Record Upload : Type := {
  upload_id : string;          (* id *)
  user_id : string;
  image_url : string;
  category : string;
  upload_created_at : string
}.

End Supabase.

(** ** app/components/Navbar.tsx *)

Module Navbar.

Record NavLink : Type := { href : string; label : string }.

(** Lines 16-21. *)
Definition navLinks : list NavLink :=
  [ {| href := "/"; label := "Home" |};
    {| href := "/about"; label := "About" |};
    {| href := "/classifier"; label := "Classifier" |};
    {| href := "/volunteer"; label := "Volunteer" |} ].

(** The only state update the component performs. *)
Inductive Handler : Type :=
| SetMenuOpen (b : bool).

Definition run (h : Handler) (menuOpen : bool) : bool :=
  match h with
  | SetMenuOpen b => b
  end.

(** A rendered [<Link>]. *)
Record LinkView : Type := {
  lv_href : string;
  lv_text : string;
  lv_className : string;
  lv_onClick : option Handler
}.

(** [pathname === link.href] *)
Definition isActive (pathname : string) (link : NavLink) : bool :=
  pathname =? href link.

Definition desktop_active : string :=
  "text-green-600 border-b-2 border-green-500 pb-0.5".
Definition desktop_inactive : string :=
  "text-gray-600 hover:text-green-600".
Definition mobile_active : string := "text-green-600 bg-green-50".
Definition mobile_inactive : string :=
  "text-gray-600 hover:text-green-600 hover:bg-green-50".

(** Lines 38-48. *)
Definition desktopLink (pathname : string) (link : NavLink) : LinkView :=
  {| lv_href := href link;
     lv_text := label link;
     lv_className :=
       "text-sm font-medium transition-colors " ++
       (if isActive pathname link then desktop_active else desktop_inactive);
     lv_onClick := None |}.

(** Lines 80-91. *)
Definition mobileLink (pathname : string) (link : NavLink) : LinkView :=
  {| lv_href := href link;
     lv_text := label link;
     lv_className :=
       "block px-2 py-2 rounded-md text-sm font-medium " ++
       (if isActive pathname link then mobile_active else mobile_inactive);
     lv_onClick := Some (SetMenuOpen false) |}.

(** Lines 93-99. *)
Definition mobileCTA : LinkView :=
  {| lv_href := "/classifier";
     lv_text := "Try Classifier";
     lv_className :=
       "block w-full text-center mt-2 bg-green-600 text-white px-5 py-2 rounded-full text-sm font-semibold hover:bg-green-700 transition-colors";
     lv_onClick := Some (SetMenuOpen false) |}.

Record View : Type := {
  desktopLinks : list LinkView;
  hamburger_onClick : Handler;
  hamburger_icon : string;
  mobileMenu : option (list LinkView)
}.

(** The component body: the handlers close over the [menuOpen] of the
    render that created them. *)
Definition render (pathname : string) (menuOpen : bool) : View :=
  {| desktopLinks := map (desktopLink pathname) navLinks;
     hamburger_onClick := SetMenuOpen (negb menuOpen);
     hamburger_icon :=
       if menuOpen then "M6 18L18 6M6 6l12 12" else "M4 6h16M4 12h16M4 18h16";
     mobileMenu :=
       if menuOpen
       then Some (map (mobileLink pathname) navLinks ++ [mobileCTA])
       else None |}.

(** A click on the hamburger button of the current render. *)
Definition clickHamburger (pathname : string) (menuOpen : bool) : bool :=
  run (hamburger_onClick (render pathname menuOpen)) menuOpen.

(** A click on a rendered link: links without a handler leave the state
    alone. *)
Definition clickLink (l : LinkView) (menuOpen : bool) : bool :=
  match lv_onClick l with
  | Some h => run h menuOpen
  | None => menuOpen
  end.

(** Whether a rendered link carries the active styling. *)
Definition styledActiveDesktop (l : LinkView) : bool :=
  lv_className l =? "text-sm font-medium transition-colors " ++ desktop_active.
Definition styledActiveMobile (l : LinkView) : bool :=
  lv_className l =? "block px-2 py-2 rounded-md text-sm font-medium " ++ mobile_active.

End Navbar.


(** ** The classifier page *)

Module Classifier.

(** [WasteCategory]: one of four string literals or [null]. The literals
    are kept as strings, so that membership in the fixed set is a fact
    about the handler and not about the type. *)
Definition WasteCategory : Type := option string.

Definition categories : list string :=
  [ "Biodegradable"; "Recyclable"; "Residual"; "Special Waste" ].

(** The [useState] cells of [ClassifierPage]. *)
Record State : Type := {
  selectedFile : option File;
  previewUrl : option string;
  isLoading : bool;
  result : WasteCategory;
  isDragging : bool
}.

Definition initial : State :=
  {| selectedFile := None; previewUrl := None; isLoading := false;
     result := None; isDragging := false |}.

(** What the handler does besides updating state. *)
Inductive Effect : Type :=
| SetTimeout (ms : nat).

(** [arr[i]] for a number [i] that is an integer: [undefined] outside
    the array. *)
Definition js_index {A : Type} (arr : list A) (i : Z) : option A :=
  if (i <? 0)%Z then None else nth_error arr (Z.to_nat i).

(** [handleFileSelect]; [url] is what [URL.createObjectURL(file)]
    returned. *)
Definition handleFileSelect (url : string) (file : File) (s : State) : State :=
  {| selectedFile := Some file;
     previewUrl := Some url;
     isLoading := isLoading s;
     result := None;
     isDragging := isDragging s |}.

(** [handleClassify]; [random] is the value [Math.random()] returned. A
    double in the unit interval is a rational, and scaling it by the array
    length 4 and taking the floor are exact on doubles, so the arithmetic
    is carried out in [Q]. *)
Definition handleClassify (random : Q) (s : State) : State * list Effect :=
  match selectedFile s with
  | None => (s, [])
  | Some _ =>
      let mockCategories := categories in
      let i := Qfloor (random * inject_Z (Z.of_nat (length mockCategories)))%Q in
      ({| selectedFile := selectedFile s;
          previewUrl := previewUrl s;
          isLoading := false;
          result := js_index mockCategories i;
          isDragging := isDragging s |},
       [SetTimeout 2000])
  end.

(** The state shown while [handleClassify] waits for the timer: the two
    updates before the [await]. *)
Definition handleClassify_pending (s : State) : State :=
  match selectedFile s with
  | None => s
  | Some _ =>
      {| selectedFile := selectedFile s;
         previewUrl := previewUrl s;
         isLoading := true;
         result := None;
         isDragging := isDragging s |}
  end.

(** [handleReset] *)
Definition handleReset (s : State) : State :=
  {| selectedFile := None; previewUrl := None; isLoading := isLoading s;
     result := None; isDragging := isDragging s |}.

End Classifier.


(** ** The hosted tables, as the volunteer page queries them *)

Module Backend.
Import Supabase.

(** A row of the [uploads] table as the page writes it, filters it and
    holds it once read with [select('*')]: the columns of the insert in
    [handleImageUpload], the generated [id] and [created_at]. The
    [event_id] column is empty for a row that was written without one. *)
Record UploadRow : Type := {
  row_id : string;
  row_user_id : string;
  row_image_url : string;
  row_category : string;
  row_event_id : option string;
  row_created_at : string
}.

(** The attributes of a row that the declared [Upload] type names. *)
Definition as_Upload (r : UploadRow) : Upload :=
  {| upload_id := row_id r;
     user_id := row_user_id r;
     image_url := row_image_url r;
     category := row_category r;
     upload_created_at := row_created_at r |}.

Record DB : Type := {
  profiles_table : list Profile;
  events_table : list Event;
  participants_table : list Participant;
  uploads_table : list UploadRow;
  event_images : list (string * File)        (* storage bucket: path, object *)
}.

(** The requests the modelled handlers send. *)
Inductive Request : Type :=
| SelectEvents
    (* from('events').select('*').order('event_date', { ascending: true }) *)
| SelectProfileEmail (id : string)
    (* from('profiles').select('email').eq('id', id).single() *)
| CountParticipants (event_id : string)
    (* from('participants').select('*', { count: 'exact', head: true }).eq('event_id', event_id) *)
| SelectParticipation (event_id volunteer_id : string)
    (* from('participants').select('*').eq('event_id', ..).eq('volunteer_id', ..).single() *)
| SelectParticipants (event_id : string)
    (* from('participants').select('*').eq('event_id', event_id) *)
| SelectUploads (event_id : string)
    (* from('uploads').select('*').eq('event_id', ..).order('created_at', { ascending: false }) *)
| InsertParticipant (event_id volunteer_id status : string)
| UpdateParticipantStatus (id status : string)
| InsertEvent (organizer_id title description location event_date : string)
| UpdateEvent (id title description location event_date : string)
| StorageUpload (path : string) (file : File)
| InsertUpload (user_id image_url category event_id : string).

Definition is_read (q : Request) : bool :=
  match q with
  | SelectEvents | SelectProfileEmail _ | CountParticipants _
  | SelectParticipation _ _ | SelectParticipants _ | SelectUploads _ => true
  | _ => false
  end.

Definition is_event_write (q : Request) : bool :=
  match q with
  | InsertEvent _ _ _ _ _ | UpdateEvent _ _ _ _ _ => true
  | _ => false
  end.

(** What the page cannot decide: whether the backend answers a request
    ([fails] gives the error text when it does not: transport, policy or
    constraint), the defaults it generates for new rows, the order on
    timestamps and the public address of a stored object. *)
Record Remote : Type := {
  fails : DB -> Request -> option string;
  gen_random_uuid : DB -> string;
  now : DB -> string;
  ts_leb : string -> string -> bool;
  getPublicUrl : string -> string
}.

Inductive Result (A : Type) : Type :=
| Ok (data : A)
| Error (message : string).
Arguments Ok {A} data.
Arguments Error {A} message.

Fixpoint insert_by {A : Type} (leb : A -> A -> bool) (x : A) (l : list A) : list A :=
  match l with
  | [] => [x]
  | y :: l' => if leb x y then x :: l else y :: insert_by leb x l'
  end.

(** [order(column)] *)
Definition sort_by {A : Type} (leb : A -> A -> bool) (l : list A) : list A :=
  fold_right (insert_by leb) [] l.

(** [.single()]: exactly one row, otherwise no data. *)
Definition single {A : Type} (rows : list A) : option A :=
  match rows with
  | [x] => Some x
  | _ => None
  end.

Section Queries.
Variable R : Remote.

Definition select_events (db : DB) : Result (list Event) :=
  match fails R db SelectEvents with
  | Some msg => Error msg
  | None =>
      Ok (sort_by (fun a b => ts_leb R (event_date a) (event_date b)) (events_table db))
  end.

Definition select_profile_email (db : DB) (id : string) : option string :=
  match fails R db (SelectProfileEmail id) with
  | Some _ => None
  | None =>
      option_map profile_email
        (single (filter (fun p => profile_id p =? id) (profiles_table db)))
  end.

(** The exact count of the rows with the given [event_id]; the query has
    no other filter. *)
Definition count_participants (db : DB) (event_id : string) : option nat :=
  match fails R db (CountParticipants event_id) with
  | Some _ => None
  | None =>
      Some (length (filter (fun p => p_event_id p =? event_id) (participants_table db)))
  end.

Definition select_participation (db : DB) (event_id vol_id : string) : option Participant :=
  match fails R db (SelectParticipation event_id vol_id) with
  | Some _ => None
  | None =>
      single (filter (fun p => (p_event_id p =? event_id) && (volunteer_id p =? vol_id))
                     (participants_table db))
  end.

Definition select_participants (db : DB) (event_id : string) : option (list Participant) :=
  match fails R db (SelectParticipants event_id) with
  | Some _ => None
  | None => Some (filter (fun p => p_event_id p =? event_id) (participants_table db))
  end.

Definition has_event (event_id : string) (r : UploadRow) : bool :=
  match row_event_id r with
  | Some e => e =? event_id
  | None => false
  end.

Definition select_uploads (db : DB) (event_id : string) : option (list UploadRow) :=
  match fails R db (SelectUploads event_id) with
  | Some _ => None
  | None =>
      Some (sort_by (fun a b => ts_leb R (row_created_at b) (row_created_at a))
                    (filter (has_event event_id) (uploads_table db)))
  end.

Definition with_participants (db : DB) (rows : list Participant) : DB :=
  {| profiles_table := profiles_table db;
     events_table := events_table db;
     participants_table := rows;
     uploads_table := uploads_table db;
     event_images := event_images db |}.

Definition with_events (db : DB) (rows : list Event) : DB :=
  {| profiles_table := profiles_table db;
     events_table := rows;
     participants_table := participants_table db;
     uploads_table := uploads_table db;
     event_images := event_images db |}.

Definition with_uploads (db : DB) (rows : list UploadRow) : DB :=
  {| profiles_table := profiles_table db;
     events_table := events_table db;
     participants_table := participants_table db;
     uploads_table := rows;
     event_images := event_images db |}.

Definition with_event_images (db : DB) (objs : list (string * File)) : DB :=
  {| profiles_table := profiles_table db;
     events_table := events_table db;
     participants_table := participants_table db;
     uploads_table := uploads_table db;
     event_images := objs |}.

(** [from('participants').insert({ event_id, volunteer_id, status })] *)
Definition insert_participant (db : DB) (event_id vol_id st : string) : option string * DB :=
  match fails R db (InsertParticipant event_id vol_id st) with
  | Some msg => (Some msg, db)
  | None =>
      (None,
       with_participants db
         (participants_table db ++
          [ {| participant_id := gen_random_uuid R db;
               p_event_id := event_id;
               volunteer_id := vol_id;
               status := st |} ]))
  end.

Definition set_status (st : string) (p : Participant) : Participant :=
  {| participant_id := participant_id p;
     p_event_id := p_event_id p;
     volunteer_id := volunteer_id p;
     status := st |}.

(** [from('participants').update({ status }).eq('id', id)] *)
Definition update_participant_status (db : DB) (id st : string) : option string * DB :=
  match fails R db (UpdateParticipantStatus id st) with
  | Some msg => (Some msg, db)
  | None =>
      (None,
       with_participants db
         (map (fun p => if participant_id p =? id then set_status st p else p)
              (participants_table db)))
  end.

Definition insert_event (db : DB) (org t d l date : string) : option string * DB :=
  match fails R db (InsertEvent org t d l date) with
  | Some msg => (Some msg, db)
  | None =>
      (None,
       with_events db
         (events_table db ++
          [ {| event_id_ := gen_random_uuid R db;
               organizer_id := org;
               title := t;
               description := d;
               location := l;
               event_date := date;
               event_created_at := now R db |} ]))
  end.

Definition update_event (db : DB) (id t d l date : string) : option string * DB :=
  match fails R db (UpdateEvent id t d l date) with
  | Some msg => (Some msg, db)
  | None =>
      (None,
       with_events db
         (map (fun e =>
                 if event_id_ e =? id
                 then {| event_id_ := event_id_ e;
                         organizer_id := organizer_id e;
                         title := t;
                         description := d;
                         location := l;
                         event_date := date;
                         event_created_at := event_created_at e |}
                 else e)
              (events_table db)))
  end.

(** [storage.from('event-images').upload(path, file, { upsert: false })]:
    an existing object is never replaced. *)
Definition storage_upload (db : DB) (path : string) (file : File) : option string * DB :=
  match fails R db (StorageUpload path file) with
  | Some msg => (Some msg, db)
  | None =>
      if existsb (fun o => fst o =? path) (event_images db)
      then (Some "The resource already exists", db)
      else (None, with_event_images db (event_images db ++ [(path, file)]))
  end.

Definition insert_upload (db : DB) (uid url cat event_id : string) : option string * DB :=
  match fails R db (InsertUpload uid url cat event_id) with
  | Some msg => (Some msg, db)
  | None =>
      (None,
       with_uploads db
         (uploads_table db ++
          [ {| row_id := gen_random_uuid R db;
               row_user_id := uid;
               row_image_url := url;
               row_category := cat;
               row_event_id := Some event_id;
               row_created_at := now R db |} ]))
  end.

End Queries.

End Backend.


(** ** The volunteer page *)

Module Volunteer.
Import Supabase Backend.

(** [session.user], as far as the page reads it. *)
Record User : Type := { uid : string; email : option string }.

(** [EventWithMeta]: the three added attributes are optional. *)
Record EventWithMeta : Type := {
  base : Event;
  organizer_email : option string;
  participant_count : option nat;
  user_participation : option Participant
}.

Inductive EventModalMode : Type := create | edit.

Record EventFormState : Type := {
  form_title : string;
  form_description : string;
  form_location : string;
  form_event_date : string
}.

Definition EMPTY_FORM : EventFormState :=
  {| form_title := ""; form_description := "";
     form_location := ""; form_event_date := "" |}.

(** The status argument of [handleUpdateParticipantStatus]. *)
Inductive Decision : Type := accepted | declined.

Definition status_of (d : Decision) : string :=
  match d with
  | accepted => "accepted"
  | declined => "declined"
  end.

(** The [useState] cells of [VolunteerPage] that the modelled handlers
    read or write (the cells of the sign-in form, [authLoading] and
    [roleLoading] are left out: no modelled handler touches them). *)
Record Page : Type := {
  currentUser : option User;
  profile : option Profile;
  events : list EventWithMeta;
  eventsLoading : bool;
  selectedEvent : option EventWithMeta;
  eventParticipants : list (Participant * option string);
  eventUploads : list (UploadRow * option string);
  detailLoading : bool;
  eventModalMode : option EventModalMode;
  editingEvent : option Event;
  eventForm : EventFormState;
  formLoading : bool;
  formError : string;
  uploadLoading : bool;
  uploadError : string
}.

Definition setEvents (v : list EventWithMeta) (p : Page) : Page :=
  {| currentUser := currentUser p; profile := profile p; events := v;
     eventsLoading := eventsLoading p; selectedEvent := selectedEvent p;
     eventParticipants := eventParticipants p; eventUploads := eventUploads p;
     detailLoading := detailLoading p; eventModalMode := eventModalMode p;
     editingEvent := editingEvent p; eventForm := eventForm p;
     formLoading := formLoading p; formError := formError p;
     uploadLoading := uploadLoading p; uploadError := uploadError p |}.

Definition setEventsLoading (v : bool) (p : Page) : Page :=
  {| currentUser := currentUser p; profile := profile p; events := events p;
     eventsLoading := v; selectedEvent := selectedEvent p;
     eventParticipants := eventParticipants p; eventUploads := eventUploads p;
     detailLoading := detailLoading p; eventModalMode := eventModalMode p;
     editingEvent := editingEvent p; eventForm := eventForm p;
     formLoading := formLoading p; formError := formError p;
     uploadLoading := uploadLoading p; uploadError := uploadError p |}.

Definition setSelectedEvent (v : option EventWithMeta) (p : Page) : Page :=
  {| currentUser := currentUser p; profile := profile p; events := events p;
     eventsLoading := eventsLoading p; selectedEvent := v;
     eventParticipants := eventParticipants p; eventUploads := eventUploads p;
     detailLoading := detailLoading p; eventModalMode := eventModalMode p;
     editingEvent := editingEvent p; eventForm := eventForm p;
     formLoading := formLoading p; formError := formError p;
     uploadLoading := uploadLoading p; uploadError := uploadError p |}.

Definition setEventParticipants (v : list (Participant * option string)) (p : Page) : Page :=
  {| currentUser := currentUser p; profile := profile p; events := events p;
     eventsLoading := eventsLoading p; selectedEvent := selectedEvent p;
     eventParticipants := v; eventUploads := eventUploads p;
     detailLoading := detailLoading p; eventModalMode := eventModalMode p;
     editingEvent := editingEvent p; eventForm := eventForm p;
     formLoading := formLoading p; formError := formError p;
     uploadLoading := uploadLoading p; uploadError := uploadError p |}.

Definition setEventUploads (v : list (UploadRow * option string)) (p : Page) : Page :=
  {| currentUser := currentUser p; profile := profile p; events := events p;
     eventsLoading := eventsLoading p; selectedEvent := selectedEvent p;
     eventParticipants := eventParticipants p; eventUploads := v;
     detailLoading := detailLoading p; eventModalMode := eventModalMode p;
     editingEvent := editingEvent p; eventForm := eventForm p;
     formLoading := formLoading p; formError := formError p;
     uploadLoading := uploadLoading p; uploadError := uploadError p |}.

Definition setDetailLoading (v : bool) (p : Page) : Page :=
  {| currentUser := currentUser p; profile := profile p; events := events p;
     eventsLoading := eventsLoading p; selectedEvent := selectedEvent p;
     eventParticipants := eventParticipants p; eventUploads := eventUploads p;
     detailLoading := v; eventModalMode := eventModalMode p;
     editingEvent := editingEvent p; eventForm := eventForm p;
     formLoading := formLoading p; formError := formError p;
     uploadLoading := uploadLoading p; uploadError := uploadError p |}.

Definition setEventModalMode (v : option EventModalMode) (p : Page) : Page :=
  {| currentUser := currentUser p; profile := profile p; events := events p;
     eventsLoading := eventsLoading p; selectedEvent := selectedEvent p;
     eventParticipants := eventParticipants p; eventUploads := eventUploads p;
     detailLoading := detailLoading p; eventModalMode := v;
     editingEvent := editingEvent p; eventForm := eventForm p;
     formLoading := formLoading p; formError := formError p;
     uploadLoading := uploadLoading p; uploadError := uploadError p |}.

Definition setFormLoading (v : bool) (p : Page) : Page :=
  {| currentUser := currentUser p; profile := profile p; events := events p;
     eventsLoading := eventsLoading p; selectedEvent := selectedEvent p;
     eventParticipants := eventParticipants p; eventUploads := eventUploads p;
     detailLoading := detailLoading p; eventModalMode := eventModalMode p;
     editingEvent := editingEvent p; eventForm := eventForm p;
     formLoading := v; formError := formError p;
     uploadLoading := uploadLoading p; uploadError := uploadError p |}.

Definition setFormError (v : string) (p : Page) : Page :=
  {| currentUser := currentUser p; profile := profile p; events := events p;
     eventsLoading := eventsLoading p; selectedEvent := selectedEvent p;
     eventParticipants := eventParticipants p; eventUploads := eventUploads p;
     detailLoading := detailLoading p; eventModalMode := eventModalMode p;
     editingEvent := editingEvent p; eventForm := eventForm p;
     formLoading := formLoading p; formError := v;
     uploadLoading := uploadLoading p; uploadError := uploadError p |}.

Definition setUploadLoading (v : bool) (p : Page) : Page :=
  {| currentUser := currentUser p; profile := profile p; events := events p;
     eventsLoading := eventsLoading p; selectedEvent := selectedEvent p;
     eventParticipants := eventParticipants p; eventUploads := eventUploads p;
     detailLoading := detailLoading p; eventModalMode := eventModalMode p;
     editingEvent := editingEvent p; eventForm := eventForm p;
     formLoading := formLoading p; formError := formError p;
     uploadLoading := v; uploadError := uploadError p |}.

Definition setUploadError (v : string) (p : Page) : Page :=
  {| currentUser := currentUser p; profile := profile p; events := events p;
     eventsLoading := eventsLoading p; selectedEvent := selectedEvent p;
     eventParticipants := eventParticipants p; eventUploads := eventUploads p;
     detailLoading := detailLoading p; eventModalMode := eventModalMode p;
     editingEvent := editingEvent p; eventForm := eventForm p;
     formLoading := formLoading p; formError := formError p;
     uploadLoading := uploadLoading p; uploadError := v |}.

(** The world a handler runs in: the page state, the hosted tables and
    the requests sent so far. *)
Record World : Type := {
  page : Page;
  db : DB;
  log : list Request
}.

(** Handlers are state transformers over the world. *)
Definition M (A : Type) : Type := World -> A * World.

Definition ret {A : Type} (a : A) : M A := fun w => (a, w).

Definition bind {A B : Type} (c : M A) (k : A -> M B) : M B :=
  fun w => k (fst (c w)) (snd (c w)).

Notation "x <- c ;; k" := (bind c (fun x => k))
  (at level 61, c at next level, right associativity).
Notation "c ;; k" := (bind c (fun _ => k))
  (at level 61, right associativity).

(** A [setX(v)] call. *)
Definition set (f : Page -> Page) : M unit :=
  fun w => (tt, {| page := f (page w); db := db w; log := log w |}).

(** A read: the request is logged, the tables are consulted. *)
Definition ask {A : Type} (q : Request) (answer : DB -> A) : M A :=
  fun w => (answer (db w), {| page := page w; db := db w; log := log w ++ [q] |}).

(** A write: the request is logged, the tables move on. *)
Definition tell {A : Type} (q : Request) (apply : DB -> A * DB) : M A :=
  fun w =>
    (fst (apply (db w)),
     {| page := page w; db := snd (apply (db w)); log := log w ++ [q] |}).

(** [Promise.all(xs.map(f))]; the lookups only read, so their
    interleaving is immaterial and they are run in list order. *)
Fixpoint mapM {A B : Type} (f : A -> M B) (xs : list A) : M (list B) :=
  match xs with
  | [] => ret []
  | x :: xs' =>
      y <- f x ;;
      ys <- mapM f xs' ;;
      ret (y :: ys)
  end.

Section Handlers.
Variable R : Remote.

(** [new Date(s).toISOString()]; [None] when the date is invalid and the
    call throws a [RangeError]. *)
Variable toISOString : string -> option string.

(** The render whose closures the handlers are: they read [snap], their
    updates go to the world. *)
Variable snap : Page.

(** The body of the [eventsData.map] callback in [fetchEvents]. *)
Definition enrichEvent (ev : Event) : M EventWithMeta :=
  org <- ask (SelectProfileEmail (organizer_id ev))
             (fun d => select_profile_email R d (organizer_id ev)) ;;
  count <- ask (CountParticipants (event_id_ ev))
               (fun d => count_participants R d (event_id_ ev)) ;;
  userPart <- match currentUser snap with
              | Some u =>
                  ask (SelectParticipation (event_id_ ev) (uid u))
                      (fun d => select_participation R d (event_id_ ev) (uid u))
              | None => ret None
              end ;;
  ret {| base := ev;
         organizer_email := Some (nullish org "Unknown");
         participant_count := Some (nullish count 0);
         user_participation := userPart |}.

Definition fetchEvents : M unit :=
  set (setEventsLoading true) ;;
  r <- ask SelectEvents (select_events R) ;;
  match r with
  | Error _ => set (setEventsLoading false)
  | Ok eventsData =>
      enriched <- mapM enrichEvent eventsData ;;
      set (setEvents enriched) ;;
      set (setEventsLoading false)
  end.

Definition fetchEventDetail (event : EventWithMeta) : M unit :=
  set (setDetailLoading true) ;;
  set (setSelectedEvent (Some event)) ;;
  parts <- ask (SelectParticipants (event_id_ (base event)))
               (fun d => select_participants R d (event_id_ (base event))) ;;
  enrichedParts <-
    mapM (fun p =>
            prof <- ask (SelectProfileEmail (volunteer_id p))
                        (fun d => select_profile_email R d (volunteer_id p)) ;;
            ret (p, Some (nullish prof "Unknown")))
         (nullish parts []) ;;
  set (setEventParticipants enrichedParts) ;;
  ups <- ask (SelectUploads (event_id_ (base event)))
             (fun d => select_uploads R d (event_id_ (base event))) ;;
  enrichedUps <-
    mapM (fun u =>
            prof <- ask (SelectProfileEmail (row_user_id u))
                        (fun d => select_profile_email R d (row_user_id u)) ;;
            ret (u, Some (nullish prof "Unknown")))
         (nullish ups []) ;;
  set (setEventUploads enrichedUps) ;;
  set (setDetailLoading false).

Definition handleJoinEvent (eventId : string) : M unit :=
  match currentUser snap with
  | None => ret tt
  | Some u =>
      error <- tell (InsertParticipant eventId (uid u) "accepted")
                    (fun d => insert_participant R d eventId (uid u) "accepted") ;;
      match error with
      | None => fetchEvents
      | Some _ => ret tt
      end
  end.

Definition handleUpdateParticipantStatus (participantId : string) (st : Decision) : M unit :=
  tell (UpdateParticipantStatus participantId (status_of st))
       (fun d => update_participant_status R d participantId (status_of st)) ;;
  match selectedEvent snap with
  | Some ev => fetchEventDetail ev
  | None => ret tt
  end.

Definition required_message : string := "Title, location, and date are required.".

Definition handleEventFormSubmit : M unit :=
  match currentUser snap with
  | None => ret tt
  | Some u =>
      set (setFormLoading true) ;;
      set (setFormError "") ;;
      let f := eventForm snap in
      if js_not (form_title f) || js_not (form_location f) || js_not (form_event_date f)
      then
        set (setFormError required_message) ;;
        set (setFormLoading false)
      else
        let finish :=
          set (setEventModalMode None) ;;
          set (setFormLoading false) ;;
          fetchEvents in
        match eventModalMode snap, editingEvent snap with
        | Some create, _ =>
            match toISOString (form_event_date f) with
            | None => ret tt               (* RangeError: the handler stops here *)
            | Some iso =>
                error <- tell (InsertEvent (uid u) (form_title f) (form_description f)
                                           (form_location f) iso)
                              (fun d => insert_event R d (uid u) (form_title f)
                                          (form_description f) (form_location f) iso) ;;
                match error with
                | Some msg => set (setFormError msg) ;; set (setFormLoading false)
                | None => finish
                end
            end
        | Some edit, Some ev =>
            match toISOString (form_event_date f) with
            | None => ret tt
            | Some iso =>
                error <- tell (UpdateEvent (event_id_ ev) (form_title f) (form_description f)
                                           (form_location f) iso)
                              (fun d => update_event R d (event_id_ ev) (form_title f)
                                          (form_description f) (form_location f) iso) ;;
                match error with
                | Some msg => set (setFormError msg) ;; set (setFormLoading false)
                | None => finish
                end
            end
        | _, _ => finish
        end
  end.

(** [handleImageUpload]; [date_now] is the decimal rendering of
    [Date.now()]. *)
Definition handleImageUpload (date_now : string) (file : File) : M unit :=
  match currentUser snap, selectedEvent snap with
  | Some u, Some sel =>
      set (setUploadLoading true) ;;
      set (setUploadError "") ;;
      let filePath :=
        (event_id_ (base sel) ++ "/" ++ uid u ++ "/" ++ date_now ++ "_" ++ file_name file)%string in
      storageError <- tell (StorageUpload filePath file)
                           (fun d => storage_upload R d filePath file) ;;
      match storageError with
      | Some msg => set (setUploadError msg) ;; set (setUploadLoading false)
      | None =>
          let publicUrl := getPublicUrl R filePath in
          dbError <- tell (InsertUpload (uid u) publicUrl "event" (event_id_ (base sel)))
                          (fun d => insert_upload R d (uid u) publicUrl "event"
                                      (event_id_ (base sel))) ;;
          match dbError with
          | Some msg => set (setUploadError msg) ;; set (setUploadLoading false)
          | None =>
              set (setUploadLoading false) ;;
              fetchEventDetail sel
          end
      end
  | _, _ => ret tt
  end.

End Handlers.

(** A user action: the handler of the current render runs on the current
    world. *)
Definition dispatch (h : Page -> M unit) (w : World) : World :=
  snd (h (page w) w).

(** The organizer's accept and decline buttons. *)
Definition setStatus (R : Remote) (participantId : string) (st : Decision) : World -> World :=
  dispatch (fun snap => handleUpdateParticipantStatus R snap participantId st).

(** A computation that only reads the tables: they are left as they were
    and every request it sends is a select. *)
Definition read_only {A : Type} (c : M A) : Prop :=
  forall w,
    db (snd (c w)) = db w /\
    exists sent, log (snd (c w)) = log w ++ sent /\ Forall (fun q => is_read q = true) sent.

(** The [participants] rows of one event, and those of them with a
    given status. *)
Definition rows_of_event (event_id : string) (rows : list Participant) : list Participant :=
  filter (fun p => p_event_id p =? event_id) rows.

Definition rows_with_status (st : string) (rows : list Participant) : list Participant :=
  filter (fun p => status p =? st) rows.

Definition rows_with_other_status (rows : list Participant) : list Participant :=
  filter (fun p => negb ((status p =? "pending") || (status p =? "accepted")
                         || (status p =? "declined"))) rows.

End Volunteer.


(** ** Sample data *)

Module Sample.
Import Supabase Backend Volunteer.

(** A client library that takes every pair of arguments. *)
Definition lenient : Library := {| rejects := fun _ _ => None |}.

(** A client library that takes an endpoint only if it names the http or
    the https scheme. *)
Definition url_checking : Library :=
  {| rejects := fun url _ =>
       match url with
       | Some u =>
           if String.prefix "http://" u || String.prefix "https://" u
           then None
           else Some "Invalid supabaseUrl: Must be a valid HTTP or HTTPS URL."
       | None => Some "supabaseUrl is required."
       end |}.

(** A backend that answers every request. Timestamps are ISO-8601 in one
    zone, which the order on strings orders. *)
Definition reliable : Remote :=
  {| fails := fun _ _ => None;
     gen_random_uuid := fun _ => "3f2b8c1e-9d4a-4c6b-8e55-0a1b2c3d4e5f";
     now := fun _ => "2024-05-20T09:30:00+00:00";
     ts_leb := String.leb;
     getPublicUrl := fun path =>
       ("https://davao.supabase.co/storage/v1/object/public/event-images/" ++ path)%string |}.

(** A backend on which the participant count lookup is refused. *)
Definition count_refused : Remote :=
  {| fails := fun _ q =>
       match q with
       | CountParticipants _ => Some "permission denied for table participants"
       | _ => None
       end;
     gen_random_uuid := gen_random_uuid reliable;
     now := now reliable;
     ts_leb := ts_leb reliable;
     getPublicUrl := getPublicUrl reliable |}.

Definition toISOString (s : string) : option string :=
  if s =? "2024-06-01T08:00" then Some "2024-06-01T00:00:00.000Z" else None.

Definition alice : User := {| uid := "user-a"; email := Some "a@davao.ph" |}.
Definition bob : User := {| uid := "user-b"; email := Some "b@davao.ph" |}.

Definition bucana : Event :=
  {| event_id_ := "event-1";
     organizer_id := "user-a";
     title := "Bucana Beach Clean-up";
     description := "Bring gloves";
     location := "Bucana";
     event_date := "2024-06-01T00:00:00+00:00";
     event_created_at := "2024-05-01T00:00:00+00:00" |}.

Definition matina : Event :=
  {| event_id_ := "event-2";
     organizer_id := "user-a";
     title := "Matina Creek Clean-up";
     description := "";
     location := "Matina";
     event_date := "2024-05-25T00:00:00+00:00";
     event_created_at := "2024-05-02T00:00:00+00:00" |}.

Definition row (id ev vol st : string) : Participant :=
  {| participant_id := id; p_event_id := ev; volunteer_id := vol; status := st |}.

Definition tables : DB :=
  {| profiles_table :=
       [ {| profile_id := "user-a"; profile_email := "a@davao.ph";
            role := "organizer"; updated_at := "2024-05-01T00:00:00+00:00" |};
         {| profile_id := "user-b"; profile_email := "b@davao.ph";
            role := "volunteer"; updated_at := "2024-05-01T00:00:00+00:00" |} ];
     events_table := [ bucana; matina ];
     participants_table :=
       [ row "p-1" "event-1" "user-b" "accepted";
         row "p-2" "event-1" "user-c" "declined";
         row "p-3" "event-2" "user-b" "accepted";
         row "p-4" "event-1" "user-d" "pending" ];
     uploads_table := [];
     event_images := [] |}.

Definition blank : Page :=
  {| currentUser := None; profile := None; events := []; eventsLoading := true;
     selectedEvent := None; eventParticipants := []; eventUploads := [];
     detailLoading := false; eventModalMode := None; editingEvent := None;
     eventForm := EMPTY_FORM; formLoading := false; formError := "";
     uploadLoading := false; uploadError := "" |}.

Definition signed_in (u : User) (p : Page) : Page :=
  {| currentUser := Some u; profile := profile p; events := events p;
     eventsLoading := eventsLoading p; selectedEvent := selectedEvent p;
     eventParticipants := eventParticipants p; eventUploads := eventUploads p;
     detailLoading := detailLoading p; eventModalMode := eventModalMode p;
     editingEvent := editingEvent p; eventForm := eventForm p;
     formLoading := formLoading p; formError := formError p;
     uploadLoading := uploadLoading p; uploadError := uploadError p |}.

(** The create-event modal, opened and filled in. *)
Definition with_form (f : EventFormState) (p : Page) : Page :=
  {| currentUser := currentUser p; profile := profile p; events := events p;
     eventsLoading := eventsLoading p; selectedEvent := selectedEvent p;
     eventParticipants := eventParticipants p; eventUploads := eventUploads p;
     detailLoading := detailLoading p; eventModalMode := Some create;
     editingEvent := None; eventForm := f;
     formLoading := formLoading p; formError := "";
     uploadLoading := uploadLoading p; uploadError := uploadError p |}.

Definition world (p : Page) : World := {| page := p; db := tables; log := [] |}.

(** The tables before any event exists. *)
Definition fresh_tables : DB :=
  {| profiles_table := profiles_table tables;
     events_table := [];
     participants_table := [];
     uploads_table := [];
     event_images := [] |}.

(** Another user takes over the browser: same tables, a fresh page. *)
Definition seen_by (u : User) (w : World) : World :=
  {| page := signed_in u blank; db := db w; log := log w |}.

Definition no_location : EventFormState :=
  {| form_title := "Bucana Beach Clean-up"; form_description := "Bring gloves";
     form_location := ""; form_event_date := "2024-06-01T08:00" |}.

Definition complete : EventFormState :=
  {| form_title := "Bucana Beach Clean-up"; form_description := "Bring gloves";
     form_location := "Bucana"; form_event_date := "2024-06-01T08:00" |}.

(** The detail view of an event, opened by a signed-in user. *)
Definition viewing (ev : Event) (p : Page) : Page :=
  setSelectedEvent
    (Some {| base := ev; organizer_email := Some "a@davao.ph";
             participant_count := Some 3; user_participation := None |}) p.

Definition photo : File := {| file_name := "shore.png"; file_type := "image/png" |}.

End Sample.


(** ** The classifier page: the remaining handlers and the result card *)

Module ClassifierEvents.
Import Classifier.

(** [files?.[0]] of a [FileList] that may be absent. *)
Definition first_file (files : option (list File)) : option File :=
  match files with
  | Some (f :: _) => Some f
  | _ => None
  end.

Definition setIsDragging (b : bool) (s : State) : State :=
  {| selectedFile := selectedFile s;
     previewUrl := previewUrl s;
     isLoading := isLoading s;
     result := result s;
     isDragging := b |}.

(** [handleInputChange]; [createObjectURL] stands for
    [URL.createObjectURL]. *)
Definition handleInputChange (createObjectURL : File -> string)
           (files : option (list File)) (s : State) : State :=
  match first_file files with
  | Some file => handleFileSelect (createObjectURL file) file s
  | None => s
  end.

Definition handleDragOver (s : State) : State := setIsDragging true s.

Definition handleDragLeave (s : State) : State := setIsDragging false s.

(** [handleDrop]: [file.type.startsWith('image/')] guards the selection. *)
Definition handleDrop (createObjectURL : File -> string)
           (files : option (list File)) (s : State) : State :=
  let s1 := setIsDragging false s in
  match first_file files with
  | Some file =>
      if String.prefix "image/" (file_type file)
      then handleFileSelect (createObjectURL file) file s1
      else s1
  | None => s1
  end.

(** The part of [handleClassify] after the [await]: it runs when the
    timer fires, on the state of that moment. *)
Definition classify_resume (random : Q) (s : State) : State :=
  {| selectedFile := selectedFile s;
     previewUrl := previewUrl s;
     isLoading := false;
     result := js_index categories
                 (Qfloor (random * inject_Z (Z.of_nat (length categories)))%Q);
     isDragging := isDragging s |}.

Record Disposal : Type := {
  color : string;
  emoji : string;
  instructions : string
}.

(** [DISPOSAL_INSTRUCTIONS[key]]; [None] is the [undefined] of a missing
    key. *)
Definition DISPOSAL_INSTRUCTIONS (key : string) : option Disposal :=
  if key =? "Biodegradable" then
    Some {| color := "bg-green-100 border-green-400 text-green-800";
            emoji := "🌱";
            instructions :=
              "Place in your green bin. Includes food scraps, garden waste, and paper. Collected Monday & Thursday in most barangays." |}
  else if key =? "Recyclable" then
    Some {| color := "bg-blue-100 border-blue-400 text-blue-800";
            emoji := "♻️";
            instructions :=
              "Place in your blue bin. Clean and dry before disposal. Includes plastics, glass, metal, and cardboard. Collected Wednesday & Saturday." |}
  else if key =? "Residual" then
    Some {| color := "bg-gray-100 border-gray-400 text-gray-800";
            emoji := "🗑️";
            instructions :=
              "Place in your black bin. Non-recyclable, non-hazardous waste. Collected Tuesday & Friday in most areas." |}
  else if key =? "Special Waste" then
    Some {| color := "bg-red-100 border-red-400 text-red-800";
            emoji := "⚠️";
            instructions :=
              "Do NOT place in regular bins. Bring to designated DENR drop-off points. Includes batteries, e-waste, chemicals, and medical waste." |}
  else None.

(** The result card of the render: absent while [result] is falsy; a
    result without an entry in the table would make the render throw. *)
Inductive Card : Type :=
| NoCard
| ResultCard (className emoji heading text : string)
| RenderThrows.

Definition resultCard (s : State) : Card :=
  match result s with
  | None => NoCard
  | Some r =>
      if r =? "" then NoCard
      else
        match DISPOSAL_INSTRUCTIONS r with
        | Some d =>
            ResultCard ("mt-8 border-2 rounded-2xl p-8 " ++ color d)%string
                       (emoji d) r (instructions d)
        | None => RenderThrows
        end
  end.

(** The page between two events: its state and the classification timers
    that have not fired yet. *)
Record Running : Type := { st : State; timers : nat }.

Definition start : Running := {| st := initial; timers := 0 |}.

(** One event of the page. A click on the classify button runs
    [handleClassify] up to its [await]; the rest runs when the timer
    fires, whatever happened in between. *)
Inductive step : Running -> Running -> Prop :=
| step_input (r : Running) (url : File -> string) (files : option (list File)) :
    step r {| st := handleInputChange url files (st r); timers := timers r |}
| step_drag_over (r : Running) :
    step r {| st := handleDragOver (st r); timers := timers r |}
| step_drag_leave (r : Running) :
    step r {| st := handleDragLeave (st r); timers := timers r |}
| step_drop (r : Running) (url : File -> string) (files : option (list File)) :
    step r {| st := handleDrop url files (st r); timers := timers r |}
| step_reset (r : Running) :
    step r {| st := handleReset (st r); timers := timers r |}
| step_classify (r : Running) :
    step r {| st := handleClassify_pending (st r);
              timers := match selectedFile (st r) with
                        | Some _ => S (timers r)
                        | None => timers r
                        end |}
| step_timer (r : Running) (n : nat) (random : Q) :
    timers r = S n ->
    (0 <= random)%Q -> (random < 1)%Q ->
    step r {| st := classify_resume random (st r); timers := n |}.

Inductive reachable : Running -> Prop :=
| reachable_start : reachable start
| reachable_step (r r' : Running) : reachable r -> step r r' -> reachable r'.

End ClassifierEvents.

(** ** The volunteer page: what the cards and the detail modal offer *)

Module VolunteerView.
Import Supabase Backend Volunteer.

(** [profile?.role === 'organizer'] *)
Definition isOrganizer (p : Page) : bool :=
  match profile p with
  | Some pr => role pr =? "organizer"
  | None => false
  end.

(** [currentUser && ev.organizer_id === currentUser.id] *)
Definition isMyEvent (currentUser : option User) (ev : Event) : bool :=
  match currentUser with
  | Some u => organizer_id ev =? uid u
  | None => false
  end.

Inductive CardButton : Type := ViewDetails | Leave | Join | Edit | Delete.

(** The buttons of [EventCard]; [isPast] is [eventDate < new Date()]. *)
Definition eventCardButtons (currentUser : option User) (isMyEvent isPast : bool)
           (event : EventWithMeta) : list CardButton :=
  let hasJoined := match user_participation event with Some _ => true | None => false end in
  [ViewDetails]
  ++ (if match currentUser with Some _ => true | None => false end
         && negb isMyEvent && negb isPast
      then (if hasJoined then [Leave] else [Join])
      else [])
  ++ (if isMyEvent then [Edit; Delete] else []).

Inductive RowButton : Type := Accept | Decline | Remove.

(** The buttons beside one participant of [EventDetailModal]. *)
Definition participantButtons (isMyEvent : bool) (p : Participant) : list RowButton :=
  if isMyEvent
  then (if negb (status p =? "accepted") then [Accept] else [])
       ++ (if negb (status p =? "declined") then [Decline] else [])
       ++ [Remove]
  else [].

(** [participants.some(p => p.volunteer_id === currentUser?.id && p.status === 'accepted')] *)
Definition isParticipant (participants : list (Participant * option string))
           (currentUser : option User) : bool :=
  existsb (fun p =>
             match currentUser with
             | Some u => (volunteer_id (fst p) =? uid u) && (status (fst p) =? "accepted")
             | None => false
             end)
          participants.

(** [currentUser && (isParticipant || isMyEvent)] *)
Definition uploadButtonShown (participants : list (Participant * option string))
           (currentUser : option User) (event : EventWithMeta) : bool :=
  match currentUser with
  | Some _ => isParticipant participants currentUser || isMyEvent currentUser (base event)
  | None => false
  end.

(** [currentUser && u.user_id === currentUser.id] *)
Definition deleteUploadShown (currentUser : option User) (u : Upload) : bool :=
  match currentUser with
  | Some usr => user_id u =? uid usr
  | None => false
  end.

End VolunteerView.


(** ** The volunteer page: the remaining handlers *)

Module VolunteerMore.
Import Supabase Backend Volunteer.

Definition setEventForm (v : EventFormState) (p : Page) : Page :=
  {| currentUser := currentUser p; profile := profile p; events := events p;
     eventsLoading := eventsLoading p; selectedEvent := selectedEvent p;
     eventParticipants := eventParticipants p; eventUploads := eventUploads p;
     detailLoading := detailLoading p; eventModalMode := eventModalMode p;
     editingEvent := editingEvent p; eventForm := v;
     formLoading := formLoading p; formError := formError p;
     uploadLoading := uploadLoading p; uploadError := uploadError p |}.

Definition setEditingEvent (v : option Event) (p : Page) : Page :=
  {| currentUser := currentUser p; profile := profile p; events := events p;
     eventsLoading := eventsLoading p; selectedEvent := selectedEvent p;
     eventParticipants := eventParticipants p; eventUploads := eventUploads p;
     detailLoading := detailLoading p; eventModalMode := eventModalMode p;
     editingEvent := v; eventForm := eventForm p;
     formLoading := formLoading p; formError := formError p;
     uploadLoading := uploadLoading p; uploadError := uploadError p |}.

Definition setCurrentUser (v : option User) (p : Page) : Page :=
  {| currentUser := v; profile := profile p; events := events p;
     eventsLoading := eventsLoading p; selectedEvent := selectedEvent p;
     eventParticipants := eventParticipants p; eventUploads := eventUploads p;
     detailLoading := detailLoading p; eventModalMode := eventModalMode p;
     editingEvent := editingEvent p; eventForm := eventForm p;
     formLoading := formLoading p; formError := formError p;
     uploadLoading := uploadLoading p; uploadError := uploadError p |}.

Definition setProfile (v : option Profile) (p : Page) : Page :=
  {| currentUser := currentUser p; profile := v; events := events p;
     eventsLoading := eventsLoading p; selectedEvent := selectedEvent p;
     eventParticipants := eventParticipants p; eventUploads := eventUploads p;
     detailLoading := detailLoading p; eventModalMode := eventModalMode p;
     editingEvent := editingEvent p; eventForm := eventForm p;
     formLoading := formLoading p; formError := formError p;
     uploadLoading := uploadLoading p; uploadError := uploadError p |}.

(** [openCreateModal] *)
Definition openCreateModal : M unit :=
  set (setEventForm EMPTY_FORM) ;;
  set (setFormError "") ;;
  set (setEditingEvent None) ;;
  set (setEventModalMode (Some create)).

(** [openEditModal]; [slice(0, 16)] keeps the part a datetime-local input
    shows. *)
Definition openEditModal (ev : Event) : M unit :=
  set (setEventForm {| form_title := title ev;
                       form_description := description ev;
                       form_location := location ev;
                       form_event_date := String.substring 0 16 (event_date ev) |}) ;;
  set (setFormError "") ;;
  set (setEditingEvent (Some ev)) ;;
  set (setEventModalMode (Some edit)).

(** The keys of [EventFormState]. *)
Inductive Field : Type := f_title | f_description | f_location | f_event_date.

(** [{ ...prev, [field]: val }] *)
Definition with_field (field : Field) (val : string) (prev : EventFormState) : EventFormState :=
  {| form_title := match field with f_title => val | _ => form_title prev end;
     form_description := match field with f_description => val | _ => form_description prev end;
     form_location := match field with f_location => val | _ => form_location prev end;
     form_event_date := match field with f_event_date => val | _ => form_event_date prev end |}.

(** The [onChange] of the form modal: a functional update of the form. *)
Definition onChange (field : Field) (val : string) : M unit :=
  fun w => set (setEventForm (with_field field val (eventForm (page w)))) w.

(** The [onClose] of the form modal. *)
Definition closeFormModal : M unit := set (setEventModalMode None).

(** The [onClose] of the detail modal. *)
Definition closeDetailModal : M unit :=
  set (setSelectedEvent None) ;;
  set (setUploadError "").

(** *** Requests beyond those of the earlier handlers *)

Inductive Call : Type :=
| Earlier (q : Request)
| DeleteParticipation (event_id volunteer_id : string)
    (* from('participants').delete().eq('event_id', ..).eq('volunteer_id', ..) *)
| DeleteParticipant (id : string)
    (* from('participants').delete().eq('id', id) *)
| DeleteEvent (id : string)
    (* from('events').delete().eq('id', id) *)
| DeleteUploadRow (id : string)
    (* from('uploads').delete().eq('id', id) *)
| UpdateRole (id role : string)
    (* from('profiles').update({ role }).eq('id', id) *)
| SelectProfile (id : string)
    (* from('profiles').select('*').eq('id', id).single() *)
| InsertProfile (id email role : string)
| SignUp (email password : string)
| SignInWithPassword (email password : string)
| SignOut.

(** The requests of a trace that the earlier handlers send, and the
    others, each in the order of the trace. *)
Definition earlier_requests (calls : list Call) : list Request :=
  flat_map (fun c => match c with Earlier q => [q] | _ => [] end) calls.

Definition further_requests (calls : list Call) : list Call :=
  filter (fun c => match c with Earlier _ => false | _ => true end) calls.

(** What the auth service answered to [signUp]. *)
Record SignUpResponse : Type := {
  data_user : option User;
  signup_error : option string
}.

(** The backend of [Remote], with its answers to the further requests. *)
Record Service : Type := {
  remote : Remote;
  refuses : DB -> Call -> option string;
  auth_signUp : string -> string -> SignUpResponse;
  auth_signIn : string -> string -> option string
}.

Inductive AuthMode : Type := signin | signup.

(** The [useState] cells the earlier page record leaves out. *)
Record Cells : Type := {
  authLoading : bool;
  roleLoading : bool;
  authMode : AuthMode;
  authEmail : string;
  authPassword : string;
  authError : string;
  authFormLoading : bool
}.

Definition setAuthLoading (v : bool) (c : Cells) : Cells :=
  {| authLoading := v; roleLoading := roleLoading c; authMode := authMode c;
     authEmail := authEmail c; authPassword := authPassword c;
     authError := authError c; authFormLoading := authFormLoading c |}.

Definition setRoleLoading (v : bool) (c : Cells) : Cells :=
  {| authLoading := authLoading c; roleLoading := v; authMode := authMode c;
     authEmail := authEmail c; authPassword := authPassword c;
     authError := authError c; authFormLoading := authFormLoading c |}.

Definition setAuthError (v : string) (c : Cells) : Cells :=
  {| authLoading := authLoading c; roleLoading := roleLoading c; authMode := authMode c;
     authEmail := authEmail c; authPassword := authPassword c;
     authError := v; authFormLoading := authFormLoading c |}.

Definition setAuthFormLoading (v : bool) (c : Cells) : Cells :=
  {| authLoading := authLoading c; roleLoading := roleLoading c; authMode := authMode c;
     authEmail := authEmail c; authPassword := authPassword c;
     authError := authError c; authFormLoading := v |}.

(** The whole page and its backend: all cells, the tables, and every
    request sent, in order. *)
Record App : Type := {
  app_page : Page;
  app_cells : Cells;
  app_db : DB;
  app_calls : list Call
}.

(** An earlier handler, run inside the whole page: its requests join the
    trace. *)
Definition lift {A : Type} (c : M A) (a : App) : A * App :=
  let r := c {| page := app_page a; db := app_db a; log := [] |} in
  (fst r,
   {| app_page := page (snd r);
      app_cells := app_cells a;
      app_db := db (snd r);
      app_calls := app_calls a ++ map Earlier (log (snd r)) |}).

Definition set_page (f : Page -> Page) (a : App) : App :=
  {| app_page := f (app_page a); app_cells := app_cells a;
     app_db := app_db a; app_calls := app_calls a |}.

Definition set_cells (f : Cells -> Cells) (a : App) : App :=
  {| app_page := app_page a; app_cells := f (app_cells a);
     app_db := app_db a; app_calls := app_calls a |}.

(** A further request: logged, answered from the tables. *)
Definition send {A : Type} (q : Call) (apply : DB -> A * DB) (a : App) : A * App :=
  (fst (apply (app_db a)),
   {| app_page := app_page a; app_cells := app_cells a;
      app_db := snd (apply (app_db a)); app_calls := app_calls a ++ [q] |}).

Section Further.
Variable Sv : Service.

Definition delete_participation (d : DB) (event_id vol_id : string) : option string * DB :=
  match refuses Sv d (DeleteParticipation event_id vol_id) with
  | Some msg => (Some msg, d)
  | None =>
      (None,
       with_participants d
         (filter (fun p => negb ((p_event_id p =? event_id) && (volunteer_id p =? vol_id)))
                 (participants_table d)))
  end.

Definition delete_participant (d : DB) (id : string) : option string * DB :=
  match refuses Sv d (DeleteParticipant id) with
  | Some msg => (Some msg, d)
  | None =>
      (None,
       with_participants d
         (filter (fun p => negb (participant_id p =? id)) (participants_table d)))
  end.

Definition delete_event (d : DB) (id : string) : option string * DB :=
  match refuses Sv d (DeleteEvent id) with
  | Some msg => (Some msg, d)
  | None =>
      (None, with_events d (filter (fun e => negb (event_id_ e =? id)) (events_table d)))
  end.

Definition delete_upload_row (d : DB) (id : string) : option string * DB :=
  match refuses Sv d (DeleteUploadRow id) with
  | Some msg => (Some msg, d)
  | None =>
      (None, with_uploads d (filter (fun u => negb (row_id u =? id)) (uploads_table d)))
  end.

Definition with_profiles (d : DB) (rows : list Profile) : DB :=
  {| profiles_table := rows;
     events_table := events_table d;
     participants_table := participants_table d;
     uploads_table := uploads_table d;
     event_images := event_images d |}.

(** An update that matches no row is not an error. The [updated_at]
    column is left to the backend and kept as it is here. *)
Definition update_role (d : DB) (id new_role : string) : option string * DB :=
  match refuses Sv d (UpdateRole id new_role) with
  | Some msg => (Some msg, d)
  | None =>
      (None,
       with_profiles d
         (map (fun p =>
                 if profile_id p =? id
                 then {| profile_id := profile_id p;
                         profile_email := profile_email p;
                         role := new_role;
                         updated_at := updated_at p |}
                 else p)
              (profiles_table d)))
  end.

Definition select_profile (d : DB) (id : string) : option Profile :=
  match refuses Sv d (SelectProfile id) with
  | Some _ => None
  | None => single (filter (fun p => profile_id p =? id) (profiles_table d))
  end.

Definition insert_profile (d : DB) (id mail new_role : string) : option string * DB :=
  match refuses Sv d (InsertProfile id mail new_role) with
  | Some msg => (Some msg, d)
  | None =>
      (None,
       with_profiles d
         (profiles_table d ++
          [ {| profile_id := id; profile_email := mail; role := new_role;
               updated_at := now (remote Sv) d |} ]))
  end.

(** The renders whose closures the handlers are. *)
Variable snap : Page.
Variable csnap : Cells.

(** [fetchProfile] *)
Definition fetchProfile (userId : string) (a : App) : App :=
  let r := send (SelectProfile userId) (fun d => (select_profile d userId, d)) a in
  match fst r with
  | Some data => set_page (setProfile (Some data)) (snd r)
  | None => snd r
  end.

(** The [getSession().then(...)] of the mount effect; [session_user] is
    [session?.user]. *)
Definition onSession (session_user : option User) (a : App) : App :=
  let a1 := set_page (setCurrentUser session_user) a in
  let a2 := match session_user with
            | Some u => fetchProfile (uid u) a1
            | None => a1
            end in
  set_cells (setAuthLoading false) a2.

(** The [onAuthStateChange] listener. *)
Definition onAuthStateChange (session_user : option User) (a : App) : App :=
  let a1 := set_page (setCurrentUser session_user) a in
  match session_user with
  | Some u => fetchProfile (uid u) a1
  | None => set_page (setProfile None) a1
  end.

(** The effect of lines 842-844 calls [fetchEvents] after the first render
    and after each render in which [useCallback] (lines 787 and 840) made
    a new [fetchEvents], that is, in which [currentUser] is not the value
    of the render before. The loader called is the one of the new
    render. *)
Definition fetchEventsEffect (a : App) : App :=
  snd (lift (fetchEvents (remote Sv) (app_page a)) a).

Definition same_contents (u v : User) : bool :=
  (uid u =? uid v) &&
  match email u, email v with
  | Some x, Some y => x =? y
  | None, None => true
  | _, _ => false
  end.

(** Whether React finds another value in the [currentUser] cell: the
    negation of [Object.is] on what the cell held and what the listener
    stored. [null] is [null] and no object is [null]; two user objects
    of different contents are two objects; of two with the same contents
    [fresh] says whether the auth client delivered another object than
    the one held. *)
Definition currentUser_replaced (held stored : option User) (fresh : bool) : bool :=
  match held, stored with
  | None, None => false
  | Some u, Some v => fresh || negb (same_contents u v)
  | _, _ => true
  end.

(** A change of session as the page goes through it: the listener runs,
    React renders, and the effect reloads the catalogue if the render
    made a new loader. The profile lookup of the listener and the loader
    write different cells and only read the tables, so the page and the
    tables they leave do not depend on how their steps interleave; the
    trace lists the lookup first. *)
Definition sessionChange (session_user : option User) (fresh : bool) (a : App) : App :=
  let a1 := onAuthStateChange session_user a in
  if currentUser_replaced (currentUser (app_page a)) session_user fresh
  then fetchEventsEffect a1
  else a1.

(** [handleSignUp] *)
Definition handleSignUp (a : App) : App :=
  let a1 := set_cells (setAuthError "") (set_cells (setAuthFormLoading true) a) in
  let r := send (SignUp (authEmail csnap) (authPassword csnap))
                (fun d => (auth_signUp Sv (authEmail csnap) (authPassword csnap), d)) a1 in
  match signup_error (fst r) with
  | Some message =>
      set_cells (setAuthFormLoading false) (set_cells (setAuthError message) (snd r))
  | None =>
      let a2 := match data_user (fst r) with
                | Some u =>
                    snd (send (InsertProfile (uid u) (authEmail csnap) "volunteer")
                              (fun d => insert_profile d (uid u) (authEmail csnap) "volunteer")
                              (snd r))
                | None => snd r
                end in
      set_cells (setAuthFormLoading false) a2
  end.

(** [handleSignIn] *)
Definition handleSignIn (a : App) : App :=
  let a1 := set_cells (setAuthError "") (set_cells (setAuthFormLoading true) a) in
  let r := send (SignInWithPassword (authEmail csnap) (authPassword csnap))
                (fun d => (auth_signIn Sv (authEmail csnap) (authPassword csnap), d)) a1 in
  let a2 := match fst r with
            | Some message => set_cells (setAuthError message) (snd r)
            | None => snd r
            end in
  set_cells (setAuthFormLoading false) a2.

(** [handleSignOut] *)
Definition handleSignOut (a : App) : App :=
  snd (send SignOut (fun d => (tt, d)) a).

(** [handleBecomeOrganizer] *)
Definition handleBecomeOrganizer (a : App) : App :=
  match currentUser snap with
  | None => a
  | Some u =>
      let a1 := set_cells (setRoleLoading true) a in
      let r := send (UpdateRole (uid u) "organizer")
                    (fun d => update_role d (uid u) "organizer") a1 in
      let a2 := match fst r with
                | None => fetchProfile (uid u) (snd r)
                | Some _ => snd r
                end in
      set_cells (setRoleLoading false) a2
  end.

(** [handleLeaveEvent] *)
Definition handleLeaveEvent (eventId : string) (a : App) : App :=
  match currentUser snap with
  | None => a
  | Some u =>
      let r := send (DeleteParticipation eventId (uid u))
                    (fun d => delete_participation d eventId (uid u)) a in
      match fst r with
      | None => snd (lift (fetchEvents (remote Sv) snap) (snd r))
      | Some _ => snd r
      end
  end.

(** [handleRemoveParticipant] *)
Definition handleRemoveParticipant (participantId : string) (a : App) : App :=
  let r := send (DeleteParticipant participantId)
                (fun d => delete_participant d participantId) a in
  match selectedEvent snap with
  | Some ev => snd (lift (fetchEventDetail (remote Sv) ev) (snd r))
  | None => snd r
  end.

(** [handleDeleteEvent]; [confirmed] is the answer to the [confirm]
    dialog. *)
Definition handleDeleteEvent (confirmed : bool) (eventId : string) (a : App) : App :=
  if negb confirmed then a
  else
    let r := send (DeleteEvent eventId) (fun d => delete_event d eventId) a in
    snd (lift (fetchEvents (remote Sv) snap) (snd r)).

(** [handleDeleteUpload] *)
Definition handleDeleteUpload (upload : Upload) (a : App) : App :=
  match currentUser snap with
  | None => a
  | Some u =>
      if negb (user_id upload =? uid u) then a
      else
        let r := send (DeleteUploadRow (upload_id upload))
                      (fun d => delete_upload_row d (upload_id upload)) a in
        match selectedEvent snap with
        | Some ev => snd (lift (fetchEventDetail (remote Sv) ev) (snd r))
        | None => snd r
        end
  end.

End Further.

(** A user action on the whole page: the handler of the current render
    runs on the current state. *)
Definition act (h : Page -> Cells -> App -> App) (a : App) : App :=
  h (app_page a) (app_cells a) a.

(** An earlier handler as an action on the whole page. *)
Definition act_earlier (h : Page -> M unit) (a : App) : App :=
  snd (lift (h (app_page a)) a).

End VolunteerMore.


(** ** What the loaders compute, as functions of the tables *)

Module VolunteerPure.
Import Supabase Backend Volunteer.

(** The backend answers every request of the earlier handlers. *)
Definition answers (R : Remote) : Prop :=
  forall (d : DB) (q : Request), fails R d q = None.

(** The requests [enrichEvent] sends for one event. *)
Definition requests_of_entry (snap : Page) (ev : Event) : list Request :=
  SelectProfileEmail (organizer_id ev)
  :: CountParticipants (event_id_ ev)
  :: match currentUser snap with
     | Some u => [SelectParticipation (event_id_ ev) (uid u)]
     | None => []
     end.

(** The entry [enrichEvent] returns for one event. *)
Definition entry_of (R : Remote) (snap : Page) (d : DB) (ev : Event) : EventWithMeta :=
  {| base := ev;
     organizer_email := Some (nullish (select_profile_email R d (organizer_id ev)) "Unknown");
     participant_count := Some (nullish (count_participants R d (event_id_ ev)) 0);
     user_participation :=
       match currentUser snap with
       | Some u => select_participation R d (event_id_ ev) (uid u)
       | None => None
       end |}.

(** The events as the backend orders them. *)
Definition by_date (R : Remote) (evs : list Event) : list Event :=
  sort_by (fun a b => ts_leb R (event_date a) (event_date b)) evs.

(** The two lists [fetchEventDetail] stores. *)
Definition detail_participant (R : Remote) (d : DB) (p : Participant)
  : Participant * option string :=
  (p, Some (nullish (select_profile_email R d (volunteer_id p)) "Unknown")).

Definition detail_upload (R : Remote) (d : DB) (u : UploadRow)
  : UploadRow * option string :=
  (u, Some (nullish (select_profile_email R d (row_user_id u)) "Unknown")).

(** The path [handleImageUpload] stores a file under. *)
Definition upload_path (sel : EventWithMeta) (u : User) (date_now : string) (file : File)
  : string :=
  (event_id_ (base sel) ++ "/" ++ uid u ++ "/" ++ date_now ++ "_" ++ file_name file)%string.

End VolunteerPure.


(** ** Sample data for the whole page *)

Module SampleMore.
Import Supabase Backend Volunteer VolunteerMore.

(** A service that accepts every request; sign-up creates the user Carol. *)
Definition service : Service :=
  {| remote := Sample.reliable;
     refuses := fun _ _ => None;
     auth_signUp := fun mail _ =>
       {| data_user := Some {| uid := "user-c"; email := Some mail |};
          signup_error := None |};
     auth_signIn := fun _ _ => None |}.

(** A service on which reading a profile is refused. *)
Definition profile_hidden : Service :=
  {| remote := Sample.reliable;
     refuses := fun _ q =>
       match q with
       | SelectProfile _ => Some "permission denied for table profiles"
       | _ => None
       end;
     auth_signUp := auth_signUp service;
     auth_signIn := auth_signIn service |}.

Definition idle : Cells :=
  {| authLoading := false; roleLoading := false; authMode := signin;
     authEmail := ""; authPassword := ""; authError := "";
     authFormLoading := false |}.

Definition signing_up : Cells :=
  {| authLoading := false; roleLoading := false; authMode := signup;
     authEmail := "c@davao.ph"; authPassword := "secret-1"; authError := "";
     authFormLoading := false |}.

Definition app (p : Page) : App :=
  {| app_page := p; app_cells := idle; app_db := Sample.tables; app_calls := [] |}.

Definition organizer_profile : Profile :=
  {| profile_id := "user-a"; profile_email := "a@davao.ph";
     role := "organizer"; updated_at := "2024-05-01T00:00:00+00:00" |}.

(** A photo row of the Bucana clean-up, uploaded by Bob, and the object it
    points to. *)
Definition shore_row : UploadRow :=
  {| row_id := "up-1"; row_user_id := "user-b";
     row_image_url := "https://davao.supabase.co/storage/v1/object/public/event-images/event-1/user-b/1_shore.png";
     row_category := "event"; row_event_id := Some "event-1";
     row_created_at := "2024-05-21T08:00:00+00:00" |}.

(** A row written for a classified waste item, without an event, and a
    photo row of the Matina clean-up. *)
Definition bottle_row : UploadRow :=
  {| row_id := "up-2"; row_user_id := "user-b";
     row_image_url := "https://davao.supabase.co/storage/v1/object/public/waste/bottle.png";
     row_category := "Recyclable"; row_event_id := None;
     row_created_at := "2024-05-19T08:00:00+00:00" |}.

Definition creek_row : UploadRow :=
  {| row_id := "up-3"; row_user_id := "user-a";
     row_image_url := "https://davao.supabase.co/storage/v1/object/public/event-images/event-2/user-a/1_creek.png";
     row_category := "event"; row_event_id := Some "event-2";
     row_created_at := "2024-05-26T08:00:00+00:00" |}.

Definition tables_with_uploads : DB :=
  {| profiles_table := profiles_table Sample.tables;
     events_table := events_table Sample.tables;
     participants_table := participants_table Sample.tables;
     uploads_table := [ bottle_row; creek_row ];
     event_images := [ ("event-2/user-a/1_creek.png", Sample.photo) ] |}.

Definition tables_with_photo : DB :=
  {| profiles_table := profiles_table Sample.tables;
     events_table := events_table Sample.tables;
     participants_table := participants_table Sample.tables;
     uploads_table := [ shore_row ];
     event_images := [ ("event-1/user-b/1_shore.png", Sample.photo) ] |}.

End SampleMore.


(** * Properties *)

(** ** JavaScript helpers *)

Lemma truthy_Some_iff (s : string) : truthy (Some s) = true <-> s <> "".
Proof.
  unfold truthy. destruct (String.eqb_spec s ""); simpl; split; congruence.
Qed.

Lemma js_not_false_iff (s : string) : js_not s = false <-> s <> "".
Proof.
  unfold js_not. destruct (String.eqb_spec s ""); split; congruence.
Qed.

Lemma js_not_true_iff (s : string) : js_not s = true <-> s = "".
Proof.
  unfold js_not. destruct (String.eqb_spec s ""); split; congruence.
Qed.

(** ** lib/supabase.ts: the start-up check *)

Module SupabaseFacts.
Import Supabase.

Lemma init_falsy (L : Library) (env : ProcessEnv) :
  truthy (NEXT_PUBLIC_SUPABASE_URL env) = false \/
  truthy (NEXT_PUBLIC_SUPABASE_ANON_KEY env) = false ->
  init L env = Threw missing_env_message.
Proof.
  unfold init. intros [H|H]; rewrite H; simpl.
  - reflexivity.
  - now rewrite orb_true_r.
Qed.

Lemma init_truthy (L : Library) (env : ProcessEnv) :
  truthy (NEXT_PUBLIC_SUPABASE_URL env) = true ->
  truthy (NEXT_PUBLIC_SUPABASE_ANON_KEY env) = true ->
  init L env =
  match createClient L (NEXT_PUBLIC_SUPABASE_URL env) (NEXT_PUBLIC_SUPABASE_ANON_KEY env) with
  | Thrown message => Threw message
  | Returned supabase => Exported supabase
  end.
Proof.
  unfold init. intros -> ->. reflexivity.
Qed.

Lemma truthy_cases (v : option string) :
  (truthy v = true /\ exists s, v = Some s /\ s <> "") \/
  (truthy v = false /\ (v = None \/ v = Some "")).
Proof.
  destruct v as [s|]; simpl.
  - destruct (String.eqb_spec s "") as [->|Hne]; simpl.
    + right. auto.
    + left. split; [reflexivity|]. now exists s.
  - right. auto.
Qed.

(** C1, as written, fails: with the endpoint URL present but empty and the
    API key present, both parameters are present and yet the module throws
    and no client is constructed, even with a client library that takes
    every pair of arguments. *)
Lemma init_present_empty_url_throws :
  let env := {| NEXT_PUBLIC_SUPABASE_URL := Some "";
                NEXT_PUBLIC_SUPABASE_ANON_KEY := Some "anon-key" |} in
  NEXT_PUBLIC_SUPABASE_URL env <> None /\
  NEXT_PUBLIC_SUPABASE_ANON_KEY env <> None /\
  init Sample.lenient env = Threw missing_env_message /\
  constructed (init Sample.lenient env) = false.
Proof.
  cbv zeta. repeat split; try discriminate; reflexivity.
Qed.

(** C1, amended: if either connection parameter is absent, module
    initialization throws the missing-variables error and no client is
    constructed, whatever the client library would do with the values
    (it is not called). When both are present and non-empty,
    [createClient] is called with exactly these two values: if it returns,
    its client is exported; if it throws (the library rejects the values,
    an endpoint that is not a URL for one), module initialization fails
    with the error of the library. So a client is constructed exactly
    when both parameters are present, non-empty, and taken by the
    library. *)
Theorem init_absent_throws_nonempty_calls_createClient (L : Library) (env : ProcessEnv) :
  (NEXT_PUBLIC_SUPABASE_URL env = None \/ NEXT_PUBLIC_SUPABASE_ANON_KEY env = None ->
   init L env = Threw missing_env_message /\
   constructed (init L env) = false /\
   forall L' : Library, init L' env = init L env) /\
  (forall url key : string,
     NEXT_PUBLIC_SUPABASE_URL env = Some url ->
     NEXT_PUBLIC_SUPABASE_ANON_KEY env = Some key ->
     url <> "" -> key <> "" ->
     (rejects L (Some url) (Some key) = None ->
      init L env = Exported {| supabaseUrl := Some url; supabaseKey := Some key |} /\
      constructed (init L env) = true) /\
     (forall message : string,
        rejects L (Some url) (Some key) = Some message ->
        init L env = Threw message /\
        constructed (init L env) = false)) /\
  (constructed (init L env) = true <->
   exists url key : string,
     NEXT_PUBLIC_SUPABASE_URL env = Some url /\
     NEXT_PUBLIC_SUPABASE_ANON_KEY env = Some key /\
     url <> "" /\ key <> "" /\
     rejects L (Some url) (Some key) = None).
Proof.
  split; [|split].
  - intros H.
    assert (E : forall L0, init L0 env = Threw missing_env_message).
    { intros L0. apply init_falsy. destruct H as [H|H]; rewrite H; simpl; auto. }
    rewrite E. split; [reflexivity|]. split; [reflexivity|].
    intros L'. apply E.
  - intros url key Hu Hk Hne1 Hne2.
    assert (E : init L env =
                match createClient L (Some url) (Some key) with
                | Thrown message => Threw message
                | Returned supabase => Exported supabase
                end).
    { rewrite <- Hu, <- Hk. apply init_truthy.
      - rewrite Hu. now apply truthy_Some_iff.
      - rewrite Hk. now apply truthy_Some_iff. }
    unfold createClient in E. split.
    + intros Hok. rewrite Hok in E. rewrite E. split; reflexivity.
    + intros message Hno. rewrite Hno in E. rewrite E. split; reflexivity.
  - split.
    + intros Hc.
      destruct (truthy_cases (NEXT_PUBLIC_SUPABASE_URL env)) as [[Tu [url [Hu Hne1]]]|[Tu _]];
        [|rewrite (init_falsy L env (or_introl Tu)) in Hc; discriminate].
      destruct (truthy_cases (NEXT_PUBLIC_SUPABASE_ANON_KEY env))
        as [[Tk [key [Hk Hne2]]]|[Tk _]];
        [|rewrite (init_falsy L env (or_intror Tk)) in Hc; discriminate].
      exists url, key. repeat split; try assumption.
      rewrite (init_truthy L env Tu Tk), Hu, Hk in Hc. unfold createClient in Hc.
      destruct (rejects L (Some url) (Some key)); [discriminate|reflexivity].
    + intros [url [key [Hu [Hk [Hne1 [Hne2 Hok]]]]]].
      rewrite init_truthy.
      * rewrite Hu, Hk. unfold createClient. rewrite Hok. reflexivity.
      * rewrite Hu. now apply truthy_Some_iff.
      * rewrite Hk. now apply truthy_Some_iff.
Qed.

Lemma init_absent_throws_nonempty_calls_createClient_witness :
  (init Sample.url_checking
        {| NEXT_PUBLIC_SUPABASE_URL := None;
           NEXT_PUBLIC_SUPABASE_ANON_KEY := Some "anon-key" |}
   = Threw missing_env_message) /\
  (init Sample.url_checking
        {| NEXT_PUBLIC_SUPABASE_URL := Some "https://davao.supabase.co";
           NEXT_PUBLIC_SUPABASE_ANON_KEY := Some "anon-key" |}
   = Exported {| supabaseUrl := Some "https://davao.supabase.co";
                 supabaseKey := Some "anon-key" |}) /\
  (init Sample.url_checking
        {| NEXT_PUBLIC_SUPABASE_URL := Some "davao";
           NEXT_PUBLIC_SUPABASE_ANON_KEY := Some "anon-key" |}
   = Threw "Invalid supabaseUrl: Must be a valid HTTP or HTTPS URL.") /\
  constructed
    (init Sample.url_checking
          {| NEXT_PUBLIC_SUPABASE_URL := Some "davao";
             NEXT_PUBLIC_SUPABASE_ANON_KEY := Some "anon-key" |}) = false.
Proof.
  split; [|split; [|split]].
  - apply (proj1 (init_absent_throws_nonempty_calls_createClient Sample.url_checking
                    {| NEXT_PUBLIC_SUPABASE_URL := None;
                       NEXT_PUBLIC_SUPABASE_ANON_KEY := Some "anon-key" |})).
    left. reflexivity.
  - apply (proj1 (proj1 (proj2 (init_absent_throws_nonempty_calls_createClient
                    Sample.url_checking
                    {| NEXT_PUBLIC_SUPABASE_URL := Some "https://davao.supabase.co";
                       NEXT_PUBLIC_SUPABASE_ANON_KEY := Some "anon-key" |}))
                 "https://davao.supabase.co" "anon-key" eq_refl eq_refl
                 ltac:(discriminate) ltac:(discriminate))).
    reflexivity.
  - apply (proj2 (proj1 (proj2 (init_absent_throws_nonempty_calls_createClient
                    Sample.url_checking
                    {| NEXT_PUBLIC_SUPABASE_URL := Some "davao";
                       NEXT_PUBLIC_SUPABASE_ANON_KEY := Some "anon-key" |}))
                 "davao" "anon-key" eq_refl eq_refl
                 ltac:(discriminate) ltac:(discriminate))).
    reflexivity.
  - apply (proj2 (proj1 (proj2 (init_absent_throws_nonempty_calls_createClient
                    Sample.url_checking
                    {| NEXT_PUBLIC_SUPABASE_URL := Some "davao";
                       NEXT_PUBLIC_SUPABASE_ANON_KEY := Some "anon-key" |}))
                 "davao" "anon-key" eq_refl eq_refl
                 ltac:(discriminate) ltac:(discriminate))
                 "Invalid supabaseUrl: Must be a valid HTTP or HTTPS URL.").
    reflexivity.
Defined.

(** C8: a connection parameter that is present but equal to the empty
    string is treated like an absent one: the module throws the same
    error as for any environment with a missing variable, and the client
    is never constructed, whatever the client library is. *)
Theorem init_empty_string_like_absent (L : Library) (env : ProcessEnv) :
  NEXT_PUBLIC_SUPABASE_URL env = Some "" \/
  NEXT_PUBLIC_SUPABASE_ANON_KEY env = Some "" ->
  init L env = Threw missing_env_message /\
  constructed (init L env) = false /\
  (forall (L' : Library) (missing : ProcessEnv),
     NEXT_PUBLIC_SUPABASE_URL missing = None \/
     NEXT_PUBLIC_SUPABASE_ANON_KEY missing = None ->
     init L' missing = init L env).
Proof.
  intros H.
  assert (E : init L env = Threw missing_env_message).
  { apply init_falsy. destruct H as [H|H]; rewrite H; simpl; auto. }
  rewrite E. repeat split.
  intros L' missing Hm. apply init_falsy.
  destruct Hm as [Hm|Hm]; rewrite Hm; simpl; auto.
Qed.

Lemma init_empty_string_like_absent_witness :
  init Sample.url_checking
       {| NEXT_PUBLIC_SUPABASE_URL := Some "https://davao.supabase.co";
          NEXT_PUBLIC_SUPABASE_ANON_KEY := Some "" |}
  = Threw missing_env_message /\
  constructed (init Sample.url_checking
                    {| NEXT_PUBLIC_SUPABASE_URL := Some "https://davao.supabase.co";
                       NEXT_PUBLIC_SUPABASE_ANON_KEY := Some "" |}) = false /\
  (forall (L' : Library) (missing : ProcessEnv),
     NEXT_PUBLIC_SUPABASE_URL missing = None \/
     NEXT_PUBLIC_SUPABASE_ANON_KEY missing = None ->
     init L' missing =
     init Sample.url_checking
          {| NEXT_PUBLIC_SUPABASE_URL := Some "https://davao.supabase.co";
             NEXT_PUBLIC_SUPABASE_ANON_KEY := Some "" |}).
Proof.
  apply (init_empty_string_like_absent Sample.url_checking
           {| NEXT_PUBLIC_SUPABASE_URL := Some "https://davao.supabase.co";
              NEXT_PUBLIC_SUPABASE_ANON_KEY := Some "" |}).
  right. reflexivity.
Defined.

End SupabaseFacts.

(** ** Navbar *)

Module NavbarFacts.
Import Navbar.

Lemma hrefs_pairwise_distinct : NoDup (map href navLinks).
Proof.
  simpl. repeat constructor; simpl; intuition discriminate.
Qed.

Lemma styledActiveDesktop_spec (pathname : string) (link : NavLink) :
  styledActiveDesktop (desktopLink pathname link) = isActive pathname link.
Proof.
  unfold styledActiveDesktop, desktopLink. simpl lv_className.
  destruct (isActive pathname link); reflexivity.
Qed.

Lemma styledActiveMobile_spec (pathname : string) (link : NavLink) :
  styledActiveMobile (mobileLink pathname link) = isActive pathname link.
Proof.
  unfold styledActiveMobile, mobileLink. simpl lv_className.
  destruct (isActive pathname link); reflexivity.
Qed.

Lemma filter_map_ext {A B : Type} (f : A -> B) (p : B -> bool) (q : A -> bool) (l : list A) :
  (forall a, p (f a) = q a) ->
  length (filter p (map f l)) = length (filter q l).
Proof.
  intros H. induction l as [|a l IH]; simpl.
  - reflexivity.
  - rewrite H. destruct (q a); simpl; now rewrite IH.
Qed.

Lemma at_most_one_href_matches (pathname : string) :
  length (filter (isActive pathname) navLinks) <= 1.
Proof.
  unfold navLinks, isActive. simpl.
  destruct (String.eqb_spec pathname "/") as [->|_]; [simpl; lia|].
  destruct (String.eqb_spec pathname "/about") as [->|_]; [simpl; lia|].
  destruct (String.eqb_spec pathname "/classifier") as [->|_]; [simpl; lia|].
  destruct (String.eqb_spec pathname "/volunteer") as [->|_]; simpl; lia.
Qed.

(** C9: for every pathname at most one of the four navigation links is
    active, and at most one is rendered with the active styling, in the
    desktop row and in the mobile menu (when it is shown) alike: a link is
    styled active exactly when the pathname equals its href, and the four
    hrefs are pairwise distinct. *)
Theorem navbar_at_most_one_active (pathname : string) (menuOpen : bool) :
  NoDup (map href navLinks) /\
  length (filter (isActive pathname) navLinks) <= 1 /\
  length (filter styledActiveDesktop (desktopLinks (render pathname menuOpen))) <= 1 /\
  length (filter styledActiveMobile (nullish (mobileMenu (render pathname menuOpen)) [])) <= 1.
Proof.
  split; [apply hrefs_pairwise_distinct|].
  split; [apply at_most_one_href_matches|].
  split.
  - unfold render. cbn [desktopLinks].
    rewrite (filter_map_ext (desktopLink pathname) styledActiveDesktop (isActive pathname)).
    + apply at_most_one_href_matches.
    + apply styledActiveDesktop_spec.
  - unfold render. cbn [mobileMenu].
    destruct menuOpen; cbn [nullish]; [|simpl; lia].
    rewrite filter_app, length_app.
    rewrite (filter_map_ext (mobileLink pathname) styledActiveMobile (isActive pathname)).
    + change (length (filter styledActiveMobile [mobileCTA])) with 0.
      rewrite Nat.add_0_r. apply at_most_one_href_matches.
    + apply styledActiveMobile_spec.
Qed.

Lemma mobile_link_closes (pathname : string) (l : LinkView) :
  In l (map (mobileLink pathname) navLinks ++ [mobileCTA]) ->
  lv_onClick l = Some (SetMenuOpen false).
Proof.
  intros H. apply in_app_or in H. destruct H as [H|H].
  - apply in_map_iff in H. destruct H as [x [<- _]]. reflexivity.
  - destruct H as [<-|[]]. reflexivity.
Qed.

(** C10: two clicks on the hamburger button restore the menu state
    (whatever the pathname of the two renders), and a click on any link of
    the mobile menu, which is shown only while the menu is open, closes
    the menu whatever the state was; closing twice is the same as closing
    once. *)
Theorem navbar_toggle_involution_link_closes (pathname pathname' : string) (menuOpen : bool) :
  clickHamburger pathname' (clickHamburger pathname menuOpen) = menuOpen /\
  mobileMenu (render pathname false) = None /\
  Forall (fun l => forall prior : bool,
                     clickLink l prior = false /\
                     clickLink l (clickLink l prior) = clickLink l prior)
         (nullish (mobileMenu (render pathname true)) []) /\
  length (nullish (mobileMenu (render pathname true)) []) = 5.
Proof.
  split; [|split; [|split]].
  - unfold clickHamburger. simpl. apply negb_involutive.
  - reflexivity.
  - apply Forall_forall. intros l Hin prior.
    unfold render in Hin. cbn [mobileMenu nullish] in Hin.
    unfold clickLink. rewrite (mobile_link_closes pathname l Hin).
    split; reflexivity.
  - reflexivity.
Qed.

End NavbarFacts.

(** ** The classifier page *)

Module ClassifierFacts.
Import Classifier.

Lemma js_index_categories (i : Z) :
  (0 <= i < 4)%Z ->
  exists c, js_index categories i = Some c /\ In c categories.
Proof.
  intros H.
  assert (D : i = 0%Z \/ i = 1%Z \/ i = 2%Z \/ i = 3%Z) by lia.
  destruct D as [ -> | [ -> | [ -> | -> ] ] ]; eexists; (split; [reflexivity|]);
    simpl; tauto.
Qed.

(** [Math.floor(Math.random() * 4)] is one of 0, 1, 2, 3. *)
Lemma floor_scaled_in_range (random : Q) :
  (0 <= random)%Q -> (random < 1)%Q ->
  (0 <= Qfloor (random * inject_Z 4) < 4)%Z.
Proof.
  intros H0 H1. split.
  - change 0%Z with (Qfloor 0).
    apply Qfloor_resp_le.
    setoid_replace (0 : Q) with (0 * inject_Z 4)%Q by reflexivity.
    apply Qmult_le_compat_r; [exact H0 | discriminate].
  - rewrite Zlt_Qlt.
    apply Qle_lt_trans with (random * inject_Z 4)%Q.
    + apply Qfloor_le.
    + setoid_replace (inject_Z 4) with (1 * inject_Z 4)%Q at 2 by reflexivity.
      apply Qmult_lt_compat_r; [reflexivity | exact H1].
Qed.

(** C3: for every selected image and every value of the random source in
    the unit interval, [handleClassify] waits for the fixed 2000 ms timer
    and then stores exactly one label, which is one of the four fixed
    categories: the result is never null and never a fifth value, and the
    stub has no failing path. *)
Theorem classify_yields_one_of_four (random : Q) (s : State) (file : File) :
  selectedFile s = Some file ->
  (0 <= random)%Q -> (random < 1)%Q ->
  exists c : string,
    result (fst (handleClassify random s)) = Some c /\
    (c = "Biodegradable" \/ c = "Recyclable" \/ c = "Residual" \/ c = "Special Waste") /\
    snd (handleClassify random s) = [SetTimeout 2000] /\
    isLoading (fst (handleClassify random s)) = false /\
    selectedFile (fst (handleClassify random s)) = Some file.
Proof.
  intros Hf H0 H1. unfold handleClassify. rewrite Hf. cbn [fst snd result isLoading selectedFile].
  destruct (js_index_categories _ (floor_scaled_in_range random H0 H1)) as [c [Hc Hin]].
  exists c. change (Z.of_nat (length categories)) with 4%Z.
  rewrite Hc. repeat split; try reflexivity.
  simpl in Hin. intuition auto.
Qed.

Lemma classify_yields_one_of_four_witness :
  exists c : string,
    result (fst (handleClassify (3 # 5)
                   (handleFileSelect "blob:1" {| file_name := "can.png"; file_type := "image/png" |}
                      initial))) = Some c /\
    (c = "Biodegradable" \/ c = "Recyclable" \/ c = "Residual" \/ c = "Special Waste") /\
    snd (handleClassify (3 # 5)
           (handleFileSelect "blob:1" {| file_name := "can.png"; file_type := "image/png" |}
              initial)) = [SetTimeout 2000] /\
    isLoading (fst (handleClassify (3 # 5)
                      (handleFileSelect "blob:1" {| file_name := "can.png"; file_type := "image/png" |}
                         initial))) = false /\
    selectedFile (fst (handleClassify (3 # 5)
                         (handleFileSelect "blob:1" {| file_name := "can.png"; file_type := "image/png" |}
                            initial)))
    = Some {| file_name := "can.png"; file_type := "image/png" |}.
Proof.
  apply (classify_yields_one_of_four (3 # 5)
           (handleFileSelect "blob:1" {| file_name := "can.png"; file_type := "image/png" |} initial)
           {| file_name := "can.png"; file_type := "image/png" |}).
  - reflexivity.
  - discriminate.
  - reflexivity.
Defined.

End ClassifierFacts.

(** ** The hosted tables *)

Module BackendFacts.
Import Supabase Backend.

Lemma in_insert_by {A : Type} (leb : A -> A -> bool) (a x : A) (l : list A) :
  In x (insert_by leb a l) <-> x = a \/ In x l.
Proof.
  induction l as [|y l IH]; simpl.
  - intuition auto.
  - destruct (leb a y); simpl; [intuition auto|].
    rewrite IH. intuition auto.
Qed.

Lemma in_sort_by {A : Type} (leb : A -> A -> bool) (x : A) (l : list A) :
  In x (sort_by leb l) <-> In x l.
Proof.
  unfold sort_by. induction l as [|y l IH]; simpl.
  - tauto.
  - rewrite in_insert_by, IH. intuition auto.
Qed.

Lemma length_insert_by {A : Type} (leb : A -> A -> bool) (a : A) (l : list A) :
  length (insert_by leb a l) = S (length l).
Proof.
  induction l as [|y l IH]; simpl; [reflexivity|].
  destruct (leb a y); simpl; [reflexivity | now rewrite IH].
Qed.

Lemma length_sort_by {A : Type} (leb : A -> A -> bool) (l : list A) :
  length (sort_by leb l) = length l.
Proof.
  unfold sort_by. induction l as [|y l IH]; simpl; [reflexivity|].
  now rewrite length_insert_by, IH.
Qed.

Lemma set_status_twice (id st st' : string) (rows : list Participant) :
  map (fun p => if participant_id p =? id then set_status st' p else p)
      (map (fun p => if participant_id p =? id then set_status st p else p) rows) =
  map (fun p => if participant_id p =? id then set_status st' p else p) rows.
Proof.
  rewrite map_map. apply map_ext. intros p.
  destruct (participant_id p =? id) eqn:E; simpl.
  - rewrite E. reflexivity.
  - rewrite E. reflexivity.
Qed.

End BackendFacts.

(** ** The volunteer page *)

Module VolunteerFacts.
Import Supabase Backend Volunteer BackendFacts.

Lemma read_only_ret {A : Type} (a : A) : read_only (ret a).
Proof.
  intros w. simpl. split; [reflexivity|].
  exists []. rewrite app_nil_r. split; [reflexivity | constructor].
Qed.

Lemma read_only_set (f : Page -> Page) : read_only (set f).
Proof.
  intros w. simpl. split; [reflexivity|].
  exists []. rewrite app_nil_r. split; [reflexivity | constructor].
Qed.

Lemma read_only_ask {A : Type} (q : Request) (answer : DB -> A) :
  is_read q = true -> read_only (ask q answer).
Proof.
  intros Hq w. simpl. split; [reflexivity|].
  exists [q]. split; [reflexivity | now constructor].
Qed.

Lemma read_only_bind {A B : Type} (c : M A) (k : A -> M B) :
  read_only c -> (forall a, read_only (k a)) -> read_only (bind c k).
Proof.
  intros Hc Hk w. unfold bind.
  destruct (Hc w) as [Hdb [l1 [Hl1 Hr1]]].
  destruct (Hk (fst (c w)) (snd (c w))) as [Hdb' [l2 [Hl2 Hr2]]].
  split; [congruence|].
  exists (l1 ++ l2). split.
  - rewrite Hl2, Hl1. now rewrite app_assoc.
  - apply Forall_app. now split.
Qed.

Lemma read_only_mapM {A B : Type} (f : A -> M B) (xs : list A) :
  (forall x, read_only (f x)) -> read_only (mapM f xs).
Proof.
  intros Hf. induction xs as [|x xs IH]; simpl.
  - apply read_only_ret.
  - apply read_only_bind; [apply Hf|]. intros y.
    apply read_only_bind; [apply IH|]. intros ys.
    apply read_only_ret.
Qed.

Lemma mapM_cons {A B : Type} (f : A -> M B) (x : A) (xs : list A) (w : World) :
  mapM f (x :: xs) w =
  (fst (f x w) :: fst (mapM f xs (snd (f x w))), snd (mapM f xs (snd (f x w)))).
Proof. reflexivity. Qed.

(** One step of a handler at a time. *)
Lemma bind_run {A B : Type} (c : M A) (k : A -> M B) (w : World) :
  bind c k w = k (fst (c w)) (snd (c w)).
Proof. reflexivity. Qed.

Lemma set_run (f : Page -> Page) (w : World) :
  set f w = (tt, {| page := f (page w); db := db w; log := log w |}).
Proof. reflexivity. Qed.

Lemma ask_run {A : Type} (q : Request) (answer : DB -> A) (w : World) :
  ask q answer w =
  (answer (db w), {| page := page w; db := db w; log := log w ++ [q] |}).
Proof. reflexivity. Qed.

Lemma tell_run {A : Type} (q : Request) (apply : DB -> A * DB) (w : World) :
  tell q apply w =
  (fst (apply (db w)),
   {| page := page w; db := snd (apply (db w)); log := log w ++ [q] |}).
Proof. reflexivity. Qed.

Ltac run_steps :=
  repeat first
    [ rewrite bind_run
    | rewrite set_run
    | rewrite tell_run
    | rewrite ask_run
    | progress cbn [fst snd page db log] ].

Ltac read_only_steps :=
  repeat first
    [ apply read_only_ret
    | apply read_only_set
    | apply read_only_ask; reflexivity
    | apply read_only_mapM; intros
    | apply read_only_bind; [|intros]
    | match goal with
      | |- read_only (match ?x with _ => _ end) => destruct x
      end ].

Lemma enrichEvent_read_only (R : Remote) (snap : Page) (ev : Event) :
  read_only (enrichEvent R snap ev).
Proof. unfold enrichEvent. read_only_steps. Qed.

Lemma fetchEvents_read_only (R : Remote) (snap : Page) :
  read_only (fetchEvents R snap).
Proof. unfold fetchEvents. read_only_steps. Qed.

Lemma fetchEventDetail_read_only (R : Remote) (event : EventWithMeta) :
  read_only (fetchEventDetail R event).
Proof. unfold fetchEventDetail. read_only_steps. Qed.

(** *** The catalogue loader *)

Lemma enrichEvent_entry (R : Remote) (snap : Page) (ev : Event) (w : World) :
  base (fst (enrichEvent R snap ev w)) = ev /\
  participant_count (fst (enrichEvent R snap ev w)) =
    Some (nullish (count_participants R (db w) (event_id_ ev)) 0) /\
  page (snd (enrichEvent R snap ev w)) = page w /\
  db (snd (enrichEvent R snap ev w)) = db w.
Proof.
  unfold enrichEvent, bind, ask, ret.
  destruct (currentUser snap); simpl; auto.
Qed.

Lemma mapM_enrichEvent (R : Remote) (snap : Page) (evs : list Event) :
  forall w : World,
    page (snd (mapM (enrichEvent R snap) evs w)) = page w /\
    db (snd (mapM (enrichEvent R snap) evs w)) = db w /\
    Forall2 (fun ev E =>
               base E = ev /\
               participant_count E =
                 Some (nullish (count_participants R (db w) (event_id_ ev)) 0))
            evs (fst (mapM (enrichEvent R snap) evs w)).
Proof.
  induction evs as [|ev evs IH]; intros w.
  - simpl. repeat split. constructor.
  - destruct (enrichEvent_entry R snap ev w) as [Hb [Hc [Hp Hd]]].
    destruct (IH (snd (enrichEvent R snap ev w))) as [Hp' [Hd' HF]].
    rewrite mapM_cons. cbn [fst snd].
    split; [congruence|]. split; [congruence|].
    constructor; [now split|].
    rewrite Hd in HF. exact HF.
Qed.

Lemma fetchEvents_answered (R : Remote) (snap : Page) (w : World) :
  fails R (db w) SelectEvents = None ->
  db (snd (fetchEvents R snap w)) = db w /\
  eventsLoading (page (snd (fetchEvents R snap w))) = false /\
  Forall2 (fun ev E =>
             base E = ev /\
             participant_count E =
               Some (nullish (count_participants R (db w) (event_id_ ev)) 0))
          (sort_by (fun a b => ts_leb R (event_date a) (event_date b)) (events_table (db w)))
          (events (page (snd (fetchEvents R snap w)))).
Proof.
  intros Hok.
  split; [apply fetchEvents_read_only|].
  unfold fetchEvents, bind, ask, set. cbn [fst snd db page log].
  unfold select_events. rewrite Hok. cbn [fst snd db page log].
  destruct (mapM_enrichEvent R snap
              (sort_by (fun a b => ts_leb R (event_date a) (event_date b)) (events_table (db w)))
              {| page := setEventsLoading true (page w); db := db w;
                 log := log w ++ [SelectEvents] |}) as [_ [_ HF]].
  split; [reflexivity | exact HF].
Qed.

Lemma Forall2_in_right {A B : Type} (P : A -> B -> Prop) (l : list A) (l' : list B) (b : B) :
  Forall2 P l l' -> In b l' -> exists a, In a l /\ P a b.
Proof.
  induction 1 as [|a b' l l' Hab HF IH]; simpl; [tauto|].
  intros [<-|Hin].
  - exists a. auto.
  - destruct (IH Hin) as [a' [Ha' HP]]. exists a'. auto.
Qed.

Lemma Forall2_in_left {A B : Type} (P : A -> B -> Prop) (l : list A) (l' : list B) (a : A) :
  Forall2 P l l' -> In a l -> exists b, In b l' /\ P a b.
Proof.
  induction 1 as [|a' b l l' Hab HF IH]; simpl; [tauto|].
  intros [<-|Hin].
  - exists b. auto.
  - destruct (IH Hin) as [b' [Hb' HP]]. exists b'. auto.
Qed.

(** Every row has exactly one of: status pending, accepted, declined, or
    some other status. *)
Lemma rows_split_by_status (rows : list Participant) :
  length rows =
  length (rows_with_status "pending" rows) + length (rows_with_status "accepted" rows)
  + length (rows_with_status "declined" rows) + length (rows_with_other_status rows).
Proof.
  unfold rows_with_status, rows_with_other_status.
  induction rows as [|p rows IH]; simpl; [reflexivity|].
  destruct (String.eqb_spec (status p) "pending") as [E|_];
    [rewrite E; simpl; lia|].
  destruct (String.eqb_spec (status p) "accepted") as [E|_];
    [rewrite E; simpl; lia|].
  destruct (String.eqb_spec (status p) "declined") as [E|_];
    simpl; lia.
Qed.

(** C4: when the backend answers the events query and the count lookup of
    an event, the participant count the catalogue loader reports for that
    event is the number of [participants] rows whose event id is the
    event's id; rows of every status count (pending, accepted, declined
    and any other alike), and the catalogue has one entry for each event
    of the table. *)
Theorem catalog_participant_count (R : Remote) (snap : Page) (w : World) :
  fails R (db w) SelectEvents = None ->
  length (events (page (snd (fetchEvents R snap w)))) = length (events_table (db w)) /\
  (forall e : Event,
     In e (events_table (db w)) <->
     In e (map base (events (page (snd (fetchEvents R snap w)))))) /\
  (forall E : EventWithMeta,
     In E (events (page (snd (fetchEvents R snap w)))) ->
     fails R (db w) (CountParticipants (event_id_ (base E))) = None ->
     participant_count E =
       Some (length (rows_of_event (event_id_ (base E)) (participants_table (db w)))) /\
     length (rows_of_event (event_id_ (base E)) (participants_table (db w))) =
       length (rows_with_status "pending"
                 (rows_of_event (event_id_ (base E)) (participants_table (db w))))
       + length (rows_with_status "accepted"
                   (rows_of_event (event_id_ (base E)) (participants_table (db w))))
       + length (rows_with_status "declined"
                   (rows_of_event (event_id_ (base E)) (participants_table (db w))))
       + length (rows_with_other_status
                   (rows_of_event (event_id_ (base E)) (participants_table (db w))))).
Proof.
  intros Hok.
  destruct (fetchEvents_answered R snap w Hok) as [_ [_ HF]].
  split; [|split].
  - rewrite <- (Forall2_length HF). apply length_sort_by.
  - intros e.
    rewrite <- (in_sort_by (fun a b => ts_leb R (event_date a) (event_date b))).
    rewrite in_map_iff. split.
    + intros Hin. destruct (Forall2_in_left _ _ _ _ HF Hin) as [E [HE [Hb _]]].
      exists E. auto.
    + intros [E [Hb HE]]. destruct (Forall2_in_right _ _ _ _ HF HE) as [e' [He' [Hb' _]]].
      congruence.
  - intros E HE Hcount.
    destruct (Forall2_in_right _ _ _ _ HF HE) as [e [_ [Hb Hc]]].
    split; [|apply rows_split_by_status].
    rewrite Hc. subst e. unfold count_participants. rewrite Hcount. reflexivity.
Qed.

Lemma catalog_participant_count_witness :
  Forall (fun E : EventWithMeta =>
            participant_count E =
              Some (length (rows_of_event (event_id_ (base E))
                              (participants_table Sample.tables))))
         (events (page (snd (fetchEvents Sample.reliable
                               (Sample.signed_in Sample.bob Sample.blank)
                               (Sample.world (Sample.signed_in Sample.bob Sample.blank)))))).
Proof.
  apply Forall_forall. intros E HE.
  apply (catalog_participant_count Sample.reliable
           (Sample.signed_in Sample.bob Sample.blank)
           (Sample.world (Sample.signed_in Sample.bob Sample.blank))).
  - reflexivity.
  - exact HE.
  - reflexivity.
Defined.

(** The catalogue of the sample tables, as Bob sees it: ascending by date,
    three rows counted for the first event whatever their status. *)
Example catalog_of_sample_tables :
  map (fun E => (title (base E), organizer_email E, participant_count E,
                 option_map status (user_participation E)))
      (events (page (snd (fetchEvents Sample.reliable
                            (Sample.signed_in Sample.bob Sample.blank)
                            (Sample.world (Sample.signed_in Sample.bob Sample.blank))))))
  = [ ("Matina Creek Clean-up", Some "a@davao.ph", Some 1, Some "accepted");
      ("Bucana Beach Clean-up", Some "a@davao.ph", Some 3, Some "accepted") ].
Proof. reflexivity. Qed.

(** When the count lookup itself is refused, [count ?? 0] reports 0. *)
Example catalog_when_count_refused :
  map (fun E => (title (base E), participant_count E))
      (events (page (snd (fetchEvents Sample.count_refused Sample.blank
                            (Sample.world Sample.blank)))))
  = [ ("Matina Creek Clean-up", Some 0); ("Bucana Beach Clean-up", Some 0) ].
Proof. reflexivity. Qed.

(** *** The event form *)

Lemma set_error_after_reset (msg : string) (p : Page) :
  setFormLoading false (setFormError msg (setFormError "" (setFormLoading true p))) =
  setFormLoading false (setFormError msg p).
Proof. reflexivity. Qed.

Lemma form_invalid_iff (f : EventFormState) :
  js_not (form_title f) || js_not (form_location f) || js_not (form_event_date f) = true <->
  form_title f = "" \/ form_location f = "" \/ form_event_date f = "".
Proof.
  rewrite !orb_true_iff, !js_not_true_iff. tauto.
Qed.

Lemma form_valid_iff (f : EventFormState) :
  js_not (form_title f) || js_not (form_location f) || js_not (form_event_date f) = false <->
  form_title f <> "" /\ form_location f <> "" /\ form_event_date f <> "".
Proof.
  rewrite !orb_false_iff, !js_not_false_iff. tauto.
Qed.

(** With an empty required field the handler sends nothing and leaves the
    tables alone. *)
Lemma submit_invalid (R : Remote) (toISOString : string -> option string) (w : World) :
  js_not (form_title (eventForm (page w))) || js_not (form_location (eventForm (page w)))
  || js_not (form_event_date (eventForm (page w))) = true ->
  log (dispatch (handleEventFormSubmit R toISOString) w) = log w /\
  db (dispatch (handleEventFormSubmit R toISOString) w) = db w /\
  page (dispatch (handleEventFormSubmit R toISOString) w) =
    match currentUser (page w) with
    | Some _ => setFormLoading false (setFormError required_message (page w))
    | None => page w
    end.
Proof.
  intros Hinv. unfold dispatch, handleEventFormSubmit.
  destruct (currentUser (page w)) as [u|]; [|repeat split].
  unfold bind. rewrite Hinv. repeat split.
Qed.

(** Without a signed-in user the handler returns at once. *)
Lemma submit_signed_out (R : Remote) (toISOString : string -> option string) (w : World) :
  currentUser (page w) = None ->
  dispatch (handleEventFormSubmit R toISOString) w = w.
Proof.
  intros H. unfold dispatch, handleEventFormSubmit. rewrite H. reflexivity.
Qed.

(** C5: when the title, the location or the date-time of the event form is
    empty, submitting it (create and edit alike) sends no request and
    leaves the tables untouched; for a signed-in user the page shows the
    required-fields message and nothing else changes but the loading flag
    being off. A request is sent only when all three fields are
    non-empty; then, for a signed-in user and a valid date, the create
    form sends the insert and the edit form the update, first. *)
Theorem event_form_fails_locally (R : Remote) (toISOString : string -> option string)
        (w : World) :
  (form_title (eventForm (page w)) = "" \/
   form_location (eventForm (page w)) = "" \/
   form_event_date (eventForm (page w)) = "" ->
   log (dispatch (handleEventFormSubmit R toISOString) w) = log w /\
   db (dispatch (handleEventFormSubmit R toISOString) w) = db w /\
   (forall u : User,
      currentUser (page w) = Some u ->
      page (dispatch (handleEventFormSubmit R toISOString) w) =
        setFormLoading false (setFormError required_message (page w)))) /\
  (log (dispatch (handleEventFormSubmit R toISOString) w) <> log w ->
   form_title (eventForm (page w)) <> "" /\
   form_location (eventForm (page w)) <> "" /\
   form_event_date (eventForm (page w)) <> "") /\
  (forall (u : User) (iso : string),
     currentUser (page w) = Some u ->
     form_title (eventForm (page w)) <> "" ->
     form_location (eventForm (page w)) <> "" ->
     form_event_date (eventForm (page w)) <> "" ->
     toISOString (form_event_date (eventForm (page w))) = Some iso ->
     (eventModalMode (page w) = Some create ->
      exists rest,
        log (dispatch (handleEventFormSubmit R toISOString) w) =
        log w ++ InsertEvent (uid u) (form_title (eventForm (page w)))
                   (form_description (eventForm (page w)))
                   (form_location (eventForm (page w))) iso :: rest) /\
     (forall ev : Event,
        eventModalMode (page w) = Some edit ->
        editingEvent (page w) = Some ev ->
        exists rest,
          log (dispatch (handleEventFormSubmit R toISOString) w) =
          log w ++ UpdateEvent (event_id_ ev) (form_title (eventForm (page w)))
                     (form_description (eventForm (page w)))
                     (form_location (eventForm (page w))) iso :: rest)).
Proof.
  split; [|split].
  - intros Hempty. apply form_invalid_iff in Hempty.
    destruct (submit_invalid R toISOString w Hempty) as [Hl [Hd Hp]].
    split; [exact Hl|]. split; [exact Hd|].
    intros u Hu. rewrite Hp, Hu. reflexivity.
  - intros Hsent.
    apply form_valid_iff.
    destruct (js_not (form_title (eventForm (page w))) ||
              js_not (form_location (eventForm (page w))) ||
              js_not (form_event_date (eventForm (page w)))) eqn:E; [|reflexivity].
    exfalso. apply Hsent. apply (submit_invalid R toISOString w E).
  - intros u iso Hu Ht Hl Hd Hiso.
    assert (Hv := proj2 (form_valid_iff (eventForm (page w))) (conj Ht (conj Hl Hd))).
    split.
    + intros Hmode. unfold dispatch, handleEventFormSubmit.
      rewrite Hu. unfold bind at 1 2. rewrite Hv, Hmode, Hiso.
      unfold bind at 1. unfold tell at 1 2. cbn [fst snd].
      match goal with
      | |- context [insert_event ?r ?d ?a ?b ?c ?e ?f] =>
          destruct (fst (insert_event r d a b c e f)) as [msg|]
      end.
      * exists []. reflexivity.
      * unfold bind at 1 2.
        match goal with
        | |- context [fetchEvents R (page w) ?w1] =>
            destruct (fetchEvents_read_only R (page w) w1) as [_ [sent [Hs _]]];
            rewrite Hs
        end.
        cbn [snd set log]. rewrite <- app_assoc. eexists. reflexivity.
    + intros ev Hmode Hed. unfold dispatch, handleEventFormSubmit.
      rewrite Hu. unfold bind at 1 2. rewrite Hv, Hmode, Hed, Hiso.
      unfold bind at 1. unfold tell at 1 2. cbn [fst snd].
      match goal with
      | |- context [update_event ?r ?d ?a ?b ?c ?e ?f] =>
          destruct (fst (update_event r d a b c e f)) as [msg|]
      end.
      * exists []. reflexivity.
      * unfold bind at 1 2.
        match goal with
        | |- context [fetchEvents R (page w) ?w1] =>
            destruct (fetchEvents_read_only R (page w) w1) as [_ [sent [Hs _]]];
            rewrite Hs
        end.
        cbn [snd set log]. rewrite <- app_assoc. eexists. reflexivity.
Qed.

Lemma event_form_fails_locally_witness :
  (log (dispatch (handleEventFormSubmit Sample.reliable Sample.toISOString)
          (Sample.world (Sample.with_form Sample.no_location
                           (Sample.signed_in Sample.alice Sample.blank)))) = [] /\
   db (dispatch (handleEventFormSubmit Sample.reliable Sample.toISOString)
         (Sample.world (Sample.with_form Sample.no_location
                          (Sample.signed_in Sample.alice Sample.blank)))) = Sample.tables /\
   (forall u : User,
      Some Sample.alice = Some u ->
      page (dispatch (handleEventFormSubmit Sample.reliable Sample.toISOString)
              (Sample.world (Sample.with_form Sample.no_location
                               (Sample.signed_in Sample.alice Sample.blank)))) =
      setFormLoading false
        (setFormError required_message
           (Sample.with_form Sample.no_location
              (Sample.signed_in Sample.alice Sample.blank))))) /\
  (exists rest,
     log (dispatch (handleEventFormSubmit Sample.reliable Sample.toISOString)
            (Sample.world (Sample.with_form Sample.complete
                             (Sample.signed_in Sample.alice Sample.blank)))) =
     [] ++ InsertEvent "user-a" "Bucana Beach Clean-up" "Bring gloves" "Bucana"
             "2024-06-01T00:00:00.000Z" :: rest).
Proof.
  split.
  - apply (proj1 (event_form_fails_locally Sample.reliable Sample.toISOString
                    (Sample.world (Sample.with_form Sample.no_location
                                     (Sample.signed_in Sample.alice Sample.blank))))).
    right. left. reflexivity.
  - apply (proj2 (proj2 (event_form_fails_locally Sample.reliable Sample.toISOString
                           (Sample.world (Sample.with_form Sample.complete
                                            (Sample.signed_in Sample.alice Sample.blank)))))
                 Sample.alice "2024-06-01T00:00:00.000Z").
    + reflexivity.
    + discriminate.
    + discriminate.
    + discriminate.
    + reflexivity.
    + reflexivity.
Defined.

(** *** Joining an event *)

(** C6: for every event id and every signed-in identity, joining sends one
    insert into [participants] whose status is accepted, and nothing else
    but selects; when the backend accepts the insert, the table gains
    exactly that row, with status accepted. No request carries the
    pending status. *)
Theorem join_inserts_accepted (R : Remote) (w : World) (u : User) (eventId : string) :
  currentUser (page w) = Some u ->
  (exists reads,
     log (dispatch (fun snap => handleJoinEvent R snap eventId) w) =
     log w ++ InsertParticipant eventId (uid u) "accepted" :: reads /\
     Forall (fun q => is_read q = true) reads) /\
  (fails R (db w) (InsertParticipant eventId (uid u) "accepted") = None ->
   participants_table (db (dispatch (fun snap => handleJoinEvent R snap eventId) w)) =
   participants_table (db w) ++
   [ {| participant_id := gen_random_uuid R (db w);
        p_event_id := eventId;
        volunteer_id := uid u;
        status := "accepted" |} ]) /\
  (forall q e v st,
     In q (log (dispatch (fun snap => handleJoinEvent R snap eventId) w)) ->
     ~ In q (log w) ->
     q = InsertParticipant e v st ->
     st = "accepted").
Proof.
  intros Hu.
  assert (Hlog : exists reads,
     log (dispatch (fun snap => handleJoinEvent R snap eventId) w) =
     log w ++ InsertParticipant eventId (uid u) "accepted" :: reads /\
     Forall (fun q => is_read q = true) reads).
  { unfold dispatch, handleJoinEvent. rewrite Hu.
    unfold bind at 1. unfold tell at 1 2. cbn [fst snd].
    destruct (fst (insert_participant R (db w) eventId (uid u) "accepted")) as [msg|].
    - exists []. split; [reflexivity | constructor].
    - match goal with
      | |- context [fetchEvents R (page w) ?w1] =>
          destruct (fetchEvents_read_only R (page w) w1) as [_ [sent [Hs Hr]]]
      end.
      exists sent. rewrite Hs. cbn [log]. rewrite <- app_assoc. split; [reflexivity | exact Hr]. }
  split; [exact Hlog|]. split.
  - intros Hok. unfold dispatch, handleJoinEvent. rewrite Hu.
    unfold bind at 1. unfold tell at 1 2. cbn [fst snd].
    unfold insert_participant. rewrite Hok. cbn [fst snd].
    match goal with
    | |- context [fetchEvents R (page w) ?w1] =>
        destruct (fetchEvents_read_only R (page w) w1) as [Hdb _]; rewrite Hdb
    end.
    reflexivity.
  - intros q e v st Hin Hnew Hq.
    destruct Hlog as [reads [Hl Hr]]. rewrite Hl in Hin.
    apply in_app_or in Hin. destruct Hin as [Hin|[Hin|Hin]].
    + contradiction.
    + congruence.
    + rewrite Forall_forall in Hr. specialize (Hr q Hin). subst q. discriminate.
Qed.

Lemma join_inserts_accepted_witness :
  participants_table
    (db (dispatch (fun snap => handleJoinEvent Sample.reliable snap "event-2")
           (Sample.world (Sample.signed_in Sample.alice Sample.blank)))) =
  participants_table Sample.tables ++
  [ {| participant_id := gen_random_uuid Sample.reliable Sample.tables;
       p_event_id := "event-2";
       volunteer_id := "user-a";
       status := "accepted" |} ].
Proof.
  apply (proj1 (proj2 (join_inserts_accepted Sample.reliable
                         (Sample.world (Sample.signed_in Sample.alice Sample.blank))
                         Sample.alice "event-2" eq_refl))).
  reflexivity.
Defined.

(** Alice creates the Bucana clean-up, Bob joins it: Bob's catalogue shows
    one participant and his own accepted participation. *)
Example bucana_scenario :
  map (fun E => (title (base E), event_date (base E), participant_count E,
                 option_map status (user_participation E)))
      (events (page
         (dispatch (fun snap => handleJoinEvent Sample.reliable snap
                                  "3f2b8c1e-9d4a-4c6b-8e55-0a1b2c3d4e5f")
            (Sample.seen_by Sample.bob
               (dispatch (handleEventFormSubmit Sample.reliable Sample.toISOString)
                  {| page := Sample.with_form Sample.complete
                               (Sample.signed_in Sample.alice Sample.blank);
                     db := Sample.fresh_tables;
                     log := [] |})))))
  = [ ("Bucana Beach Clean-up", "2024-06-01T00:00:00.000Z", Some 1, Some "accepted") ].
Proof. reflexivity. Qed.

(** *** Accepting and declining *)

Lemma setStatus_db (R : Remote) (p : string) (st : Decision) (w : World) :
  db (setStatus R p st w) =
  snd (update_participant_status R (db w) p (status_of st)).
Proof.
  unfold setStatus, dispatch, handleUpdateParticipantStatus.
  unfold bind at 1. unfold tell. cbn [fst snd].
  destruct (selectedEvent (page w)) as [ev|]; [|reflexivity].
  match goal with
  | |- context [fetchEventDetail R ev ?w1] =>
      destruct (fetchEventDetail_read_only R ev w1) as [Hdb _]; rewrite Hdb
  end.
  reflexivity.
Qed.

Lemma setStatus_applied (R : Remote) (p : string) (st : Decision) (w : World) :
  fails R (db w) (UpdateParticipantStatus p (status_of st)) = None ->
  db (setStatus R p st w) =
  with_participants (db w)
    (map (fun r => if participant_id r =? p then set_status (status_of st) r else r)
         (participants_table (db w))).
Proof.
  intros Hok. rewrite setStatus_db. unfold update_participant_status.
  rewrite Hok. reflexivity.
Qed.

Lemma with_participants_twice (d : DB) (rows rows' : list Participant) :
  with_participants (with_participants d rows) rows' = with_participants d rows'.
Proof. reflexivity. Qed.

Lemma decline_accept_db (R : Remote) (p : string) (w : World) :
  (forall d st, fails R d (UpdateParticipantStatus p st) = None) ->
  db (setStatus R p accepted (setStatus R p declined w)) =
  with_participants (db w)
    (map (fun r => if participant_id r =? p then set_status "accepted" r else r)
         (participants_table (db w))).
Proof.
  intros Hok.
  rewrite (setStatus_applied R p accepted) by apply Hok.
  rewrite (setStatus_applied R p declined) by apply Hok.
  rewrite with_participants_twice. cbn [participants_table with_participants status_of].
  now rewrite set_status_twice.
Qed.

(** C7: when the backend applies the status updates of a participation
    record, declining and then accepting it leaves every row with that id
    with status accepted and every other row as it was; either update
    alone sets the status it names whatever the status was before; and
    running the pair again ends in the same tables. *)
Theorem decline_then_accept_ends_accepted (R : Remote) (p : string) (w : World) :
  (forall d st, fails R d (UpdateParticipantStatus p st) = None) ->
  db (setStatus R p accepted (setStatus R p declined w)) =
    with_participants (db w)
      (map (fun r => if participant_id r =? p then set_status "accepted" r else r)
           (participants_table (db w))) /\
  (forall r : Participant,
     In r (participants_table (db (setStatus R p accepted (setStatus R p declined w)))) ->
     participant_id r = p -> status r = "accepted") /\
  (forall (st : Decision) (w0 : World),
     participants_table (db (setStatus R p st w0)) =
     map (fun r => if participant_id r =? p then set_status (status_of st) r else r)
         (participants_table (db w0))) /\
  db (setStatus R p accepted (setStatus R p declined
        (setStatus R p accepted (setStatus R p declined w)))) =
  db (setStatus R p accepted (setStatus R p declined w)).
Proof.
  intros Hok.
  split; [now apply decline_accept_db|].
  split; [|split].
  - intros r Hin Hid.
    rewrite (decline_accept_db R p w Hok) in Hin.
    cbn [participants_table with_participants] in Hin.
    apply in_map_iff in Hin. destruct Hin as [r0 [Hr0 _]].
    destruct (String.eqb_spec (participant_id r0) p) as [E|E].
    + subst r. reflexivity.
    + subst r. contradiction.
  - intros st w0. rewrite (setStatus_applied R p st w0) by apply Hok. reflexivity.
  - rewrite (decline_accept_db R p _ Hok), (decline_accept_db R p w Hok).
    rewrite with_participants_twice.
    cbn [participants_table with_participants].
    now rewrite set_status_twice.
Qed.

Lemma decline_then_accept_ends_accepted_witness :
  participants_table
    (db (setStatus Sample.reliable "p-2" accepted
           (setStatus Sample.reliable "p-2" declined
              (Sample.world (Sample.viewing Sample.bucana
                               (Sample.signed_in Sample.alice Sample.blank)))))) =
  map (fun r => if participant_id r =? "p-2" then set_status "accepted" r else r)
      (participants_table Sample.tables).
Proof.
  exact (f_equal participants_table
           (proj1 (decline_then_accept_ends_accepted Sample.reliable "p-2"
                     (Sample.world (Sample.viewing Sample.bucana
                                      (Sample.signed_in Sample.alice Sample.blank)))
                     (fun _ _ => eq_refl)))).
Defined.

(** The sample tables after the organizer declines and re-accepts the
    accepted row p-1, and after she accepts the declined row p-2. *)
Example decline_accept_on_sample_rows :
  map (fun r => (participant_id r, status r))
      (participants_table
         (db (setStatus Sample.reliable "p-1" accepted
                (setStatus Sample.reliable "p-1" declined
                   (Sample.world (Sample.viewing Sample.bucana
                                    (Sample.signed_in Sample.alice Sample.blank)))))))
  = [ ("p-1", "accepted"); ("p-2", "declined"); ("p-3", "accepted"); ("p-4", "pending") ] /\
  map (fun r => (participant_id r, status r))
      (participants_table
         (db (setStatus Sample.reliable "p-2" accepted
                (Sample.world (Sample.viewing Sample.bucana
                                 (Sample.signed_in Sample.alice Sample.blank))))))
  = [ ("p-1", "accepted"); ("p-2", "accepted"); ("p-3", "accepted"); ("p-4", "pending") ].
Proof. split; reflexivity. Qed.

(** *** Event photos *)

(** The insert of [handleImageUpload], for every signed-in user and open
    event: once the object is stored, the request carries the tag and the
    event id side by side. *)
Lemma handleImageUpload_request (R : Remote) (w : World) (u : User) (sel : EventWithMeta)
      (date_now : string) (file : File) :
  currentUser (page w) = Some u ->
  selectedEvent (page w) = Some sel ->
  fst (storage_upload R (db w)
         (event_id_ (base sel) ++ "/" ++ uid u ++ "/" ++ date_now ++ "_" ++ file_name file)%string
         file) = None ->
  exists rest,
    log (dispatch (fun snap => handleImageUpload R snap date_now file) w) =
    log w ++
    StorageUpload
      (event_id_ (base sel) ++ "/" ++ uid u ++ "/" ++ date_now ++ "_" ++ file_name file)%string
      file
    :: InsertUpload (uid u)
         (getPublicUrl R
            (event_id_ (base sel) ++ "/" ++ uid u ++ "/" ++ date_now ++ "_" ++ file_name file)%string)
         "event" (event_id_ (base sel))
    :: rest.
Proof.
  intros Hu Hsel Hst. unfold dispatch, handleImageUpload. rewrite Hu, Hsel.
  cbv zeta. run_steps. rewrite Hst. run_steps.
  match goal with
  | |- context [fst (insert_upload ?r ?d ?a ?b ?c ?e)] =>
      destruct (fst (insert_upload r d a b c e)) as [msg|]
  end.
  - run_steps. exists []. rewrite <- app_assoc. reflexivity.
  - run_steps.
    match goal with
    | |- context [fetchEventDetail R sel ?w1] =>
        destruct (fetchEventDetail_read_only R sel w1) as [_ [sent [Hs _]]]; rewrite Hs
    end.
    exists sent. cbn [log]. rewrite <- !app_assoc. reflexivity.
Qed.

End VolunteerFacts.

(** ** The classifier page: further properties *)

Module ClassifierEventsFacts.
Import Classifier ClassifierEvents ClassifierFacts.

Lemma Qfloor_between (z : Z) (x : Q) :
  (inject_Z z <= x)%Q -> (x < inject_Z (z + 1))%Q -> Qfloor x = z.
Proof.
  intros Hle Hlt.
  assert (H1 : (z <= Qfloor x)%Z).
  { rewrite <- (Qfloor_Z z). now apply Qfloor_resp_le. }
  assert (H2 : (Qfloor x < z + 1)%Z).
  { rewrite Zlt_Qlt. apply Qle_lt_trans with x; [apply Qfloor_le | exact Hlt]. }
  lia.
Qed.

Lemma resume_result_one_of_four (random : Q) (s : State) :
  (0 <= random)%Q -> (random < 1)%Q ->
  exists c, result (classify_resume random s) = Some c /\ In c categories.
Proof.
  intros H0 H1. unfold classify_resume. cbn [result].
  change (Z.of_nat (length categories)) with 4%Z.
  apply js_index_categories. now apply floor_scaled_in_range.
Qed.

Lemma card_of_category (s : State) (c : string) :
  result s = Some c -> In c categories ->
  exists d, DISPOSAL_INSTRUCTIONS c = Some d /\
            resultCard s =
            ResultCard ("mt-8 border-2 rounded-2xl p-8 " ++ color d)%string
                       (emoji d) c (instructions d).
Proof.
  intros Hr Hin. unfold resultCard. rewrite Hr.
  simpl in Hin.
  destruct Hin as [<-|[<-|[<-|[<-|[]]]]]; eexists; split; reflexivity.
Qed.

(** X1: the label depends only on the quarter of the unit interval the
    random value falls in: for k = 0..3, a value in [k/4, (k+1)/4) yields
    the k-th category, so the four labels share the interval evenly. *)
Theorem classify_label_by_quarter (random : Q) (s : State) (file : File) (k : nat) :
  selectedFile s = Some file ->
  k < 4 ->
  (Z.of_nat k # 4 <= random)%Q ->
  (random < Z.of_nat k + 1 # 4)%Q ->
  result (fst (handleClassify random s)) = nth_error categories k.
Proof.
  intros Hf Hk Hlo Hhi. unfold handleClassify. rewrite Hf. cbn [fst result].
  change (Z.of_nat (length categories)) with 4%Z.
  rewrite (Qfloor_between (Z.of_nat k)).
  - unfold js_index.
    destruct (Z.ltb_spec (Z.of_nat k) 0); [lia|].
    now rewrite Nat2Z.id.
  - destruct random as [n d]. unfold Qle, Qmult, inject_Z in *. simpl in *. lia.
  - destruct random as [n d]. unfold Qlt, Qmult, inject_Z in *. simpl in *. lia.
Qed.

Lemma classify_label_by_quarter_witness :
  result (fst (handleClassify (5 # 8)
                 (handleFileSelect "blob:1" Sample.photo initial)))
  = nth_error categories 2.
Proof.
  apply (classify_label_by_quarter (5 # 8)
           (handleFileSelect "blob:1" Sample.photo initial) Sample.photo 2).
  - reflexivity.
  - lia.
  - discriminate.
  - reflexivity.
Defined.

(** The invariant of the page. *)
Lemma reachable_invariant (r : Running) :
  reachable r ->
  (result (st r) = None \/ exists c, result (st r) = Some c /\ In c categories) /\
  (previewUrl (st r) = None <-> selectedFile (st r) = None).
Proof.
  induction 1 as [|r r' Hr [IHres IHsync] Hstep].
  - split; [now left | split; reflexivity].
  - destruct Hstep; cbn [st].
    + unfold handleInputChange. destruct (first_file files); [|now split].
      split; [now left | split; discriminate].
    + now split.
    + now split.
    + unfold handleDrop. cbv zeta. destruct (first_file files) as [f|]; [|now split].
      destruct (String.prefix "image/" (file_type f)); [|now split].
      split; [now left | split; discriminate].
    + split; [now left | split; reflexivity].
    + unfold handleClassify_pending.
      destruct (selectedFile (st r)) eqn:E.
      * split; [now left | exact IHsync].
      * rewrite E. now split.
    + split; [right; now apply resume_result_one_of_four | exact IHsync].
Qed.

(** X2: in every state the page can reach (by picking, dragging, dropping,
    resetting, clicking classify and timers firing in any order), the
    result is null or one of the four categories, the result card renders
    from an existing table entry (the render never reads a missing key),
    and a preview is shown exactly when a file is selected. *)
Theorem classifier_page_invariant (r : Running) :
  reachable r ->
  (result (st r) = None \/
   exists c, result (st r) = Some c /\
             (c = "Biodegradable" \/ c = "Recyclable" \/ c = "Residual" \/ c = "Special Waste")) /\
  resultCard (st r) <> RenderThrows /\
  (previewUrl (st r) = None <-> selectedFile (st r) = None).
Proof.
  intros Hr. destruct (reachable_invariant r Hr) as [Hres Hsync].
  split; [|split; [|exact Hsync]].
  - destruct Hres as [Hn|[c [Hc Hin]]]; [now left|].
    right. exists c. split; [exact Hc|]. simpl in Hin. intuition auto.
  - destruct Hres as [Hn|[c [Hc Hin]]].
    + unfold resultCard. rewrite Hn. discriminate.
    + destruct (card_of_category (st r) c Hc Hin) as [d [_ Hcard]].
      rewrite Hcard. discriminate.
Qed.

Lemma classifier_page_invariant_witness :
  (result (classify_resume (1 # 3)
             (handleClassify_pending
                (handleInputChange (fun _ => "blob:1") (Some [Sample.photo]) initial))) = None \/
   exists c,
     result (classify_resume (1 # 3)
               (handleClassify_pending
                  (handleInputChange (fun _ => "blob:1") (Some [Sample.photo]) initial)))
     = Some c /\
     (c = "Biodegradable" \/ c = "Recyclable" \/ c = "Residual" \/ c = "Special Waste")) /\
  resultCard (classify_resume (1 # 3)
                (handleClassify_pending
                   (handleInputChange (fun _ => "blob:1") (Some [Sample.photo]) initial)))
  <> RenderThrows /\
  (previewUrl (classify_resume (1 # 3)
                 (handleClassify_pending
                    (handleInputChange (fun _ => "blob:1") (Some [Sample.photo]) initial)))
   = None <->
   selectedFile (classify_resume (1 # 3)
                   (handleClassify_pending
                      (handleInputChange (fun _ => "blob:1") (Some [Sample.photo]) initial)))
   = None).
Proof.
  apply (classifier_page_invariant
           {| st := classify_resume (1 # 3)
                      (handleClassify_pending
                         (handleInputChange (fun _ => "blob:1") (Some [Sample.photo]) initial));
              timers := 0 |}).
  assert (R1 : reachable
                 {| st := handleInputChange (fun _ => "blob:1") (Some [Sample.photo]) initial;
                    timers := 0 |}).
  { exact (reachable_step start _ reachable_start
             (step_input start (fun _ => "blob:1") (Some [Sample.photo]))). }
  assert (R2 : reachable
                 {| st := handleClassify_pending
                            (handleInputChange (fun _ => "blob:1") (Some [Sample.photo]) initial);
                    timers := 1 |}).
  { exact (reachable_step _ _ R1 (step_classify _)). }
  refine (reachable_step _ _ R2
            (step_timer
               {| st := handleClassify_pending
                          (handleInputChange (fun _ => "blob:1") (Some [Sample.photo]) initial);
                  timers := 1 |} 0 (1 # 3) eq_refl _ _)).
  - discriminate.
  - reflexivity.
Defined.

(** X3: a reset during the wait does not cancel the classification. From
    any reachable state with a selected file: click classify, remove the
    image, let the timer fire. The page is then in a reachable state that
    shows a result card although no file is selected and no preview is
    shown. *)
Theorem reset_during_wait_keeps_result (r : Running) (file : File) (random : Q) :
  reachable r ->
  selectedFile (st r) = Some file ->
  (0 <= random)%Q -> (random < 1)%Q ->
  reachable {| st := classify_resume random (handleReset (handleClassify_pending (st r)));
               timers := timers r |} /\
  selectedFile (classify_resume random (handleReset (handleClassify_pending (st r)))) = None /\
  previewUrl (classify_resume random (handleReset (handleClassify_pending (st r)))) = None /\
  exists c d,
    result (classify_resume random (handleReset (handleClassify_pending (st r)))) = Some c /\
    DISPOSAL_INSTRUCTIONS c = Some d /\
    resultCard (classify_resume random (handleReset (handleClassify_pending (st r)))) =
    ResultCard ("mt-8 border-2 rounded-2xl p-8 " ++ color d)%string
               (emoji d) c (instructions d).
Proof.
  intros Hr Hf H0 H1. split; [|split; [reflexivity | split; [reflexivity|]]].
  - assert (R1 : reachable {| st := handleClassify_pending (st r); timers := S (timers r) |}).
    { pose proof (reachable_step r _ Hr (step_classify r)) as R.
      rewrite Hf in R. exact R. }
    pose proof (reachable_step _ _ R1 (step_reset _)) as R2. cbn [st timers] in R2.
    exact (reachable_step _ _ R2
             (step_timer {| st := handleReset (handleClassify_pending (st r));
                            timers := S (timers r) |}
                         (timers r) random eq_refl H0 H1)).
  - destruct (resume_result_one_of_four random
                (handleReset (handleClassify_pending (st r))) H0 H1) as [c [Hc Hin]].
    destruct (card_of_category _ c Hc Hin) as [d [Hd Hcard]].
    exists c, d. auto.
Qed.

Lemma reset_during_wait_keeps_result_witness :
  selectedFile (classify_resume (7 # 8)
                  (handleReset (handleClassify_pending
                     (handleFileSelect "blob:1" Sample.photo initial)))) = None /\
  resultCard (classify_resume (7 # 8)
                (handleReset (handleClassify_pending
                   (handleFileSelect "blob:1" Sample.photo initial)))) =
  ResultCard "mt-8 border-2 rounded-2xl p-8 bg-red-100 border-red-400 text-red-800"
             "⚠️" "Special Waste"
             "Do NOT place in regular bins. Bring to designated DENR drop-off points. Includes batteries, e-waste, chemicals, and medical waste.".
Proof.
  destruct (reset_during_wait_keeps_result
              {| st := handleFileSelect "blob:1" Sample.photo initial; timers := 0 |}
              Sample.photo (7 # 8)) as [_ [Hsel _]].
  - eapply reachable_step; [apply reachable_start|].
    apply (step_input start (fun _ => "blob:1") (Some [Sample.photo])).
  - reflexivity.
  - discriminate.
  - reflexivity.
  - split; [exact Hsel | reflexivity].
Defined.

(** X4: a dropped file is selected only when its type starts with image/
    and only the first file of a drop is looked at; after the drop of
    anything else on a page without a file, the classify button does
    nothing (no timer, no result). The file picker has no such check: the
    first picked file is selected and classified whatever its type. *)
Theorem drop_filters_picker_does_not (url : File -> string) (files : option (list File))
        (f : File) (s : State) (random : Q) :
  first_file files = Some f ->
  String.prefix "image/" (file_type f) = false ->
  (0 <= random)%Q -> (random < 1)%Q ->
  (selectedFile s = None ->
   handleClassify random (handleDrop url files s) = (setIsDragging false s, [])) /\
  handleDrop url files s = setIsDragging false s /\
  selectedFile (handleInputChange url files s) = Some f /\
  snd (handleClassify random (handleInputChange url files s)) = [SetTimeout 2000] /\
  exists c, result (fst (handleClassify random (handleInputChange url files s))) = Some c /\
            In c categories.
Proof.
  intros Hfirst Htype H0 H1.
  assert (Hdrop : handleDrop url files s = setIsDragging false s).
  { unfold handleDrop. cbv zeta. now rewrite Hfirst, Htype. }
  split; [|split; [exact Hdrop|]].
  - intros Hnone. rewrite Hdrop. unfold handleClassify.
    cbn [setIsDragging selectedFile]. now rewrite Hnone.
  - unfold handleInputChange. rewrite Hfirst.
    split; [reflexivity|]. split; [reflexivity|].
    unfold handleClassify. cbn [handleFileSelect selectedFile fst result].
    change (Z.of_nat (length categories)) with 4%Z.
    apply js_index_categories. now apply floor_scaled_in_range.
Qed.

Lemma drop_filters_picker_does_not_witness :
  handleDrop (fun _ => "blob:2")
             (Some [ {| file_name := "notes.pdf"; file_type := "application/pdf" |};
                     Sample.photo ])
             initial
  = setIsDragging false initial /\
  selectedFile (handleInputChange (fun _ => "blob:2")
                  (Some [ {| file_name := "notes.pdf"; file_type := "application/pdf" |};
                          Sample.photo ])
                  initial)
  = Some {| file_name := "notes.pdf"; file_type := "application/pdf" |}.
Proof.
  destruct (drop_filters_picker_does_not (fun _ => "blob:2")
              (Some [ {| file_name := "notes.pdf"; file_type := "application/pdf" |};
                      Sample.photo ])
              {| file_name := "notes.pdf"; file_type := "application/pdf" |}
              initial (1 # 2)) as [_ [Hd [Hp _]]].
  - reflexivity.
  - reflexivity.
  - discriminate.
  - reflexivity.
  - split; [exact Hd | exact Hp].
Defined.

End ClassifierEventsFacts.

(** ** Navbar: further properties *)

Module NavbarMoreFacts.
Import Navbar.

(** X5: the pathname decides the highlight exactly: if it equals the href
    of a navigation link, that link and no other is styled active, in the
    desktop row and, while the menu is open, in the mobile menu; any
    other pathname (a nested route, a trailing slash) leaves all four
    links inactive in both. *)
Theorem navbar_active_link_exactly (pathname : string) (menuOpen : bool) :
  (forall link, In link navLinks -> pathname = href link ->
     filter styledActiveDesktop (desktopLinks (render pathname menuOpen))
     = [desktopLink pathname link] /\
     filter styledActiveMobile (nullish (mobileMenu (render pathname menuOpen)) [])
     = (if menuOpen then [mobileLink pathname link] else []) /\
     forall other, In other navLinks -> other <> link ->
       styledActiveDesktop (desktopLink pathname other) = false /\
       styledActiveMobile (mobileLink pathname other) = false) /\
  ((forall link, In link navLinks -> pathname <> href link) ->
   filter styledActiveDesktop (desktopLinks (render pathname menuOpen)) = [] /\
   filter styledActiveMobile (nullish (mobileMenu (render pathname menuOpen)) []) = []).
Proof.
  split.
  - intros link Hin ->. simpl in Hin.
    split; [|split].
    + destruct Hin as [<-|[<-|[<-|[<-|[]]]]]; reflexivity.
    + destruct Hin as [<-|[<-|[<-|[<-|[]]]]]; destruct menuOpen; reflexivity.
    + intros other Ho Hne. simpl in Ho.
      destruct Hin as [<-|[<-|[<-|[<-|[]]]]];
        destruct Ho as [<-|[<-|[<-|[<-|[]]]]];
        try (exfalso; apply Hne; reflexivity); split; reflexivity.
  - intros Hne.
    assert (H1 : (pathname =? "/") = false).
    { apply String.eqb_neq. apply (Hne {| href := "/"; label := "Home" |}). simpl; auto. }
    assert (H2 : (pathname =? "/about") = false).
    { apply String.eqb_neq. apply (Hne {| href := "/about"; label := "About" |}). simpl; auto. }
    assert (H3 : (pathname =? "/classifier") = false).
    { apply String.eqb_neq.
      apply (Hne {| href := "/classifier"; label := "Classifier" |}). simpl; auto. }
    assert (H4 : (pathname =? "/volunteer") = false).
    { apply String.eqb_neq.
      apply (Hne {| href := "/volunteer"; label := "Volunteer" |}). simpl; auto. }
    split.
    + unfold render, navLinks. cbn [desktopLinks map filter].
      unfold styledActiveDesktop, desktopLink, isActive. cbn [lv_className href].
      rewrite H1, H2, H3, H4. reflexivity.
    + unfold render, navLinks. cbn [mobileMenu].
      destruct menuOpen; [|reflexivity].
      cbn [nullish map app filter].
      unfold styledActiveMobile, mobileLink, isActive. cbn [lv_className href].
      rewrite H1, H2, H3, H4. reflexivity.
Qed.

Lemma navbar_active_link_exactly_witness :
  filter styledActiveDesktop (desktopLinks (render "/about" true))
  = [desktopLink "/about" {| href := "/about"; label := "About" |}] /\
  filter styledActiveMobile (nullish (mobileMenu (render "/about" true)) [])
  = [mobileLink "/about" {| href := "/about"; label := "About" |}] /\
  filter styledActiveDesktop (desktopLinks (render "/volunteer/" true)) = [] /\
  filter styledActiveMobile (nullish (mobileMenu (render "/volunteer/" true)) []) = [].
Proof.
  split; [|split].
  - apply (proj1 (navbar_active_link_exactly "/about" true)
                 {| href := "/about"; label := "About" |}).
    + simpl. auto.
    + reflexivity.
  - apply (proj1 (proj2 (proj1 (navbar_active_link_exactly "/about" true)
                           {| href := "/about"; label := "About" |}
                           ltac:(simpl; auto) eq_refl))).
  - apply (proj2 (navbar_active_link_exactly "/volunteer/" true)).
    intros link Hin. simpl in Hin.
    destruct Hin as [<-|[<-|[<-|[<-|[]]]]]; discriminate.
Defined.

End NavbarMoreFacts.

(** ** The volunteer page: further properties *)

Module VolunteerRuns.
Import Supabase Backend Volunteer BackendFacts VolunteerFacts VolunteerPure.

(** A lookup loop that only reads: its results and its requests. *)
Lemma mapM_reads {A B : Type} (f : A -> M B) (g : DB -> A -> B) (reqs : A -> list Request)
      (xs : list A) :
  (forall x w, fst (f x w) = g (db w) x /\
               page (snd (f x w)) = page w /\
               db (snd (f x w)) = db w /\
               log (snd (f x w)) = log w ++ reqs x) ->
  forall w,
    fst (mapM f xs w) = map (g (db w)) xs /\
    page (snd (mapM f xs w)) = page w /\
    db (snd (mapM f xs w)) = db w /\
    log (snd (mapM f xs w)) = log w ++ flat_map reqs xs.
Proof.
  intros Hf. induction xs as [|x xs IH]; intros w.
  - simpl. rewrite app_nil_r. auto.
  - rewrite mapM_cons. cbn [fst snd map flat_map].
    destruct (Hf x w) as [Hv [Hp [Hd Hl]]].
    destruct (IH (snd (f x w))) as [Hv' [Hp' [Hd' Hl']]].
    rewrite Hv, Hv', Hp', Hd', Hl', Hp, Hd, Hl, app_assoc. auto.
Qed.

Lemma enrichEvent_run (R : Remote) (snap : Page) (ev : Event) (w : World) :
  fst (enrichEvent R snap ev w) = entry_of R snap (db w) ev /\
  page (snd (enrichEvent R snap ev w)) = page w /\
  db (snd (enrichEvent R snap ev w)) = db w /\
  log (snd (enrichEvent R snap ev w)) = log w ++ requests_of_entry snap ev.
Proof.
  unfold enrichEvent, entry_of, requests_of_entry.
  destruct (currentUser snap); run_steps; unfold ret; cbn [fst snd page db log];
    rewrite <- ?app_assoc; auto.
Qed.

(** The catalogue loader, step by step, when the events query is
    answered. *)
Lemma fetchEvents_run (R : Remote) (snap : Page) (w : World) :
  fails R (db w) SelectEvents = None ->
  snd (fetchEvents R snap w) =
  {| page := setEventsLoading false
               (setEvents (map (entry_of R snap (db w)) (by_date R (events_table (db w))))
                          (page w));
     db := db w;
     log := log w ++ SelectEvents
            :: flat_map (requests_of_entry snap) (by_date R (events_table (db w))) |}.
Proof.
  intros Hok. unfold fetchEvents. run_steps.
  unfold select_events. rewrite Hok. run_steps.
  destruct (mapM_reads (enrichEvent R snap) (entry_of R snap) (requests_of_entry snap)
              (by_date R (events_table (db w)))
              (enrichEvent_run R snap)
              {| page := setEventsLoading true (page w); db := db w;
                 log := log w ++ [SelectEvents] |}) as [Hv [Hp [Hd Hl]]].
  fold (by_date R (events_table (db w))).
  rewrite Hv, Hp, Hd, Hl. cbn [page db log]. rewrite <- app_assoc. reflexivity.
Qed.

Lemma fetchEvents_refused (R : Remote) (snap : Page) (w : World) (msg : string) :
  fails R (db w) SelectEvents = Some msg ->
  snd (fetchEvents R snap w) =
  {| page := setEventsLoading false (page w); db := db w; log := log w ++ [SelectEvents] |}.
Proof.
  intros Hno. unfold fetchEvents. run_steps.
  unfold select_events. rewrite Hno. run_steps. reflexivity.
Qed.

(** The detail loader, step by step. *)
Lemma fetchEventDetail_run (R : Remote) (ev : EventWithMeta) (w : World) :
  snd (fetchEventDetail R ev w) =
  {| page :=
       setDetailLoading false
         (setEventUploads
            (map (detail_upload R (db w))
                 (nullish (select_uploads R (db w) (event_id_ (base ev))) []))
            (setEventParticipants
               (map (detail_participant R (db w))
                    (nullish (select_participants R (db w) (event_id_ (base ev))) []))
               (setSelectedEvent (Some ev) (page w))));
     db := db w;
     log := log w
            ++ SelectParticipants (event_id_ (base ev))
            :: map (fun p => SelectProfileEmail (volunteer_id p))
                   (nullish (select_participants R (db w) (event_id_ (base ev))) [])
            ++ SelectUploads (event_id_ (base ev))
            :: map (fun u => SelectProfileEmail (row_user_id u))
                   (nullish (select_uploads R (db w) (event_id_ (base ev))) []) |}.
Proof.
  unfold fetchEventDetail. run_steps.
  match goal with
  | |- context [mapM ?f (nullish (select_participants R (db w) ?e) []) ?w1] =>
      pose proof (mapM_reads f (detail_participant R)
                    (fun p => [SelectProfileEmail (volunteer_id p)])
                    (nullish (select_participants R (db w) e) [])
                    ltac:(intros x w0; run_steps; unfold ret; cbn [fst snd page db log]; auto)
                    w1) as H1;
      set (m1 := mapM f (nullish (select_participants R (db w) e) []) w1) in *
  end.
  destruct H1 as [Hv [Hp [Hd Hl]]]. cbn [db page log] in Hv, Hp, Hd, Hl.
  rewrite Hv, Hp, Hd, Hl.
  match goal with
  | |- context [mapM ?f (nullish (select_uploads R (db w) ?e) []) ?w1] =>
      pose proof (mapM_reads f (detail_upload R)
                    (fun u => [SelectProfileEmail (row_user_id u)])
                    (nullish (select_uploads R (db w) e) [])
                    ltac:(intros x w0; run_steps; unfold ret; cbn [fst snd page db log]; auto)
                    w1) as H2;
      set (m2 := mapM f (nullish (select_uploads R (db w) e) []) w1) in *
  end.
  destruct H2 as [Hv' [Hp' [Hd' Hl']]]. cbn [db page log] in Hv', Hp', Hd', Hl'.
  rewrite Hv', Hp', Hd', Hl'.
  assert (Hsing : forall (A : Type) (h : A -> Request) (l : list A),
             flat_map (fun x => [h x]) l = map h l).
  { intros A h l. induction l as [|x l IH]; simpl; [reflexivity | now rewrite IH]. }
  rewrite !Hsing. f_equal. rewrite <- !app_assoc. reflexivity.
Qed.

End VolunteerRuns.

Module VolunteerLoaderFacts.
Import Supabase Backend Volunteer BackendFacts VolunteerFacts VolunteerPure VolunteerRuns.

Lemma length_flat_map_const {A B : Type} (f : A -> list B) (k : nat) (l : list A) :
  (forall x, length (f x) = k) -> length (flat_map f l) = k * length l.
Proof.
  intros Hk. induction l as [|x l IH]; simpl; [lia|].
  rewrite length_app, Hk, IH. lia.
Qed.

Lemma requests_of_entry_reads (snap : Page) (evs : list Event) :
  Forall (fun q => is_read q = true) (flat_map (requests_of_entry snap) evs).
Proof.
  apply Forall_forall. intros q Hq. apply in_flat_map in Hq.
  destruct Hq as [ev [_ Hq]]. unfold requests_of_entry in Hq.
  destruct (currentUser snap); simpl in Hq;
    repeat (destruct Hq as [<-|Hq]; [reflexivity|]); destruct Hq.
Qed.

(** X6: the catalogue loader sends one query for the events and then,
    for each event, two lookups when nobody is signed in and three when
    somebody is; all of them are selects. When the events query is refused
    it sends nothing more, keeps the catalogue it had and only clears the
    loading flag. *)
Theorem catalogue_fan_out (R : Remote) (snap : Page) (w : World) :
  (fails R (db w) SelectEvents = None ->
   exists sent,
     log (snd (fetchEvents R snap w)) = log w ++ SelectEvents :: sent /\
     length sent =
       (match currentUser snap with Some _ => 3 | None => 2 end)
       * length (events_table (db w)) /\
     Forall (fun q => is_read q = true) sent) /\
  (forall msg,
     fails R (db w) SelectEvents = Some msg ->
     log (snd (fetchEvents R snap w)) = log w ++ [SelectEvents] /\
     events (page (snd (fetchEvents R snap w))) = events (page w) /\
     eventsLoading (page (snd (fetchEvents R snap w))) = false).
Proof.
  split.
  - intros Hok. rewrite (fetchEvents_run R snap w Hok). cbn [log].
    eexists. split; [reflexivity|]. split.
    + rewrite (length_flat_map_const _
                 (match currentUser snap with Some _ => 3 | None => 2 end)).
      * unfold by_date. now rewrite length_sort_by.
      * intros ev. unfold requests_of_entry. now destruct (currentUser snap).
    + apply requests_of_entry_reads.
  - intros msg Hno. rewrite (fetchEvents_refused R snap w msg Hno). repeat split.
Qed.

Lemma catalogue_fan_out_witness :
  (exists sent,
     log (snd (fetchEvents Sample.reliable (Sample.signed_in Sample.bob Sample.blank)
                 (Sample.world (Sample.signed_in Sample.bob Sample.blank))))
     = [] ++ SelectEvents :: sent /\
     length sent = 3 * 2 /\
     Forall (fun q => is_read q = true) sent) /\
  (log (snd (fetchEvents
               {| fails := fun _ _ => Some "offline";
                  gen_random_uuid := gen_random_uuid Sample.reliable;
                  now := now Sample.reliable;
                  ts_leb := ts_leb Sample.reliable;
                  getPublicUrl := getPublicUrl Sample.reliable |}
               Sample.blank (Sample.world Sample.blank)))
   = [] ++ [SelectEvents] /\
   events (page (snd (fetchEvents
               {| fails := fun _ _ => Some "offline";
                  gen_random_uuid := gen_random_uuid Sample.reliable;
                  now := now Sample.reliable;
                  ts_leb := ts_leb Sample.reliable;
                  getPublicUrl := getPublicUrl Sample.reliable |}
               Sample.blank (Sample.world Sample.blank)))) = [] /\
   eventsLoading (page (snd (fetchEvents
               {| fails := fun _ _ => Some "offline";
                  gen_random_uuid := gen_random_uuid Sample.reliable;
                  now := now Sample.reliable;
                  ts_leb := ts_leb Sample.reliable;
                  getPublicUrl := getPublicUrl Sample.reliable |}
               Sample.blank (Sample.world Sample.blank)))) = false).
Proof.
  split.
  - apply (proj1 (catalogue_fan_out Sample.reliable
                    (Sample.signed_in Sample.bob Sample.blank)
                    (Sample.world (Sample.signed_in Sample.bob Sample.blank)))).
    reflexivity.
  - apply (proj2 (catalogue_fan_out
                    {| fails := fun _ _ => Some "offline";
                       gen_random_uuid := gen_random_uuid Sample.reliable;
                       now := now Sample.reliable;
                       ts_leb := ts_leb Sample.reliable;
                       getPublicUrl := getPublicUrl Sample.reliable |}
                    Sample.blank (Sample.world Sample.blank)) "offline").
    reflexivity.
Defined.

(** The world after a join that the backend accepts. *)
Lemma join_run (R : Remote) (w : World) (u : User) (eventId : string) :
  answers R ->
  currentUser (page w) = Some u ->
  dispatch (fun snap => handleJoinEvent R snap eventId) w =
  snd (fetchEvents R (page w)
         {| page := page w;
            db := with_participants (db w)
                    (participants_table (db w) ++
                     [ {| participant_id := gen_random_uuid R (db w);
                          p_event_id := eventId;
                          volunteer_id := uid u;
                          status := "accepted" |} ]);
            log := log w ++ [InsertParticipant eventId (uid u) "accepted"] |}).
Proof.
  intros Hans Hu. unfold dispatch, handleJoinEvent. rewrite Hu. run_steps.
  unfold insert_participant. rewrite Hans. reflexivity.
Qed.

Lemma count_after_insert (eventId id : string) (rows : list Participant) (p : Participant) :
  p_event_id p = eventId ->
  length (filter (fun r => p_event_id r =? id) (rows ++ [p])) =
  length (filter (fun r => p_event_id r =? id) rows) + (if eventId =? id then 1 else 0).
Proof.
  intros <-. rewrite filter_app, length_app. simpl.
  destruct (p_event_id p =? id); reflexivity.
Qed.

(** X7: a join that the backend accepts raises the participant count of
    the joined event by exactly one in the refreshed catalogue and leaves
    the count of every other event as it was; the catalogue still lists
    the events in date order. *)
Theorem join_raises_count_by_one (R : Remote) (w : World) (u : User) (eventId : string) :
  answers R ->
  currentUser (page w) = Some u ->
  Forall (fun E =>
            participant_count E =
            Some (length (rows_of_event (event_id_ (base E)) (participants_table (db w)))
                  + (if eventId =? event_id_ (base E) then 1 else 0)))
         (events (page (dispatch (fun snap => handleJoinEvent R snap eventId) w))) /\
  map base (events (page (dispatch (fun snap => handleJoinEvent R snap eventId) w))) =
  by_date R (events_table (db w)).
Proof.
  intros Hans Hu. rewrite (join_run R w u eventId Hans Hu).
  rewrite fetchEvents_run by apply Hans.
  cbn [page db events setEvents setEventsLoading events_table with_participants].
  split.
  - apply Forall_forall. intros E HE. apply in_map_iff in HE.
    destruct HE as [ev [<- _]]. cbn [entry_of participant_count base].
    unfold count_participants. rewrite Hans.
    cbn [nullish participants_table with_participants].
    unfold rows_of_event. now rewrite (count_after_insert eventId).
  - rewrite map_map. cbn [entry_of base]. apply map_id.
Qed.

Lemma join_raises_count_by_one_witness :
  map (fun E => (event_id_ (base E), participant_count E))
      (events (page (dispatch (fun snap => handleJoinEvent Sample.reliable snap "event-2")
                       (Sample.world (Sample.signed_in Sample.alice Sample.blank)))))
  = [ ("event-2", Some 2); ("event-1", Some 3) ] /\
  Forall (fun E =>
            participant_count E =
            Some (length (rows_of_event (event_id_ (base E))
                            (participants_table Sample.tables))
                  + (if "event-2" =? event_id_ (base E) then 1 else 0)))
         (events (page (dispatch (fun snap => handleJoinEvent Sample.reliable snap "event-2")
                          (Sample.world (Sample.signed_in Sample.alice Sample.blank))))).
Proof.
  split; [reflexivity|].
  apply (proj1 (join_raises_count_by_one Sample.reliable
                  (Sample.world (Sample.signed_in Sample.alice Sample.blank))
                  Sample.alice "event-2" (fun _ _ => eq_refl) eq_refl)).
Defined.

Lemma filter_none {A : Type} (f : A -> bool) (l : list A) :
  (forall x, In x l -> f x = false) -> filter f l = [].
Proof.
  intros H. induction l as [|x l IH]; simpl; [reflexivity|].
  rewrite (H x (or_introl eq_refl)). apply IH. intros y Hy. apply H. now right.
Qed.

(** X8: the page does not prevent a second join. After one accepted join
    the catalogue shows the user's own participation, with status
    accepted; after a second one the table holds two rows for the pair,
    the count has grown by two, and the lookup of the user's own row
    (which wants exactly one row) finds none, so the catalogue shows the
    user as not joined. *)
Theorem double_join_hides_participation (R : Remote) (w : World) (u : User)
        (eventId : string) :
  answers R ->
  currentUser (page w) = Some u ->
  (forall p, In p (participants_table (db w)) ->
             p_event_id p = eventId -> volunteer_id p <> uid u) ->
  Forall (fun E =>
            event_id_ (base E) = eventId ->
            exists row, user_participation E = Some row /\
                        status row = "accepted" /\ volunteer_id row = uid u)
         (events (page (dispatch (fun snap => handleJoinEvent R snap eventId) w))) /\
  Forall (fun E =>
            event_id_ (base E) = eventId ->
            user_participation E = None /\
            participant_count E =
            Some (length (rows_of_event eventId (participants_table (db w))) + 2))
         (events (page (dispatch (fun snap => handleJoinEvent R snap eventId)
                          (dispatch (fun snap => handleJoinEvent R snap eventId) w)))) /\
  length (filter (fun p => (p_event_id p =? eventId) && (volunteer_id p =? uid u))
                 (participants_table
                    (db (dispatch (fun snap => handleJoinEvent R snap eventId)
                           (dispatch (fun snap => handleJoinEvent R snap eventId) w))))) = 2.
Proof.
  intros Hans Hu Hfresh.
  assert (Hnone : filter (fun p => (p_event_id p =? eventId) && (volunteer_id p =? uid u))
                         (participants_table (db w)) = []).
  { apply filter_none. intros p Hp.
    destruct (String.eqb_spec (p_event_id p) eventId) as [E|_]; [|reflexivity].
    destruct (String.eqb_spec (volunteer_id p) (uid u)) as [E'|_]; [|reflexivity].
    exfalso. exact (Hfresh p Hp E E'). }
  pose proof (join_run R w u eventId Hans Hu) as H1.
  rewrite fetchEvents_run in H1 by apply Hans.
  cbn [page db log events_table with_participants] in H1.
  assert (Hu1 : currentUser (page (dispatch (fun snap => handleJoinEvent R snap eventId) w))
                = Some u).
  { rewrite H1. exact Hu. }
  pose proof (join_run R _ u eventId Hans Hu1) as H2.
  rewrite fetchEvents_run in H2 by apply Hans.
  rewrite H2. rewrite H1.
  cbn [page db log events setEvents setEventsLoading events_table participants_table
       with_participants].
  split; [|split].
  - apply Forall_forall. intros E HE Hid. apply in_map_iff in HE.
    destruct HE as [ev [<- _]]. cbn [entry_of user_participation base] in *.
    rewrite Hu. unfold select_participation. rewrite Hans.
    cbn [participants_table with_participants]. rewrite Hid, filter_app, Hnone.
    cbn [filter app p_event_id volunteer_id]. rewrite !String.eqb_refl.
    cbn [andb single]. eexists. split; [reflexivity|]. split; reflexivity.
  - apply Forall_forall. intros E HE Hid. apply in_map_iff in HE.
    destruct HE as [ev [<- _]].
    cbn [entry_of user_participation participant_count base currentUser
         setEvents setEventsLoading] in *.
    rewrite Hu. unfold select_participation, count_participants. rewrite !Hans.
    cbn [participants_table with_participants nullish]. rewrite Hid. split.
    + rewrite !filter_app, Hnone.
      cbn [filter app p_event_id volunteer_id]. rewrite !String.eqb_refl.
      reflexivity.
    + unfold rows_of_event. rewrite !filter_app, !length_app.
      cbn [filter p_event_id length]. rewrite !String.eqb_refl. cbn [length].
      f_equal. lia.
  - rewrite !filter_app, Hnone.
    cbn [filter app p_event_id volunteer_id]. rewrite !String.eqb_refl. reflexivity.
Qed.

Lemma double_join_hides_participation_witness :
  map (fun E => (event_id_ (base E), participant_count E,
                 option_map status (user_participation E)))
      (events (page (dispatch (fun snap => handleJoinEvent Sample.reliable snap "event-2")
                       (dispatch (fun snap => handleJoinEvent Sample.reliable snap "event-2")
                          (Sample.world (Sample.signed_in Sample.alice Sample.blank))))))
  = [ ("event-2", Some 3, None); ("event-1", Some 3, None) ] /\
  length (filter (fun p => (p_event_id p =? "event-2") && (volunteer_id p =? "user-a"))
                 (participants_table
                    (db (dispatch (fun snap => handleJoinEvent Sample.reliable snap "event-2")
                           (dispatch (fun snap => handleJoinEvent Sample.reliable snap "event-2")
                              (Sample.world (Sample.signed_in Sample.alice Sample.blank)))))))
  = 2.
Proof.
  split; [reflexivity|].
  apply (proj2 (proj2 (double_join_hides_participation Sample.reliable
                         (Sample.world (Sample.signed_in Sample.alice Sample.blank))
                         Sample.alice "event-2" (fun _ _ => eq_refl) eq_refl
                         ltac:(intros p Hp He Hv; simpl in Hp;
                               destruct Hp as [<-|[<-|[<-|[<-|[]]]]]; discriminate)))).
Defined.

(** X9: joining needs a signed-in user and an answering backend, and is
    silent otherwise: without a user nothing is sent and nothing changes;
    when the backend refuses the insert, the page shows no error, the
    catalogue is not refreshed and the tables are as before. *)
Theorem join_without_effect (R : Remote) (w : World) (eventId : string) :
  (currentUser (page w) = None ->
   dispatch (fun snap => handleJoinEvent R snap eventId) w = w) /\
  (forall u msg,
     currentUser (page w) = Some u ->
     fails R (db w) (InsertParticipant eventId (uid u) "accepted") = Some msg ->
     page (dispatch (fun snap => handleJoinEvent R snap eventId) w) = page w /\
     db (dispatch (fun snap => handleJoinEvent R snap eventId) w) = db w /\
     log (dispatch (fun snap => handleJoinEvent R snap eventId) w) =
     log w ++ [InsertParticipant eventId (uid u) "accepted"]).
Proof.
  split.
  - intros Hu. unfold dispatch, handleJoinEvent. rewrite Hu. reflexivity.
  - intros u msg Hu Hno. unfold dispatch, handleJoinEvent. rewrite Hu. run_steps.
    unfold insert_participant. rewrite Hno. repeat split.
Qed.

Lemma join_without_effect_witness :
  dispatch (fun snap => handleJoinEvent Sample.reliable snap "event-1")
           (Sample.world Sample.blank)
  = Sample.world Sample.blank.
Proof.
  apply (proj1 (join_without_effect Sample.reliable (Sample.world Sample.blank) "event-1")).
  reflexivity.
Defined.

(** X10: the detail loader lists exactly the [participants] rows of the
    opened event, in table order and each with an email or the
    placeholder, marks the event as selected and clears its loading flag;
    the number of rows it lists is the participant count the catalogue
    loader reports for that event on the same tables. *)
Theorem detail_lists_rows_of_event (R : Remote) (snap : Page) (ev : EventWithMeta)
        (w : World) :
  fails R (db w) (SelectParticipants (event_id_ (base ev))) = None ->
  map fst (eventParticipants (page (snd (fetchEventDetail R ev w)))) =
    rows_of_event (event_id_ (base ev)) (participants_table (db w)) /\
  Forall (fun pe => exists mail, snd pe = Some mail)
         (eventParticipants (page (snd (fetchEventDetail R ev w)))) /\
  selectedEvent (page (snd (fetchEventDetail R ev w))) = Some ev /\
  detailLoading (page (snd (fetchEventDetail R ev w))) = false /\
  (fails R (db w) SelectEvents = None ->
   fails R (db w) (CountParticipants (event_id_ (base ev))) = None ->
   Forall (fun E =>
             event_id_ (base E) = event_id_ (base ev) ->
             participant_count E =
             Some (length (eventParticipants (page (snd (fetchEventDetail R ev w))))))
          (events (page (snd (fetchEvents R snap w))))).
Proof.
  intros Hok. rewrite fetchEventDetail_run.
  cbn [page eventParticipants selectedEvent detailLoading setDetailLoading setEventUploads
       setEventParticipants setSelectedEvent].
  unfold select_participants at 1 2 3. rewrite Hok. cbn [nullish].
  split; [|split; [|split; [|split]]].
  - rewrite map_map. cbn [detail_participant fst]. apply map_id.
  - apply Forall_forall. intros pe Hpe. apply in_map_iff in Hpe.
    destruct Hpe as [p [<- _]]. eexists. reflexivity.
  - reflexivity.
  - reflexivity.
  - intros Hev Hcount. rewrite (fetchEvents_run R snap w Hev).
    cbn [page events setEvents setEventsLoading].
    apply Forall_forall. intros E HE Hid. apply in_map_iff in HE.
    destruct HE as [e [<- _]]. cbn [entry_of participant_count base] in *.
    unfold count_participants. rewrite Hid, Hcount. cbn [nullish].
    now rewrite length_map.
Qed.

Lemma detail_lists_rows_of_event_witness :
  map fst (eventParticipants
             (page (snd (fetchEventDetail Sample.reliable
                           (entry_of Sample.reliable Sample.blank Sample.tables Sample.bucana)
                           (Sample.world Sample.blank))))) =
  rows_of_event "event-1" (participants_table Sample.tables).
Proof.
  apply (detail_lists_rows_of_event Sample.reliable Sample.blank
           (entry_of Sample.reliable Sample.blank Sample.tables Sample.bucana)
           (Sample.world Sample.blank)).
  reflexivity.
Defined.

(** X11: a refused lookup empties the detail view instead of keeping what
    it showed: when the participants query is refused the list of
    participants becomes empty, and likewise the photos when the uploads
    query is refused, whatever the lists held before. *)
Theorem detail_refused_shows_nothing (R : Remote) (ev : EventWithMeta) (w : World) :
  (forall msg,
     fails R (db w) (SelectParticipants (event_id_ (base ev))) = Some msg ->
     eventParticipants (page (snd (fetchEventDetail R ev w))) = []) /\
  (forall msg,
     fails R (db w) (SelectUploads (event_id_ (base ev))) = Some msg ->
     eventUploads (page (snd (fetchEventDetail R ev w))) = []).
Proof.
  rewrite fetchEventDetail_run.
  cbn [page eventParticipants eventUploads setDetailLoading setEventUploads
       setEventParticipants setSelectedEvent].
  split; intros msg Hno.
  - unfold select_participants. now rewrite Hno.
  - unfold select_uploads. now rewrite Hno.
Qed.

Lemma detail_refused_shows_nothing_witness :
  eventParticipants
    (page (snd (fetchEventDetail
                  {| fails := fun _ _ => Some "offline";
                     gen_random_uuid := gen_random_uuid Sample.reliable;
                     now := now Sample.reliable;
                     ts_leb := ts_leb Sample.reliable;
                     getPublicUrl := getPublicUrl Sample.reliable |}
                  (entry_of Sample.reliable Sample.blank Sample.tables Sample.bucana)
                  (Sample.world
                     (setEventParticipants
                        [ (Sample.row "p-1" "event-1" "user-b" "accepted", Some "b@davao.ph") ]
                        Sample.blank))))) = [].
Proof.
  apply (proj1 (detail_refused_shows_nothing
                  {| fails := fun _ _ => Some "offline";
                     gen_random_uuid := gen_random_uuid Sample.reliable;
                     now := now Sample.reliable;
                     ts_leb := ts_leb Sample.reliable;
                     getPublicUrl := getPublicUrl Sample.reliable |}
                  (entry_of Sample.reliable Sample.blank Sample.tables Sample.bucana)
                  (Sample.world
                     (setEventParticipants
                        [ (Sample.row "p-1" "event-1" "user-b" "accepted", Some "b@davao.ph") ]
                        Sample.blank))) "offline").
  reflexivity.
Defined.

End VolunteerLoaderFacts.

Module VolunteerFormFacts.
Import Supabase Backend Volunteer BackendFacts VolunteerFacts VolunteerPure VolunteerRuns
       VolunteerMore.

(** The world after a create that the backend accepts. *)
Lemma submit_create_run (R : Remote) (toISOString : string -> option string) (w : World)
      (u : User) (iso : string) :
  currentUser (page w) = Some u ->
  form_title (eventForm (page w)) <> "" ->
  form_location (eventForm (page w)) <> "" ->
  form_event_date (eventForm (page w)) <> "" ->
  eventModalMode (page w) = Some create ->
  toISOString (form_event_date (eventForm (page w))) = Some iso ->
  fails R (db w) (InsertEvent (uid u) (form_title (eventForm (page w)))
                    (form_description (eventForm (page w)))
                    (form_location (eventForm (page w))) iso) = None ->
  dispatch (handleEventFormSubmit R toISOString) w =
  snd (fetchEvents R (page w)
         {| page := setFormLoading false
                      (setEventModalMode None (setFormError "" (page w)));
            db := with_events (db w)
                    (events_table (db w) ++
                     [ {| event_id_ := gen_random_uuid R (db w);
                          organizer_id := uid u;
                          title := form_title (eventForm (page w));
                          description := form_description (eventForm (page w));
                          location := form_location (eventForm (page w));
                          event_date := iso;
                          event_created_at := now R (db w) |} ]);
            log := log w ++ [InsertEvent (uid u) (form_title (eventForm (page w)))
                               (form_description (eventForm (page w)))
                               (form_location (eventForm (page w))) iso] |}).
Proof.
  intros Hu Ht Hl Hd Hmode Hiso Hok.
  assert (Hv := proj2 (form_valid_iff (eventForm (page w))) (conj Ht (conj Hl Hd))).
  unfold dispatch, handleEventFormSubmit. rewrite Hu. cbv zeta. run_steps.
  rewrite Hv, Hmode, Hiso. run_steps.
  unfold insert_event. rewrite Hok. run_steps. reflexivity.
Qed.

(** X12: a valid create form of a signed-in user, on a backend that
    answers, adds exactly one event to the table: it is owned by the
    current user and carries the title, description and location of the
    form and the normalised date. The modal is closed, no error is shown,
    and the refreshed catalogue lists the new event. *)
Theorem create_adds_owned_event (R : Remote) (toISOString : string -> option string)
        (w : World) (u : User) (iso : string) :
  answers R ->
  currentUser (page w) = Some u ->
  form_title (eventForm (page w)) <> "" ->
  form_location (eventForm (page w)) <> "" ->
  form_event_date (eventForm (page w)) <> "" ->
  eventModalMode (page w) = Some create ->
  toISOString (form_event_date (eventForm (page w))) = Some iso ->
  events_table (db (dispatch (handleEventFormSubmit R toISOString) w)) =
    events_table (db w) ++
    [ {| event_id_ := gen_random_uuid R (db w);
         organizer_id := uid u;
         title := form_title (eventForm (page w));
         description := form_description (eventForm (page w));
         location := form_location (eventForm (page w));
         event_date := iso;
         event_created_at := now R (db w) |} ] /\
  eventModalMode (page (dispatch (handleEventFormSubmit R toISOString) w)) = None /\
  formError (page (dispatch (handleEventFormSubmit R toISOString) w)) = "" /\
  formLoading (page (dispatch (handleEventFormSubmit R toISOString) w)) = false /\
  exists E,
    In E (events (page (dispatch (handleEventFormSubmit R toISOString) w))) /\
    organizer_id (base E) = uid u /\
    title (base E) = form_title (eventForm (page w)) /\
    event_date (base E) = iso.
Proof.
  intros Hans Hu Ht Hl Hd Hmode Hiso.
  rewrite (submit_create_run R toISOString w u iso Hu Ht Hl Hd Hmode Hiso (Hans _ _)).
  rewrite fetchEvents_run by apply Hans.
  cbn [page db events setEvents setEventsLoading events_table with_events
       eventModalMode formError formLoading setFormLoading setEventModalMode setFormError].
  repeat split.
  eexists. split.
  - apply in_map. unfold by_date. apply in_sort_by. apply in_or_app. right. left. reflexivity.
  - repeat split.
Qed.

Lemma create_adds_owned_event_witness :
  map (fun e => (organizer_id e, title e, event_date e))
      (events_table
         (db (dispatch (handleEventFormSubmit Sample.reliable Sample.toISOString)
                (Sample.world (Sample.with_form Sample.complete
                                 (Sample.signed_in Sample.bob Sample.blank))))))
  = [ ("user-a", "Bucana Beach Clean-up", "2024-06-01T00:00:00+00:00");
      ("user-a", "Matina Creek Clean-up", "2024-05-25T00:00:00+00:00");
      ("user-b", "Bucana Beach Clean-up", "2024-06-01T00:00:00.000Z") ].
Proof.
  rewrite (proj1 (create_adds_owned_event Sample.reliable Sample.toISOString
                    (Sample.world (Sample.with_form Sample.complete
                                     (Sample.signed_in Sample.bob Sample.blank)))
                    Sample.bob "2024-06-01T00:00:00.000Z"
                    (fun _ _ => eq_refl) eq_refl
                    ltac:(discriminate) ltac:(discriminate) ltac:(discriminate)
                    eq_refl eq_refl)).
  reflexivity.
Defined.

(** X13: when the backend refuses the insert of a create form or the
    update of an edit form, the page shows the backend's message as it
    is, the modal stays open with the form as typed, the loading flag is
    cleared, the catalogue is not refreshed and the tables are as before. *)
Theorem submit_error_is_shown_verbatim (R : Remote) (toISOString : string -> option string)
        (w : World) (u : User) (iso msg : string) :
  currentUser (page w) = Some u ->
  form_title (eventForm (page w)) <> "" ->
  form_location (eventForm (page w)) <> "" ->
  form_event_date (eventForm (page w)) <> "" ->
  toISOString (form_event_date (eventForm (page w))) = Some iso ->
  (eventModalMode (page w) = Some create ->
   fails R (db w) (InsertEvent (uid u) (form_title (eventForm (page w)))
                     (form_description (eventForm (page w)))
                     (form_location (eventForm (page w))) iso) = Some msg ->
   page (dispatch (handleEventFormSubmit R toISOString) w) =
     setFormLoading false (setFormError msg (page w)) /\
   db (dispatch (handleEventFormSubmit R toISOString) w) = db w /\
   log (dispatch (handleEventFormSubmit R toISOString) w) =
     log w ++ [InsertEvent (uid u) (form_title (eventForm (page w)))
                 (form_description (eventForm (page w)))
                 (form_location (eventForm (page w))) iso]) /\
  (forall ev,
     eventModalMode (page w) = Some edit ->
     editingEvent (page w) = Some ev ->
     fails R (db w) (UpdateEvent (event_id_ ev) (form_title (eventForm (page w)))
                       (form_description (eventForm (page w)))
                       (form_location (eventForm (page w))) iso) = Some msg ->
     page (dispatch (handleEventFormSubmit R toISOString) w) =
       setFormLoading false (setFormError msg (page w)) /\
     db (dispatch (handleEventFormSubmit R toISOString) w) = db w /\
     log (dispatch (handleEventFormSubmit R toISOString) w) =
       log w ++ [UpdateEvent (event_id_ ev) (form_title (eventForm (page w)))
                   (form_description (eventForm (page w)))
                   (form_location (eventForm (page w))) iso]).
Proof.
  intros Hu Ht Hl Hd Hiso.
  assert (Hv := proj2 (form_valid_iff (eventForm (page w))) (conj Ht (conj Hl Hd))).
  split.
  - intros Hmode Hno. unfold dispatch, handleEventFormSubmit. rewrite Hu. cbv zeta.
    run_steps. rewrite Hv, Hmode, Hiso. run_steps.
    unfold insert_event. rewrite Hno. run_steps. repeat split.
  - intros ev Hmode Hed Hno. unfold dispatch, handleEventFormSubmit. rewrite Hu. cbv zeta.
    run_steps. rewrite Hv, Hmode, Hed, Hiso. run_steps.
    unfold update_event. rewrite Hno. run_steps. repeat split.
Qed.

Lemma submit_error_is_shown_verbatim_witness :
  formError
    (page (dispatch (handleEventFormSubmit
                       {| fails := fun _ q =>
                            match q with
                            | InsertEvent _ _ _ _ _ =>
                                Some "new row violates row-level security policy"
                            | _ => None
                            end;
                          gen_random_uuid := gen_random_uuid Sample.reliable;
                          now := now Sample.reliable;
                          ts_leb := ts_leb Sample.reliable;
                          getPublicUrl := getPublicUrl Sample.reliable |}
                       Sample.toISOString)
             (Sample.world (Sample.with_form Sample.complete
                              (Sample.signed_in Sample.bob Sample.blank)))))
  = "new row violates row-level security policy".
Proof.
  rewrite (proj1 (proj1 (submit_error_is_shown_verbatim
                    {| fails := fun _ q =>
                         match q with
                         | InsertEvent _ _ _ _ _ =>
                             Some "new row violates row-level security policy"
                         | _ => None
                         end;
                       gen_random_uuid := gen_random_uuid Sample.reliable;
                       now := now Sample.reliable;
                       ts_leb := ts_leb Sample.reliable;
                       getPublicUrl := getPublicUrl Sample.reliable |}
                    Sample.toISOString
                    (Sample.world (Sample.with_form Sample.complete
                                     (Sample.signed_in Sample.bob Sample.blank)))
                    Sample.bob "2024-06-01T00:00:00.000Z"
                    "new row violates row-level security policy"
                    eq_refl ltac:(discriminate) ltac:(discriminate) ltac:(discriminate)
                    eq_refl) eq_refl eq_refl)).
  reflexivity.
Defined.

Lemma Forall2_map_same {A : Type} (P : A -> A -> Prop) (f : A -> A) (l : list A) :
  (forall x, P x (f x)) -> Forall2 P l (map f l).
Proof.
  intros H. induction l as [|x l IH]; simpl; constructor; auto.
Qed.

(** X14: an accepted edit rewrites the title, description, location and
    date of the rows with the edited event's id and nothing else: every
    row keeps its id, its organizer and its creation time, rows of other
    events are untouched, and no row is added or removed. The handler
    does not compare the current user with the event's organizer. *)
Theorem edit_changes_only_the_form_fields (R : Remote)
        (toISOString : string -> option string) (w : World) (u : User) (ev : Event)
        (iso : string) :
  answers R ->
  currentUser (page w) = Some u ->
  form_title (eventForm (page w)) <> "" ->
  form_location (eventForm (page w)) <> "" ->
  form_event_date (eventForm (page w)) <> "" ->
  eventModalMode (page w) = Some edit ->
  editingEvent (page w) = Some ev ->
  toISOString (form_event_date (eventForm (page w))) = Some iso ->
  Forall2 (fun e e' =>
             event_id_ e' = event_id_ e /\
             organizer_id e' = organizer_id e /\
             event_created_at e' = event_created_at e /\
             (event_id_ e <> event_id_ ev -> e' = e) /\
             (event_id_ e = event_id_ ev ->
              title e' = form_title (eventForm (page w)) /\
              description e' = form_description (eventForm (page w)) /\
              location e' = form_location (eventForm (page w)) /\
              event_date e' = iso))
          (events_table (db w))
          (events_table (db (dispatch (handleEventFormSubmit R toISOString) w))) /\
  participants_table (db (dispatch (handleEventFormSubmit R toISOString) w)) =
    participants_table (db w) /\
  eventModalMode (page (dispatch (handleEventFormSubmit R toISOString) w)) = None.
Proof.
  intros Hans Hu Ht Hl Hd Hmode Hed Hiso.
  assert (Hv := proj2 (form_valid_iff (eventForm (page w))) (conj Ht (conj Hl Hd))).
  assert (Hrun :
    dispatch (handleEventFormSubmit R toISOString) w =
    snd (fetchEvents R (page w)
           {| page := setFormLoading false
                        (setEventModalMode None (setFormError "" (page w)));
              db := snd (update_event R (db w) (event_id_ ev)
                           (form_title (eventForm (page w)))
                           (form_description (eventForm (page w)))
                           (form_location (eventForm (page w))) iso);
              log := log w ++ [UpdateEvent (event_id_ ev) (form_title (eventForm (page w)))
                                 (form_description (eventForm (page w)))
                                 (form_location (eventForm (page w))) iso] |})).
  { unfold dispatch, handleEventFormSubmit. rewrite Hu. cbv zeta. run_steps.
    rewrite Hv, Hmode, Hed, Hiso. run_steps.
    unfold update_event. rewrite Hans. run_steps. reflexivity. }
  rewrite Hrun. rewrite fetchEvents_run by apply Hans.
  unfold update_event. rewrite Hans.
  cbn [page db snd events_table participants_table with_events eventModalMode
       setEvents setEventsLoading setFormLoading setEventModalMode setFormError].
  split; [|split; reflexivity].
  apply Forall2_map_same. intros e.
  destruct (String.eqb_spec (event_id_ e) (event_id_ ev)) as [E|E];
    cbn [event_id_ organizer_id event_created_at title description location event_date].
  - repeat split; auto. intros Hne. contradiction.
  - repeat split; auto; intros; contradiction.
Qed.

Lemma edit_changes_only_the_form_fields_witness :
  map (fun e => (event_id_ e, organizer_id e, title e, location e))
      (events_table
         (db (dispatch (handleEventFormSubmit Sample.reliable Sample.toISOString)
                (Sample.world
                   (setEventModalMode (Some edit)
                      (setEditingEvent (Some Sample.matina)
                         (Sample.with_form Sample.complete
                            (Sample.signed_in Sample.bob Sample.blank))))))))
  = [ ("event-1", "user-a", "Bucana Beach Clean-up", "Bucana");
      ("event-2", "user-a", "Bucana Beach Clean-up", "Bucana") ] /\
  participants_table
    (db (dispatch (handleEventFormSubmit Sample.reliable Sample.toISOString)
           (Sample.world
              (setEventModalMode (Some edit)
                 (setEditingEvent (Some Sample.matina)
                    (Sample.with_form Sample.complete
                       (Sample.signed_in Sample.bob Sample.blank)))))))
  = participants_table Sample.tables.
Proof.
  split; [reflexivity|].
  apply (proj1 (proj2 (edit_changes_only_the_form_fields Sample.reliable Sample.toISOString
                  (Sample.world
                     (setEventModalMode (Some edit)
                        (setEditingEvent (Some Sample.matina)
                           (Sample.with_form Sample.complete
                              (Sample.signed_in Sample.bob Sample.blank)))))
                  Sample.bob Sample.matina "2024-06-01T00:00:00.000Z"
                  (fun _ _ => eq_refl) eq_refl
                  ltac:(discriminate) ltac:(discriminate) ltac:(discriminate)
                  eq_refl eq_refl eq_refl))).
Defined.

Lemma substring_nonempty (n : nat) (s : string) :
  s <> "" -> String.substring 0 (S n) s <> "".
Proof.
  destruct s as [|c s]; [congruence|]. simpl. discriminate.
Qed.

(** X15: opening the create modal and submitting at once never reaches
    the backend: the form starts empty, so for a signed-in user the
    required-fields message appears and the modal stays open. Opening the
    edit modal of an event whose title, location and date are non-empty
    and saving without a change passes validation and sends, first, the
    update of that event with its own title, description and location and
    its date cut to the first 16 characters and normalised. *)
Theorem modal_then_submit (R : Remote) (toISOString : string -> option string)
        (w : World) (u : User) :
  currentUser (page w) = Some u ->
  (log (dispatch (handleEventFormSubmit R toISOString)
          (dispatch (fun _ => openCreateModal) w)) = log w /\
   db (dispatch (handleEventFormSubmit R toISOString)
         (dispatch (fun _ => openCreateModal) w)) = db w /\
   formError (page (dispatch (handleEventFormSubmit R toISOString)
                      (dispatch (fun _ => openCreateModal) w))) = required_message /\
   eventModalMode (page (dispatch (handleEventFormSubmit R toISOString)
                           (dispatch (fun _ => openCreateModal) w))) = Some create) /\
  (forall ev iso,
     title ev <> "" -> location ev <> "" -> event_date ev <> "" ->
     toISOString (String.substring 0 16 (event_date ev)) = Some iso ->
     exists rest,
       log (dispatch (handleEventFormSubmit R toISOString)
              (dispatch (fun _ => openEditModal ev) w)) =
       log w ++ UpdateEvent (event_id_ ev) (title ev) (description ev) (location ev) iso
             :: rest).
Proof.
  intros Hu. split.
  - set (w1 := dispatch (fun _ => openCreateModal) w).
    assert (Hu1 : currentUser (page w1) = Some u) by exact Hu.
    assert (Hinv : js_not (form_title (eventForm (page w1)))
                   || js_not (form_location (eventForm (page w1)))
                   || js_not (form_event_date (eventForm (page w1))) = true) by reflexivity.
    destruct (submit_invalid R toISOString w1 Hinv) as [Hl [Hd Hp]].
    rewrite Hl, Hd, Hp, Hu1. repeat split.
  - intros ev iso Ht Hl Hd Hiso.
    set (w1 := dispatch (fun _ => openEditModal ev) w).
    assert (Hv : js_not (form_title (eventForm (page w1)))
                 || js_not (form_location (eventForm (page w1)))
                 || js_not (form_event_date (eventForm (page w1))) = false).
    { apply form_valid_iff. cbn. repeat split; auto.
      now apply substring_nonempty. }
    unfold dispatch at 1. unfold handleEventFormSubmit.
    change (currentUser (page w1)) with (currentUser (page w)). rewrite Hu.
    cbv zeta. run_steps. rewrite Hv.
    change (eventModalMode (page w1)) with (Some edit).
    change (editingEvent (page w1)) with (Some ev).
    change (form_event_date (eventForm (page w1)))
      with (String.substring 0 16 (event_date ev)).
    cbv iota. rewrite Hiso. run_steps.
    match goal with
    | |- context [update_event ?r ?d ?a ?b ?c ?e ?f] =>
        destruct (fst (update_event r d a b c e f)) as [msg|]
    end.
    + run_steps. exists []. reflexivity.
    + run_steps.
      match goal with
      | |- context [fetchEvents R ?p ?w2] =>
          destruct (fetchEvents_read_only R p w2) as [_ [sent [Hs _]]]; rewrite Hs
      end.
      cbn [log]. rewrite <- app_assoc. eexists. reflexivity.
Qed.

Lemma modal_then_submit_witness :
  log (dispatch (handleEventFormSubmit Sample.reliable Sample.toISOString)
         (dispatch (fun _ => openCreateModal)
            (Sample.world (Sample.signed_in Sample.alice Sample.blank)))) = [] /\
  formError (page (dispatch (handleEventFormSubmit Sample.reliable Sample.toISOString)
                     (dispatch (fun _ => openCreateModal)
                        (Sample.world (Sample.signed_in Sample.alice Sample.blank)))))
  = required_message.
Proof.
  destruct (proj1 (modal_then_submit Sample.reliable Sample.toISOString
                     (Sample.world (Sample.signed_in Sample.alice Sample.blank))
                     Sample.alice eq_refl)) as [Hl [_ [He _]]].
  split; [exact Hl | exact He].
Defined.

End VolunteerFormFacts.

Module VolunteerUploadFacts.
Import Supabase Backend Volunteer BackendFacts VolunteerFacts VolunteerPure VolunteerRuns.

(** X16: the two ways an upload fails. When the object store refuses the
    file (for one, because an object already exists at the path), no
    metadata insert is sent, nothing is stored and the message is shown.
    When the file is stored but the metadata insert is refused, the
    message is shown and no row is written, yet the stored object stays
    in the bucket: nothing removes it. *)
Theorem upload_failure_modes (R : Remote) (w : World) (u : User) (sel : EventWithMeta)
        (date_now : string) (file : File) :
  currentUser (page w) = Some u ->
  selectedEvent (page w) = Some sel ->
  (forall msg,
     fst (storage_upload R (db w) (upload_path sel u date_now file) file) = Some msg ->
     db (dispatch (fun snap => handleImageUpload R snap date_now file) w)
       = snd (storage_upload R (db w) (upload_path sel u date_now file) file) /\
     log (dispatch (fun snap => handleImageUpload R snap date_now file) w)
       = log w ++ [StorageUpload (upload_path sel u date_now file) file] /\
     uploadError (page (dispatch (fun snap => handleImageUpload R snap date_now file) w))
       = msg /\
     uploadLoading (page (dispatch (fun snap => handleImageUpload R snap date_now file) w))
       = false) /\
  (existsb (fun o => fst o =? upload_path sel u date_now file) (event_images (db w)) = true ->
   db (dispatch (fun snap => handleImageUpload R snap date_now file) w) = db w /\
   log (dispatch (fun snap => handleImageUpload R snap date_now file) w)
     = log w ++ [StorageUpload (upload_path sel u date_now file) file] /\
   uploadLoading (page (dispatch (fun snap => handleImageUpload R snap date_now file) w))
     = false) /\
  (forall msg,
     fails R (db w) (StorageUpload (upload_path sel u date_now file) file) = None ->
     existsb (fun o => fst o =? upload_path sel u date_now file) (event_images (db w))
       = false ->
     fails R (with_event_images (db w)
                (event_images (db w) ++ [(upload_path sel u date_now file, file)]))
           (InsertUpload (uid u) (getPublicUrl R (upload_path sel u date_now file)) "event"
                         (event_id_ (base sel))) = Some msg ->
     uploads_table (db (dispatch (fun snap => handleImageUpload R snap date_now file) w))
       = uploads_table (db w) /\
     event_images (db (dispatch (fun snap => handleImageUpload R snap date_now file) w))
       = event_images (db w) ++ [(upload_path sel u date_now file, file)] /\
     uploadError (page (dispatch (fun snap => handleImageUpload R snap date_now file) w))
       = msg /\
     uploadLoading (page (dispatch (fun snap => handleImageUpload R snap date_now file) w))
       = false).
Proof.
  intros Hu Hsel.
  assert (Hrefused : forall msg,
     fst (storage_upload R (db w) (upload_path sel u date_now file) file) = Some msg ->
     dispatch (fun snap => handleImageUpload R snap date_now file) w =
     {| page := setUploadLoading false (setUploadError msg (page w));
        db := snd (storage_upload R (db w) (upload_path sel u date_now file) file);
        log := log w ++ [StorageUpload (upload_path sel u date_now file) file] |}).
  { intros msg Hst. unfold dispatch, handleImageUpload. rewrite Hu, Hsel.
    cbv zeta. fold (upload_path sel u date_now file). run_steps. rewrite Hst. run_steps.
    reflexivity. }
  split; [|split].
  - intros msg Hst. rewrite (Hrefused msg Hst). repeat split.
  - intros Hex.
    destruct (fails R (db w) (StorageUpload (upload_path sel u date_now file) file))
      as [m|] eqn:Hf.
    + rewrite (Hrefused m).
      * unfold storage_upload. rewrite Hf. repeat split.
      * unfold storage_upload. now rewrite Hf.
    + rewrite (Hrefused "The resource already exists").
      * unfold storage_upload. rewrite Hf, Hex. repeat split.
      * unfold storage_upload. now rewrite Hf, Hex.
  - intros msg Hf Hfresh Hno. unfold dispatch, handleImageUpload. rewrite Hu, Hsel.
    cbv zeta. fold (upload_path sel u date_now file). run_steps.
    unfold storage_upload. rewrite Hf, Hfresh. run_steps.
    unfold insert_upload. rewrite Hno. run_steps. repeat split.
Qed.

Lemma upload_failure_modes_witness :
  db (dispatch (fun snap => handleImageUpload Sample.reliable snap "1" Sample.photo)
        {| page := Sample.viewing Sample.bucana (Sample.signed_in Sample.bob Sample.blank);
           db := SampleMore.tables_with_photo;
           log := [] |})
  = SampleMore.tables_with_photo /\
  log (dispatch (fun snap => handleImageUpload Sample.reliable snap "1" Sample.photo)
         {| page := Sample.viewing Sample.bucana (Sample.signed_in Sample.bob Sample.blank);
            db := SampleMore.tables_with_photo;
            log := [] |})
  = [] ++ [StorageUpload "event-1/user-b/1_shore.png" Sample.photo] /\
  uploadLoading
    (page (dispatch (fun snap => handleImageUpload Sample.reliable snap "1" Sample.photo)
             {| page := Sample.viewing Sample.bucana (Sample.signed_in Sample.bob Sample.blank);
                db := SampleMore.tables_with_photo;
                log := [] |}))
  = false.
Proof.
  apply (proj1 (proj2 (upload_failure_modes Sample.reliable
                  {| page := Sample.viewing Sample.bucana
                               (Sample.signed_in Sample.bob Sample.blank);
                     db := SampleMore.tables_with_photo;
                     log := [] |}
                  Sample.bob
                  {| base := Sample.bucana; organizer_email := Some "a@davao.ph";
                     participant_count := Some 3; user_participation := None |}
                  "1" Sample.photo eq_refl eq_refl))).
  reflexivity.
Defined.

(** X17: an upload that the backend accepts shows up in the refreshed
    detail view: the list of photos then holds an entry of the current
    user whose address is the public address of the stored path and whose
    category is the event tag, no error is shown and the loading flag is
    cleared. The object is stored under the path made of the event id,
    the user id, the time stamp and the file name. *)
Theorem upload_appears_in_detail (R : Remote) (w : World) (u : User) (sel : EventWithMeta)
        (date_now : string) (file : File) :
  answers R ->
  currentUser (page w) = Some u ->
  selectedEvent (page w) = Some sel ->
  existsb (fun o => fst o =? upload_path sel u date_now file) (event_images (db w)) = false ->
  (exists entry,
     In entry (eventUploads
                 (page (dispatch (fun snap => handleImageUpload R snap date_now file) w))) /\
     row_user_id (fst entry) = uid u /\
     row_image_url (fst entry) = getPublicUrl R (upload_path sel u date_now file) /\
     row_category (fst entry) = "event" /\
     row_event_id (fst entry) = Some (event_id_ (base sel))) /\
  event_images (db (dispatch (fun snap => handleImageUpload R snap date_now file) w)) =
    event_images (db w) ++ [(upload_path sel u date_now file, file)] /\
  uploadError (page (dispatch (fun snap => handleImageUpload R snap date_now file) w)) = "" /\
  uploadLoading (page (dispatch (fun snap => handleImageUpload R snap date_now file) w))
    = false.
Proof.
  intros Hans Hu Hsel Hfresh.
  unfold dispatch, handleImageUpload. rewrite Hu, Hsel.
  cbv zeta. fold (upload_path sel u date_now file). run_steps.
  unfold storage_upload. rewrite Hans, Hfresh. run_steps.
  unfold insert_upload. rewrite Hans. run_steps.
  rewrite fetchEventDetail_run.
  cbn [page db eventUploads uploadError uploadLoading setDetailLoading setEventUploads
       setEventParticipants setSelectedEvent setUploadLoading setUploadError
       event_images with_uploads with_event_images uploads_table].
  split; [|repeat split].
  unfold select_uploads. rewrite Hans. cbn [nullish uploads_table with_uploads].
  eexists. split.
  - apply in_map. apply in_sort_by. apply filter_In. split.
    + apply in_or_app. right. left. reflexivity.
    + unfold has_event. cbn [row_event_id]. apply String.eqb_refl.
  - repeat split.
Qed.

Lemma upload_appears_in_detail_witness :
  map (fun e => (row_user_id (fst e), row_category (fst e), snd e))
      (eventUploads
         (page (dispatch (fun snap => handleImageUpload Sample.reliable snap "2" Sample.photo)
                  {| page := Sample.viewing Sample.bucana
                               (Sample.signed_in Sample.bob Sample.blank);
                     db := SampleMore.tables_with_photo;
                     log := [] |})))
  = [ ("user-b", "event", Some "b@davao.ph"); ("user-b", "event", Some "b@davao.ph") ] /\
  uploadError
    (page (dispatch (fun snap => handleImageUpload Sample.reliable snap "2" Sample.photo)
             {| page := Sample.viewing Sample.bucana
                          (Sample.signed_in Sample.bob Sample.blank);
                db := SampleMore.tables_with_photo;
                log := [] |})) = "".
Proof.
  split; [reflexivity|].
  apply (proj1 (proj2 (proj2 (upload_appears_in_detail Sample.reliable
                  {| page := Sample.viewing Sample.bucana
                               (Sample.signed_in Sample.bob Sample.blank);
                     db := SampleMore.tables_with_photo;
                     log := [] |}
                  Sample.bob
                  {| base := Sample.bucana; organizer_email := Some "a@davao.ph";
                     participant_count := Some 3; user_participation := None |}
                  "2" Sample.photo (fun _ _ => eq_refl) eq_refl eq_refl eq_refl)))).
Defined.

(** C2: the upload records of the page carry the category tag and the
    event id as two separate attributes, next to the id, the uploader's
    id, the image URL and the creation time. For every signed-in user and
    open event, on a backend that answers: [handleImageUpload] adds one
    row whose category is the literal event, which is none of the waste
    categories of the classifier, and whose event id is the id of the
    open event; the records [fetchEventDetail] then holds are the rows of
    the table whose event id is that of the event, each with its category
    and its event id (a row without an event id, or of another event, is
    not among them), and the new row is one of them. *)
Theorem upload_records_carry_tag_and_event_id (R : Remote) (w : World) (u : User)
        (sel : EventWithMeta) (date_now : string) (file : File) :
  answers R ->
  currentUser (page w) = Some u ->
  selectedEvent (page w) = Some sel ->
  existsb (fun o => fst o =? upload_path sel u date_now file) (event_images (db w)) = false ->
  let stored :=
    with_event_images (db w)
      (event_images (db w) ++ [(upload_path sel u date_now file, file)]) in
  let written :=
    {| row_id := gen_random_uuid R stored;
       row_user_id := uid u;
       row_image_url := getPublicUrl R (upload_path sel u date_now file);
       row_category := "event";
       row_event_id := Some (event_id_ (base sel));
       row_created_at := now R stored |} in
  let after := dispatch (fun snap => handleImageUpload R snap date_now file) w in
  uploads_table (db after) = uploads_table (db w) ++ [written] /\
  ~ In (row_category written) Classifier.categories /\
  (forall r : UploadRow,
     In r (map fst (eventUploads (page after))) <->
     In r (uploads_table (db after)) /\
     row_event_id r = Some (event_id_ (base sel))) /\
  In written (map fst (eventUploads (page after))).
Proof.
  intros Hans Hu Hsel Hfresh. cbv zeta.
  unfold dispatch, handleImageUpload. rewrite Hu, Hsel.
  cbv zeta. fold (upload_path sel u date_now file). run_steps.
  unfold storage_upload. rewrite Hans, Hfresh. run_steps.
  unfold insert_upload. rewrite Hans. run_steps.
  rewrite fetchEventDetail_run.
  cbn [page db eventUploads uploadError uploadLoading setDetailLoading setEventUploads
       setEventParticipants setSelectedEvent setUploadLoading setUploadError
       event_images with_uploads with_event_images uploads_table].
  unfold select_uploads. rewrite Hans. cbn [nullish uploads_table with_uploads].
  rewrite map_map. cbn [detail_upload fst]. rewrite map_id.
  assert (Hev : forall (e : string) (r : UploadRow),
             has_event e r = true <-> row_event_id r = Some e).
  { intros e r. unfold has_event. destruct (row_event_id r) as [x|].
    - rewrite String.eqb_eq. split; [intros ->; reflexivity | congruence].
    - split; discriminate. }
  split; [reflexivity|].
  split.
  { cbn [row_category Classifier.categories In]. intuition discriminate. }
  split.
  - intros r. rewrite in_sort_by, filter_In, Hev. reflexivity.
  - apply in_sort_by. apply filter_In. split.
    + apply in_or_app. right. left. reflexivity.
    + apply Hev. reflexivity.
Qed.

Lemma upload_records_carry_tag_and_event_id_witness :
  map fst
      (eventUploads
         (page (dispatch (fun snap => handleImageUpload Sample.reliable snap "1716197400000"
                                        Sample.photo)
                  {| page := Sample.viewing Sample.bucana
                               (Sample.signed_in Sample.bob Sample.blank);
                     db := SampleMore.tables_with_uploads;
                     log := [] |})))
  = [ {| row_id := "3f2b8c1e-9d4a-4c6b-8e55-0a1b2c3d4e5f";
         row_user_id := "user-b";
         row_image_url :=
           "https://davao.supabase.co/storage/v1/object/public/event-images/event-1/user-b/1716197400000_shore.png";
         row_category := "event";
         row_event_id := Some "event-1";
         row_created_at := "2024-05-20T09:30:00+00:00" |} ] /\
  uploads_table
    (db (dispatch (fun snap => handleImageUpload Sample.reliable snap "1716197400000"
                                 Sample.photo)
           {| page := Sample.viewing Sample.bucana
                        (Sample.signed_in Sample.bob Sample.blank);
              db := SampleMore.tables_with_uploads;
              log := [] |})) =
  [ SampleMore.bottle_row; SampleMore.creek_row;
    {| row_id := "3f2b8c1e-9d4a-4c6b-8e55-0a1b2c3d4e5f";
       row_user_id := "user-b";
       row_image_url :=
         "https://davao.supabase.co/storage/v1/object/public/event-images/event-1/user-b/1716197400000_shore.png";
       row_category := "event";
       row_event_id := Some "event-1";
       row_created_at := "2024-05-20T09:30:00+00:00" |} ].
Proof.
  split; [reflexivity|].
  exact (proj1 (upload_records_carry_tag_and_event_id Sample.reliable
                  {| page := Sample.viewing Sample.bucana
                               (Sample.signed_in Sample.bob Sample.blank);
                     db := SampleMore.tables_with_uploads;
                     log := [] |}
                  Sample.bob
                  {| base := Sample.bucana; organizer_email := Some "a@davao.ph";
                     participant_count := Some 3; user_participation := None |}
                  "1716197400000" Sample.photo (fun _ _ => eq_refl) eq_refl eq_refl eq_refl)).
Defined.

End VolunteerUploadFacts.

Module VolunteerMoreFacts.
Import Supabase Backend Volunteer BackendFacts VolunteerFacts VolunteerPure VolunteerRuns
       VolunteerLoaderFacts VolunteerView VolunteerMore.


(** The catalogue refresh inside the whole page. *)
Lemma lift_fetchEvents (R : Remote) (snap : Page) (a : App) :
  fails R (app_db a) SelectEvents = None ->
  snd (lift (fetchEvents R snap) a) =
  {| app_page := setEventsLoading false
                   (setEvents (map (entry_of R snap (app_db a))
                                   (by_date R (events_table (app_db a))))
                              (app_page a));
     app_cells := app_cells a;
     app_db := app_db a;
     app_calls := app_calls a
                  ++ map Earlier (SelectEvents
                                  :: flat_map (requests_of_entry snap)
                                       (by_date R (events_table (app_db a)))) |}.
Proof.
  intros Hok. unfold lift. cbv zeta. cbn [snd].
  rewrite fetchEvents_run by exact Hok. reflexivity.
Qed.

(** The detail refresh inside the whole page. *)
Lemma lift_fetchEventDetail (R : Remote) (ev : EventWithMeta) (a : App) :
  app_page (snd (lift (fetchEventDetail R ev) a)) =
    setDetailLoading false
      (setEventUploads
         (map (detail_upload R (app_db a))
              (nullish (select_uploads R (app_db a) (event_id_ (base ev))) []))
         (setEventParticipants
            (map (detail_participant R (app_db a))
                 (nullish (select_participants R (app_db a) (event_id_ (base ev))) []))
            (setSelectedEvent (Some ev) (app_page a)))) /\
  app_db (snd (lift (fetchEventDetail R ev) a)) = app_db a /\
  app_cells (snd (lift (fetchEventDetail R ev) a)) = app_cells a /\
  exists sent,
    app_calls (snd (lift (fetchEventDetail R ev) a)) = app_calls a ++ map Earlier sent.
Proof.
  unfold lift. cbv zeta. cbn [snd app_page app_db app_cells app_calls].
  rewrite fetchEventDetail_run. cbn [page db log]. repeat split.
  eexists. reflexivity.
Qed.

Lemma filter_negb_in {A : Type} (f : A -> bool) (l : list A) (x : A) :
  In x (filter (fun y => negb (f y)) l) <-> In x l /\ f x = false.
Proof.
  rewrite filter_In. now rewrite negb_true_iff.
Qed.

Lemma filter_app_last_dropped {A : Type} (f : A -> bool) (l : list A) (x : A) :
  (forall y, In y l -> f y = true) -> f x = false -> filter f (l ++ [x]) = l.
Proof.
  intros Hl Hx. rewrite filter_app. simpl. rewrite Hx, app_nil_r.
  induction l as [|y l IH]; simpl; [reflexivity|].
  rewrite (Hl y (or_introl eq_refl)). f_equal. apply IH. intros z Hz. apply Hl. now right.
Qed.

(** The world after a leave that the backend accepts. *)
Lemma leave_run (Sv : Service) (a : App) (u : User) (eventId : string) :
  currentUser (app_page a) = Some u ->
  refuses Sv (app_db a) (DeleteParticipation eventId (uid u)) = None ->
  act (fun snap _ => handleLeaveEvent Sv snap eventId) a =
  snd (lift (fetchEvents (remote Sv) (app_page a))
         {| app_page := app_page a;
            app_cells := app_cells a;
            app_db := with_participants (app_db a)
                        (filter (fun p => negb ((p_event_id p =? eventId)
                                                && (volunteer_id p =? uid u)))
                                (participants_table (app_db a)));
            app_calls := app_calls a ++ [DeleteParticipation eventId (uid u)] |}).
Proof.
  intros Hu Hok. unfold act, handleLeaveEvent. rewrite Hu. cbv zeta.
  unfold send. cbn [fst snd]. unfold delete_participation. rewrite Hok. reflexivity.
Qed.

(** X18: a leave that the backend accepts deletes every [participants]
    row of the pair (event, current user), duplicates included, and no
    other row; the refreshed catalogue shows no participation of the user
    in that event. Joining an event one had no row for and leaving it
    again restores the table. *)
Theorem leave_removes_the_pair (Sv : Service) (a : App) (u : User) (eventId : string) :
  answers (remote Sv) ->
  (forall d, refuses Sv d (DeleteParticipation eventId (uid u)) = None) ->
  currentUser (app_page a) = Some u ->
  (forall p,
     In p (participants_table
             (app_db (act (fun snap _ => handleLeaveEvent Sv snap eventId) a))) <->
     In p (participants_table (app_db a)) /\
     ~ (p_event_id p = eventId /\ volunteer_id p = uid u)) /\
  Forall (fun E => event_id_ (base E) = eventId -> user_participation E = None)
         (events (app_page (act (fun snap _ => handleLeaveEvent Sv snap eventId) a))) /\
  ((forall p, In p (participants_table (app_db a)) ->
              p_event_id p = eventId -> volunteer_id p <> uid u) ->
   participants_table
     (app_db (act (fun snap _ => handleLeaveEvent Sv snap eventId)
                (act_earlier (fun snap => handleJoinEvent (remote Sv) snap eventId) a)))
   = participants_table (app_db a)).
Proof.
  intros Hans Hok Hu.
  assert (Hpair : forall p : Participant,
            (p_event_id p =? eventId) && (volunteer_id p =? uid u) = false <->
            ~ (p_event_id p = eventId /\ volunteer_id p = uid u)).
  { intros p. rewrite andb_false_iff, !String.eqb_neq. split; [tauto|].
    intros H. destruct (String.eqb_spec (p_event_id p) eventId); [|tauto].
    right. intros E. apply H. now split. }
  rewrite (leave_run Sv a u eventId Hu (Hok _)).
  rewrite lift_fetchEvents by apply Hans.
  cbn [app_page app_db events setEvents setEventsLoading participants_table with_participants].
  split; [|split].
  - intros p. rewrite (filter_negb_in
                         (fun p => (p_event_id p =? eventId) && (volunteer_id p =? uid u))).
    now rewrite Hpair.
  - apply Forall_forall. intros E HE Hid. apply in_map_iff in HE.
    destruct HE as [ev [<- _]]. cbn [entry_of user_participation base] in *.
    rewrite Hu. unfold select_participation. rewrite Hans.
    cbn [participants_table with_participants]. rewrite Hid.
    rewrite filter_none; [reflexivity|].
    intros p Hp. apply filter_In in Hp. destruct Hp as [_ Hp].
    now apply negb_true_iff in Hp.
  - intros Hfresh.
    set (a1 := act_earlier (fun snap => handleJoinEvent (remote Sv) snap eventId) a).
    pose proof (join_run (remote Sv)
                  {| page := app_page a; db := app_db a; log := [] |} u eventId Hans Hu)
      as Hjoin.
    rewrite fetchEvents_run in Hjoin by apply Hans.
    cbn [page db log] in Hjoin.
    assert (Hdb1 : app_db a1 =
                   with_participants (app_db a)
                     (participants_table (app_db a) ++
                      [ {| participant_id := gen_random_uuid (remote Sv) (app_db a);
                           p_event_id := eventId;
                           volunteer_id := uid u;
                           status := "accepted" |} ])).
    { change (app_db a1)
        with (db (dispatch (fun snap => handleJoinEvent (remote Sv) snap eventId)
                    {| page := app_page a; db := app_db a; log := [] |})).
      rewrite Hjoin. reflexivity. }
    assert (Hu1 : currentUser (app_page a1) = Some u).
    { change (app_page a1)
        with (page (dispatch (fun snap => handleJoinEvent (remote Sv) snap eventId)
                      {| page := app_page a; db := app_db a; log := [] |})).
      rewrite Hjoin. exact Hu. }
    rewrite (leave_run Sv a1 u eventId Hu1 (Hok _)).
    rewrite lift_fetchEvents by apply Hans.
    cbn [app_db participants_table with_participants]. rewrite Hdb1.
    cbn [participants_table with_participants].
    apply filter_app_last_dropped.
    + intros p Hp. apply negb_true_iff. apply Hpair. intros [E1 E2].
      exact (Hfresh p Hp E1 E2).
    + cbn [p_event_id volunteer_id]. now rewrite !String.eqb_refl.
Qed.

Lemma leave_removes_the_pair_witness :
  map participant_id
      (participants_table
         (app_db (act (fun snap _ => handleLeaveEvent SampleMore.service snap "event-1")
                    (SampleMore.app (Sample.signed_in Sample.bob Sample.blank)))))
  = [ "p-2"; "p-3"; "p-4" ] /\
  Forall (fun E => event_id_ (base E) = "event-1" -> user_participation E = None)
         (events (app_page (act (fun snap _ => handleLeaveEvent SampleMore.service snap "event-1")
                              (SampleMore.app (Sample.signed_in Sample.bob Sample.blank))))).
Proof.
  split; [reflexivity|].
  apply (proj1 (proj2 (leave_removes_the_pair SampleMore.service
                         (SampleMore.app (Sample.signed_in Sample.bob Sample.blank))
                         Sample.bob "event-1"
                         (fun _ _ => eq_refl) (fun _ => eq_refl) eq_refl))).
Defined.

(** X19: removing a participant deletes the rows with that id and no
    other row, whoever is signed in (the handler checks no identity); with
    a detail view open, the refreshed list of participants no longer
    holds that id. *)
Theorem remove_deletes_rows_with_id (Sv : Service) (a : App) (participantId : string) :
  refuses Sv (app_db a) (DeleteParticipant participantId) = None ->
  (forall p,
     In p (participants_table
             (app_db (act (fun snap _ => handleRemoveParticipant Sv snap participantId) a))) <->
     In p (participants_table (app_db a)) /\ participant_id p <> participantId) /\
  (forall ev,
     selectedEvent (app_page a) = Some ev ->
     Forall (fun pe => participant_id (fst pe) <> participantId)
            (eventParticipants
               (app_page (act (fun snap _ => handleRemoveParticipant Sv snap participantId) a)))).
Proof.
  intros Hok.
  assert (Hdb : app_db (act (fun snap _ => handleRemoveParticipant Sv snap participantId) a) =
                with_participants (app_db a)
                  (filter (fun p => negb (participant_id p =? participantId))
                          (participants_table (app_db a)))).
  { unfold act, handleRemoveParticipant. cbv zeta. unfold send. cbn [fst snd].
    unfold delete_participant. rewrite Hok. cbn [snd].
    destruct (selectedEvent (app_page a)) as [ev|]; [|reflexivity].
    now rewrite (proj1 (proj2 (lift_fetchEventDetail (remote Sv) ev _))). }
  split.
  - intros p. rewrite Hdb. cbn [participants_table with_participants].
    rewrite (filter_negb_in (fun p => participant_id p =? participantId)).
    now rewrite String.eqb_neq.
  - intros ev Hsel. unfold act, handleRemoveParticipant. cbv zeta. unfold send.
    cbn [fst snd]. unfold delete_participant. rewrite Hok, Hsel. cbn [snd].
    rewrite (proj1 (lift_fetchEventDetail (remote Sv) ev _)).
    cbn [eventParticipants setDetailLoading setEventUploads setEventParticipants app_db].
    apply Forall_forall. intros pe Hpe. apply in_map_iff in Hpe.
    destruct Hpe as [p [<- Hp]]. cbn [detail_participant fst].
    unfold select_participants in Hp.
    destruct (fails (remote Sv) _ _); cbn [nullish] in Hp; [destruct Hp|].
    apply filter_In in Hp. destruct Hp as [Hp _].
    cbn [participants_table with_participants] in Hp.
    apply filter_In in Hp. destruct Hp as [_ Hp].
    apply negb_true_iff in Hp. now apply String.eqb_neq.
Qed.

Lemma remove_deletes_rows_with_id_witness :
  map (fun pe => participant_id (fst pe))
      (eventParticipants
         (app_page (act (fun snap _ => handleRemoveParticipant SampleMore.service snap "p-2")
                      (SampleMore.app (Sample.viewing Sample.bucana Sample.blank)))))
  = [ "p-1"; "p-4" ] /\
  Forall (fun pe => participant_id (fst pe) <> "p-2")
         (eventParticipants
            (app_page (act (fun snap _ => handleRemoveParticipant SampleMore.service snap "p-2")
                         (SampleMore.app (Sample.viewing Sample.bucana Sample.blank))))).
Proof.
  split; [reflexivity|].
  apply (proj2 (remove_deletes_rows_with_id SampleMore.service
                  (SampleMore.app (Sample.viewing Sample.bucana Sample.blank))
                  "p-2" eq_refl)
               {| base := Sample.bucana; organizer_email := Some "a@davao.ph";
                  participant_count := Some 3; user_participation := None |}).
  reflexivity.
Defined.

(** X20: deleting an event is gated by the confirmation: when the dialog
    is dismissed nothing is sent and nothing changes. When it is
    confirmed, the page sends exactly one delete, on the events table
    (none for the event's participants or photos), and then only the
    selects of the catalogue refresh; if the backend answers, the rows
    with that id are gone from the table and from the catalogue. *)
Theorem delete_event_after_confirm (Sv : Service) (a : App) (eventId : string) :
  act (fun snap _ => handleDeleteEvent Sv snap false eventId) a = a /\
  (answers (remote Sv) ->
   refuses Sv (app_db a) (DeleteEvent eventId) = None ->
   (exists reads,
      app_calls (act (fun snap _ => handleDeleteEvent Sv snap true eventId) a) =
      app_calls a ++ DeleteEvent eventId :: map Earlier reads /\
      Forall (fun q => is_read q = true) reads) /\
   (forall e,
      In e (events_table (app_db (act (fun snap _ => handleDeleteEvent Sv snap true eventId) a)))
      <-> In e (events_table (app_db a)) /\ event_id_ e <> eventId) /\
   Forall (fun E => event_id_ (base E) <> eventId)
          (events (app_page (act (fun snap _ => handleDeleteEvent Sv snap true eventId) a)))).
Proof.
  split; [reflexivity|].
  intros Hans Hok. unfold act, handleDeleteEvent. cbn [negb]. cbv zeta.
  unfold send. cbn [fst snd]. unfold delete_event. rewrite Hok. cbn [snd].
  rewrite lift_fetchEvents by apply Hans.
  cbn [app_calls app_db app_page events setEvents setEventsLoading events_table with_events].
  split; [|split].
  - eexists. split.
    + rewrite <- app_assoc. reflexivity.
    + constructor; [reflexivity | apply requests_of_entry_reads].
  - intros e. rewrite (filter_negb_in (fun e => event_id_ e =? eventId)).
    now rewrite String.eqb_neq.
  - apply Forall_forall. intros E HE. apply in_map_iff in HE.
    destruct HE as [e [<- He]]. cbn [entry_of base].
    unfold by_date in He. apply in_sort_by in He. apply filter_In in He.
    destruct He as [_ He]. apply negb_true_iff in He. now apply String.eqb_neq.
Qed.

Lemma delete_event_after_confirm_witness :
  map (fun E => event_id_ (base E))
      (events (app_page (act (fun snap _ => handleDeleteEvent SampleMore.service snap true
                                              "event-1")
                           (SampleMore.app (Sample.signed_in Sample.alice Sample.blank)))))
  = [ "event-2" ] /\
  Forall (fun E => event_id_ (base E) <> "event-1")
         (events (app_page (act (fun snap _ => handleDeleteEvent SampleMore.service snap true
                                                 "event-1")
                              (SampleMore.app (Sample.signed_in Sample.alice Sample.blank))))).
Proof.
  split; [reflexivity|].
  apply (proj2 (proj2 (proj2 (delete_event_after_confirm SampleMore.service
                         (SampleMore.app (Sample.signed_in Sample.alice Sample.blank))
                         "event-1")
                       (fun _ _ => eq_refl) eq_refl))).
Defined.

(** X21: a photo can be deleted by its uploader only, and the handler
    applies the very test that shows the delete button: when the button
    is not shown (nobody signed in, or another user's photo) the handler
    sends nothing and changes nothing. When it is shown and the backend
    answers, the metadata rows with that id are deleted and no other, and
    the bucket is not touched: the stored object remains. *)
Theorem delete_upload_only_by_uploader (Sv : Service) (a : App) (upload : Upload) :
  (deleteUploadShown (currentUser (app_page a)) upload = false ->
   act (fun snap _ => handleDeleteUpload Sv snap upload) a = a) /\
  (deleteUploadShown (currentUser (app_page a)) upload = true ->
   refuses Sv (app_db a) (DeleteUploadRow (upload_id upload)) = None ->
   (forall r,
      In r (uploads_table (app_db (act (fun snap _ => handleDeleteUpload Sv snap upload) a)))
      <-> In r (uploads_table (app_db a)) /\ row_id r <> upload_id upload) /\
   event_images (app_db (act (fun snap _ => handleDeleteUpload Sv snap upload) a)) =
     event_images (app_db a) /\
   exists reads,
     app_calls (act (fun snap _ => handleDeleteUpload Sv snap upload) a) =
     app_calls a ++ DeleteUploadRow (upload_id upload) :: map Earlier reads).
Proof.
  unfold deleteUploadShown, act, handleDeleteUpload.
  destruct (currentUser (app_page a)) as [u|].
  - split.
    + intros Hshown. now rewrite Hshown.
    + intros Hshown Hok. rewrite Hshown. cbn [negb]. cbv zeta.
      unfold send. cbn [fst snd]. unfold delete_upload_row. rewrite Hok. cbn [snd].
      destruct (selectedEvent (app_page a)) as [ev|].
      * match goal with
        | |- context [lift (fetchEventDetail (remote Sv) ev) ?a1] =>
            destruct (lift_fetchEventDetail (remote Sv) ev a1) as [_ [Hd [_ [sent Hc]]]]
        end.
        rewrite Hd, Hc. cbn [app_db app_calls uploads_table event_images with_uploads].
        split; [|split].
        -- intros r. rewrite (filter_negb_in (fun r => row_id r =? upload_id upload)).
           now rewrite String.eqb_neq.
        -- reflexivity.
        -- exists sent. now rewrite <- app_assoc.
      * cbn [app_db app_calls uploads_table event_images with_uploads].
        split; [|split].
        -- intros r. rewrite (filter_negb_in (fun r => row_id r =? upload_id upload)).
           now rewrite String.eqb_neq.
        -- reflexivity.
        -- exists []. reflexivity.
  - split; [reflexivity | discriminate].
Qed.

Lemma delete_upload_only_by_uploader_witness :
  act (fun snap _ => handleDeleteUpload SampleMore.service snap
                       (as_Upload SampleMore.shore_row))
      {| app_page := Sample.viewing Sample.bucana (Sample.signed_in Sample.alice Sample.blank);
         app_cells := SampleMore.idle;
         app_db := SampleMore.tables_with_photo;
         app_calls := [] |}
  = {| app_page := Sample.viewing Sample.bucana (Sample.signed_in Sample.alice Sample.blank);
       app_cells := SampleMore.idle;
       app_db := SampleMore.tables_with_photo;
       app_calls := [] |} /\
  event_images
    (app_db (act (fun snap _ => handleDeleteUpload SampleMore.service snap
                                  (as_Upload SampleMore.shore_row))
               {| app_page := Sample.viewing Sample.bucana
                                (Sample.signed_in Sample.bob Sample.blank);
                  app_cells := SampleMore.idle;
                  app_db := SampleMore.tables_with_photo;
                  app_calls := [] |}))
  = [ ("event-1/user-b/1_shore.png", Sample.photo) ] /\
  uploads_table
    (app_db (act (fun snap _ => handleDeleteUpload SampleMore.service snap
                                  (as_Upload SampleMore.shore_row))
               {| app_page := Sample.viewing Sample.bucana
                                (Sample.signed_in Sample.bob Sample.blank);
                  app_cells := SampleMore.idle;
                  app_db := SampleMore.tables_with_photo;
                  app_calls := [] |}))
  = [].
Proof.
  split; [|split].
  - apply (proj1 (delete_upload_only_by_uploader SampleMore.service
                    {| app_page := Sample.viewing Sample.bucana
                                     (Sample.signed_in Sample.alice Sample.blank);
                       app_cells := SampleMore.idle;
                       app_db := SampleMore.tables_with_photo;
                       app_calls := [] |}
                    (as_Upload SampleMore.shore_row))).
    reflexivity.
  - apply (proj1 (proj2 (proj2 (delete_upload_only_by_uploader SampleMore.service
                    {| app_page := Sample.viewing Sample.bucana
                                     (Sample.signed_in Sample.bob Sample.blank);
                       app_cells := SampleMore.idle;
                       app_db := SampleMore.tables_with_photo;
                       app_calls := [] |}
                    (as_Upload SampleMore.shore_row)) eq_refl eq_refl))).
  - reflexivity.
Defined.

Lemma filter_map_commute {A : Type} (f : A -> bool) (g : A -> A) (l : list A) :
  (forall x, f (g x) = f x) -> filter f (map g l) = map g (filter f l).
Proof.
  intros H. induction l as [|x l IH]; simpl; [reflexivity|].
  rewrite H. destruct (f x); simpl; now rewrite IH.
Qed.

Lemma map_id_on {A : Type} (g : A -> A) (l : list A) :
  (forall x, In x l -> g x = x) -> map g l = l.
Proof.
  intros H. induction l as [|x l IH]; simpl; [reflexivity|].
  rewrite (H x (or_introl eq_refl)). f_equal. apply IH. intros y Hy. apply H. now right.
Qed.

(** The world after a role upgrade that the backend accepts. *)
Lemma become_organizer_run (Sv : Service) (a : App) (u : User) :
  currentUser (app_page a) = Some u ->
  refuses Sv (app_db a) (UpdateRole (uid u) "organizer") = None ->
  act (fun snap _ => handleBecomeOrganizer Sv snap) a =
  set_cells (setRoleLoading false)
    (fetchProfile Sv (uid u)
       {| app_page := app_page a;
          app_cells := setRoleLoading true (app_cells a);
          app_db := snd (update_role Sv (app_db a) (uid u) "organizer");
          app_calls := app_calls a ++ [UpdateRole (uid u) "organizer"] |}).
Proof.
  intros Hu Hok. unfold act, handleBecomeOrganizer. rewrite Hu. cbv zeta.
  unfold send. cbn [fst snd set_cells app_page app_cells app_db app_calls].
  unfold update_role at 1. rewrite Hok. reflexivity.
Qed.

Lemma fetchProfile_db (Sv : Service) (id : string) (a : App) :
  app_db (fetchProfile Sv id a) = app_db a /\
  app_cells (fetchProfile Sv id a) = app_cells a /\
  app_calls (fetchProfile Sv id a) = app_calls a ++ [SelectProfile id] /\
  app_page (fetchProfile Sv id a) =
    match select_profile Sv (app_db a) id with
    | Some data => setProfile (Some data) (app_page a)
    | None => app_page a
    end.
Proof.
  unfold fetchProfile. cbv zeta. unfold send. cbn [fst snd].
  destruct (select_profile Sv (app_db a) id); repeat split.
Qed.

(** X22: a role upgrade that the backend accepts sets the role of the
    profile rows of the current user to organizer and changes nothing
    else (ids and emails are kept, other users' rows are untouched), and
    the loading flag ends cleared. If the user has exactly one profile row
    and the profile can be read back, the page then holds that profile
    and treats the user as an organizer. If the user has no profile row,
    the update matches nothing: the table and the profile cell stay as
    they were and no error is raised. *)
Theorem become_organizer_upgrades_own_row (Sv : Service) (a : App) (u : User) :
  currentUser (app_page a) = Some u ->
  (forall d q, refuses Sv d q = None) ->
  Forall2 (fun p p' =>
             profile_id p' = profile_id p /\
             profile_email p' = profile_email p /\
             (profile_id p = uid u -> role p' = "organizer") /\
             (profile_id p <> uid u -> p' = p))
          (profiles_table (app_db a))
          (profiles_table (app_db (act (fun snap _ => handleBecomeOrganizer Sv snap) a))) /\
  roleLoading (app_cells (act (fun snap _ => handleBecomeOrganizer Sv snap) a)) = false /\
  (forall p,
     filter (fun p => profile_id p =? uid u) (profiles_table (app_db a)) = [p] ->
     isOrganizer (app_page (act (fun snap _ => handleBecomeOrganizer Sv snap) a)) = true /\
     option_map profile_email
       (profile (app_page (act (fun snap _ => handleBecomeOrganizer Sv snap) a)))
     = Some (profile_email p)) /\
  (filter (fun p => profile_id p =? uid u) (profiles_table (app_db a)) = [] ->
   profiles_table (app_db (act (fun snap _ => handleBecomeOrganizer Sv snap) a)) =
     profiles_table (app_db a) /\
   profile (app_page (act (fun snap _ => handleBecomeOrganizer Sv snap) a)) =
     profile (app_page a)).
Proof.
  intros Hu Hok. rewrite (become_organizer_run Sv a u Hu (Hok _ _)).
  match goal with
  | |- context [fetchProfile Sv (uid u) ?a1] =>
      destruct (fetchProfile_db Sv (uid u) a1) as [Hd [Hc [_ Hp]]]
  end.
  cbn [set_cells app_page app_cells app_db]. rewrite Hd, Hc, Hp.
  cbn [app_db app_cells app_page roleLoading setRoleLoading].
  unfold update_role. rewrite Hok. cbn [snd profiles_table with_profiles].
  split; [|split; [reflexivity | split]].
  - apply VolunteerFormFacts.Forall2_map_same. intros p.
    destruct (String.eqb_spec (profile_id p) (uid u)) as [E|E];
      cbn [profile_id profile_email role]; repeat split; auto; intros; contradiction.
  - intros p Hone. unfold select_profile. rewrite Hok.
    cbn [profiles_table with_profiles].
    rewrite filter_map_commute.
    + rewrite Hone. cbn [map single].
      assert (Hid : (profile_id p =? uid u) = true).
      { assert (Hin : In p (filter (fun p => profile_id p =? uid u)
                                   (profiles_table (app_db a)))).
        { rewrite Hone. now left. }
        apply filter_In in Hin. tauto. }
      rewrite Hid. split; reflexivity.
    + intros x. destruct (profile_id x =? uid u) eqn:E; cbn [profile_id]; now rewrite E.
  - intros Hnone.
    assert (Hsame : map (fun p =>
                           if profile_id p =? uid u
                           then {| profile_id := profile_id p;
                                   profile_email := profile_email p;
                                   role := "organizer";
                                   updated_at := updated_at p |}
                           else p)
                        (profiles_table (app_db a)) = profiles_table (app_db a)).
    { apply map_id_on. intros x Hx.
      destruct (profile_id x =? uid u) eqn:E; [|reflexivity].
      assert (Hin : In x (filter (fun p => profile_id p =? uid u)
                                 (profiles_table (app_db a)))).
      { apply filter_In. now split. }
      rewrite Hnone in Hin. destruct Hin. }
    split; [exact Hsame|].
    unfold select_profile. rewrite Hok. cbn [profiles_table with_profiles].
    rewrite Hsame, Hnone. reflexivity.
Qed.

Lemma become_organizer_upgrades_own_row_witness :
  map (fun p => (profile_id p, role p))
      (profiles_table
         (app_db (act (fun snap _ => handleBecomeOrganizer SampleMore.service snap)
                    (SampleMore.app (Sample.signed_in Sample.bob Sample.blank)))))
  = [ ("user-a", "organizer"); ("user-b", "organizer") ] /\
  isOrganizer (app_page (act (fun snap _ => handleBecomeOrganizer SampleMore.service snap)
                           (SampleMore.app (Sample.signed_in Sample.bob Sample.blank))))
  = true.
Proof.
  split; [reflexivity|].
  apply (proj1 (proj1 (proj2 (proj2 (become_organizer_upgrades_own_row SampleMore.service
                  (SampleMore.app (Sample.signed_in Sample.bob Sample.blank))
                  Sample.bob eq_refl (fun _ _ => eq_refl))))
               {| profile_id := "user-b"; profile_email := "b@davao.ph";
                  role := "volunteer"; updated_at := "2024-05-01T00:00:00+00:00" |}
               eq_refl)).
Defined.

Lemma entry_of_currentUser (R : Remote) (s1 s2 : Page) (d : DB) (ev : Event) :
  currentUser s1 = currentUser s2 -> entry_of R s1 d ev = entry_of R s2 d ev.
Proof.
  intros H. unfold entry_of. rewrite H. reflexivity.
Qed.

Lemma earlier_requests_app (l1 l2 : list Call) :
  earlier_requests (l1 ++ l2) = earlier_requests l1 ++ earlier_requests l2.
Proof. apply flat_map_app. Qed.

Lemma further_requests_app (l1 l2 : list Call) :
  further_requests (l1 ++ l2) = further_requests l1 ++ further_requests l2.
Proof. apply filter_app. Qed.

Lemma earlier_requests_map (l : list Request) : earlier_requests (map Earlier l) = l.
Proof.
  induction l as [|q l IH]; [reflexivity|]. cbn. unfold earlier_requests in IH.
  now rewrite IH.
Qed.

Lemma further_requests_map (l : list Request) : further_requests (map Earlier l) = [].
Proof.
  induction l as [|q l IH]; [reflexivity|]. cbn. exact IH.
Qed.

(** The reload effect: it only reads, and it writes the two cells of the
    catalogue only. *)
Lemma fetchEventsEffect_run (Sv : Service) (a : App) :
  app_db (fetchEventsEffect Sv a) = app_db a /\
  currentUser (app_page (fetchEventsEffect Sv a)) = currentUser (app_page a) /\
  profile (app_page (fetchEventsEffect Sv a)) = profile (app_page a) /\
  (exists reads,
     app_calls (fetchEventsEffect Sv a) = app_calls a ++ map Earlier (SelectEvents :: reads) /\
     Forall (fun q => is_read q = true) reads) /\
  (fails (remote Sv) (app_db a) SelectEvents = None ->
   events (app_page (fetchEventsEffect Sv a)) =
   map (entry_of (remote Sv) (app_page a) (app_db a))
       (by_date (remote Sv) (events_table (app_db a)))).
Proof.
  unfold fetchEventsEffect.
  destruct (fails (remote Sv) (app_db a) SelectEvents) as [msg|] eqn:E.
  - unfold lift. cbv zeta. cbn [snd].
    rewrite (fetchEvents_refused (remote Sv) (app_page a) _ msg) by exact E.
    cbn [page db log app_page app_db app_calls]. repeat split.
    + exists []. split; [reflexivity|constructor].
    + discriminate.
  - rewrite lift_fetchEvents by exact E.
    cbn [app_page app_db app_calls]. repeat split.
    eexists. split; [reflexivity|]. apply requests_of_entry_reads.
Qed.

(** The listener by itself. *)
Lemma onAuthStateChange_run (Sv : Service) (session_user : option User) (a : App) :
  app_db (onAuthStateChange Sv session_user a) = app_db a /\
  currentUser (app_page (onAuthStateChange Sv session_user a)) = session_user /\
  events (app_page (onAuthStateChange Sv session_user a)) = events (app_page a) /\
  app_calls (onAuthStateChange Sv session_user a) =
    app_calls a ++ match session_user with
                   | Some u => [SelectProfile (uid u)]
                   | None => []
                   end /\
  profile (app_page (onAuthStateChange Sv session_user a)) =
    match session_user with
    | Some u => match select_profile Sv (app_db a) (uid u) with
                | Some data => Some data
                | None => profile (app_page a)
                end
    | None => None
    end.
Proof.
  unfold onAuthStateChange. cbv zeta. destruct session_user as [u|].
  - destruct (fetchProfile_db Sv (uid u) (set_page (setCurrentUser (Some u)) a))
      as [Hd [_ [Hc Hp]]].
    rewrite Hd, Hc, Hp. cbn [set_page app_db app_page app_calls].
    destruct (select_profile Sv (app_db a) (uid u)); repeat split.
  - cbn [set_page app_db app_page app_calls]. rewrite app_nil_r. repeat split.
Qed.

(** X23: what a change of session does to the page. The listener stores
    the user of the session; on a sign-out it clears the profile, on a
    sign-in it looks the profile up once and replaces it when it can be
    read: when it cannot (no row, or the lookup is refused) the profile
    cell keeps what it held, so a profile left by an earlier user, and
    with it the organizer status, stays on the page. Whenever the value
    of the current user is replaced, the loader is made anew and the
    effect reloads the catalogue for the user of the session: the events
    query and only reads are sent besides the profile lookup, the tables
    are left as they are, and after a sign-out no entry of the reloaded
    catalogue shows a participation. If the value is not replaced (a
    sign-out while nobody is signed in) the catalogue is left alone. *)
Theorem session_change_and_profile (Sv : Service) (a : App) (session_user : option User)
        (fresh : bool) :
  let after := sessionChange Sv session_user fresh a in
  let reloads := currentUser_replaced (currentUser (app_page a)) session_user fresh in
  currentUser (app_page after) = session_user /\
  app_db after = app_db a /\
  (session_user = None -> profile (app_page after) = None) /\
  (forall u data,
     session_user = Some u ->
     select_profile Sv (app_db a) (uid u) = Some data ->
     profile (app_page after) = Some data) /\
  (forall u,
     session_user = Some u ->
     select_profile Sv (app_db a) (uid u) = None ->
     profile (app_page after) = profile (app_page a) /\
     isOrganizer (app_page after) = isOrganizer (app_page a)) /\
  (exists sent,
     app_calls after = app_calls a ++ sent /\
     further_requests sent =
       match session_user with
       | Some u => [SelectProfile (uid u)]
       | None => []
       end /\
     (reloads = false -> earlier_requests sent = []) /\
     (reloads = true ->
      exists reads, earlier_requests sent = SelectEvents :: reads /\
                    Forall (fun q => is_read q = true) reads)) /\
  (reloads = false -> events (app_page after) = events (app_page a)) /\
  (reloads = true ->
   fails (remote Sv) (app_db a) SelectEvents = None ->
   events (app_page after) =
     map (entry_of (remote Sv) (setCurrentUser session_user (app_page a)) (app_db a))
         (by_date (remote Sv) (events_table (app_db a))) /\
   (session_user = None ->
    Forall (fun e => user_participation e = None) (events (app_page after)))).
Proof.
  cbv zeta. unfold sessionChange. cbv zeta.
  destruct (onAuthStateChange_run Sv session_user a) as [Hd [Hu [He [Hc Hp]]]].
  destruct (currentUser_replaced (currentUser (app_page a)) session_user fresh).
  - destruct (fetchEventsEffect_run Sv (onAuthStateChange Sv session_user a))
      as [Hd' [Hu' [Hp' [[reads [Hc' Hr]] He']]]].
    rewrite Hd', Hu', Hp', Hc', Hd, Hu, Hp, Hc.
    split; [reflexivity|]. split; [reflexivity|].
    split; [intros ->; reflexivity|].
    split; [intros u data -> Hs; rewrite Hs; reflexivity|].
    split.
    { intros u -> Hs. unfold isOrganizer. rewrite Hp', Hp, Hs. split; reflexivity. }
    split.
    { eexists. split; [rewrite <- app_assoc; reflexivity|].
      rewrite further_requests_app, earlier_requests_app,
              further_requests_map, earlier_requests_map, app_nil_r.
      destruct session_user; cbn; repeat split; try discriminate;
        intros _; exists reads; split; [reflexivity | exact Hr | reflexivity | exact Hr]. }
    split; [discriminate|].
    intros _ Hok. rewrite Hd in He'. rewrite (He' Hok).
    assert (Hm : map (entry_of (remote Sv) (app_page (onAuthStateChange Sv session_user a))
                        (app_db a))
                     (by_date (remote Sv) (events_table (app_db a))) =
                 map (entry_of (remote Sv) (setCurrentUser session_user (app_page a))
                        (app_db a))
                     (by_date (remote Sv) (events_table (app_db a)))).
    { apply map_ext. intros ev. apply entry_of_currentUser. rewrite Hu. reflexivity. }
    rewrite Hm. split; [reflexivity|].
    intros ->. apply Forall_forall. intros e Hin.
    apply in_map_iff in Hin. destruct Hin as [ev [<- _]]. reflexivity.
  - rewrite Hd, Hu, Hp, Hc, He.
    split; [reflexivity|]. split; [reflexivity|].
    split; [intros ->; reflexivity|].
    split; [intros u data -> Hs; rewrite Hs; reflexivity|].
    split.
    { intros u -> Hs. unfold isOrganizer. rewrite Hp, Hs. split; reflexivity. }
    split.
    { eexists. split; [reflexivity|].
      destruct session_user; cbn; repeat split; discriminate. }
    split; [reflexivity|discriminate].
Qed.

Lemma session_change_and_profile_witness :
  (map (fun e => (event_id_ (base e), user_participation e))
       (events (app_page (sessionChange SampleMore.service None true
                            (SampleMore.app (Sample.signed_in Sample.bob Sample.blank)))))
   = [ ("event-2", None); ("event-1", None) ] /\
   earlier_requests
     (app_calls (sessionChange SampleMore.service None true
                   (SampleMore.app (Sample.signed_in Sample.bob Sample.blank))))
   = [ SelectEvents;
       SelectProfileEmail "user-a"; CountParticipants "event-2";
       SelectProfileEmail "user-a"; CountParticipants "event-1" ]) /\
  (currentUser
     (app_page (sessionChange SampleMore.profile_hidden (Some Sample.bob) true
                  (SampleMore.app
                     (setProfile (Some SampleMore.organizer_profile)
                        (Sample.signed_in Sample.alice Sample.blank)))))
   = Some Sample.bob /\
   isOrganizer
     (app_page (sessionChange SampleMore.profile_hidden (Some Sample.bob) true
                  (SampleMore.app
                     (setProfile (Some SampleMore.organizer_profile)
                        (Sample.signed_in Sample.alice Sample.blank)))))
   = true) /\
  Forall (fun e => user_participation e = None)
         (events (app_page (sessionChange SampleMore.service None true
                              (SampleMore.app (Sample.signed_in Sample.bob Sample.blank))))).
Proof.
  split; [split; reflexivity|]. split; [split; reflexivity|].
  apply (proj2 (proj2 (proj2 (proj2 (proj2 (proj2 (proj2
           (session_change_and_profile SampleMore.service
              (SampleMore.app (Sample.signed_in Sample.bob Sample.blank))
              None true))))))) eq_refl eq_refl).
  reflexivity.
Defined.

(** X24: signing up writes at most one profile row, and its role is
    always volunteer: when the auth service reports an error the message
    is shown and no profile is inserted; when it returns a user, the
    profile inserted has that user's id, the email typed into the form
    and the role volunteer. In both cases the form's loading flag ends
    cleared. *)
Theorem sign_up_creates_volunteer (Sv : Service) (a : App) :
  (forall msg,
     signup_error (auth_signUp Sv (authEmail (app_cells a)) (authPassword (app_cells a)))
       = Some msg ->
     authError (app_cells (act (fun _ csnap => handleSignUp Sv csnap) a)) = msg /\
     authFormLoading (app_cells (act (fun _ csnap => handleSignUp Sv csnap) a)) = false /\
     app_db (act (fun _ csnap => handleSignUp Sv csnap) a) = app_db a /\
     app_calls (act (fun _ csnap => handleSignUp Sv csnap) a) =
       app_calls a ++ [SignUp (authEmail (app_cells a)) (authPassword (app_cells a))]) /\
  (forall u,
     signup_error (auth_signUp Sv (authEmail (app_cells a)) (authPassword (app_cells a)))
       = None ->
     data_user (auth_signUp Sv (authEmail (app_cells a)) (authPassword (app_cells a)))
       = Some u ->
     refuses Sv (app_db a) (InsertProfile (uid u) (authEmail (app_cells a)) "volunteer")
       = None ->
     profiles_table (app_db (act (fun _ csnap => handleSignUp Sv csnap) a)) =
       profiles_table (app_db a) ++
       [ {| profile_id := uid u;
            profile_email := authEmail (app_cells a);
            role := "volunteer";
            updated_at := now (remote Sv) (app_db a) |} ] /\
     authError (app_cells (act (fun _ csnap => handleSignUp Sv csnap) a)) = "" /\
     authFormLoading (app_cells (act (fun _ csnap => handleSignUp Sv csnap) a)) = false) /\
  (forall id mail new_role,
     In (InsertProfile id mail new_role)
        (app_calls (act (fun _ csnap => handleSignUp Sv csnap) a)) ->
     ~ In (InsertProfile id mail new_role) (app_calls a) ->
     new_role = "volunteer" /\ mail = authEmail (app_cells a)).
Proof.
  split; [|split].
  - intros msg Herr. unfold act, handleSignUp. cbv zeta. unfold send. cbn [fst snd].
    rewrite Herr. repeat split.
  - intros u Hnone Huser Hok. unfold act, handleSignUp. cbv zeta. unfold send.
    cbn [fst snd]. rewrite Hnone, Huser.
    cbn [set_cells app_db app_cells app_page app_calls snd].
    unfold insert_profile. rewrite Hok. repeat split.
  - intros id mail new_role Hin Hnew.
    unfold act, handleSignUp in Hin. cbv zeta in Hin. unfold send in Hin.
    cbn [fst snd] in Hin.
    destruct (signup_error (auth_signUp Sv _ _)).
    + cbn [set_cells app_calls] in Hin. apply in_app_or in Hin.
      destruct Hin as [Hin|[Hin|[]]]; [contradiction | discriminate].
    + destruct (data_user (auth_signUp Sv _ _)) as [u|].
      * cbn [set_cells app_calls snd] in Hin.
        apply in_app_or in Hin. destruct Hin as [Hin|[Hin|[]]].
        -- apply in_app_or in Hin. destruct Hin as [Hin|[Hin|[]]];
             [contradiction | discriminate].
        -- injection Hin as _ <- <-. split; reflexivity.
      * cbn [set_cells app_calls] in Hin. apply in_app_or in Hin.
        destruct Hin as [Hin|[Hin|[]]]; [contradiction | discriminate].
Qed.

Lemma sign_up_creates_volunteer_witness :
  map (fun p => (profile_id p, profile_email p, role p))
      (profiles_table
         (app_db (act (fun _ csnap => handleSignUp SampleMore.service csnap)
                    {| app_page := Sample.blank;
                       app_cells := SampleMore.signing_up;
                       app_db := Sample.tables;
                       app_calls := [] |})))
  = [ ("user-a", "a@davao.ph", "organizer");
      ("user-b", "b@davao.ph", "volunteer");
      ("user-c", "c@davao.ph", "volunteer") ].
Proof.
  rewrite (proj1 (proj1 (proj2 (sign_up_creates_volunteer SampleMore.service
                    {| app_page := Sample.blank;
                       app_cells := SampleMore.signing_up;
                       app_db := Sample.tables;
                       app_calls := [] |}))
                  {| uid := "user-c"; email := Some "c@davao.ph" |}
                  eq_refl eq_refl eq_refl)).
  reflexivity.
Defined.

End VolunteerMoreFacts.

Module VolunteerViewFacts.
Import Supabase Backend Volunteer BackendFacts VolunteerFacts VolunteerPure VolunteerRuns
       VolunteerView.

(** X25: what an event card offers. Every card has the details button.
    Join and Leave are never offered together; either is offered only to
    a signed-in user on an event that is not their own and not past, Join
    when the catalogue holds no participation of the user and Leave when
    it holds one. Edit and Delete are offered exactly on the user's own
    events, past or not. *)
Theorem event_card_buttons (currentUser : option User) (isMine isPast : bool)
        (E : EventWithMeta) :
  In ViewDetails (eventCardButtons currentUser isMine isPast E) /\
  ~ (In Join (eventCardButtons currentUser isMine isPast E) /\
     In Leave (eventCardButtons currentUser isMine isPast E)) /\
  (In Join (eventCardButtons currentUser isMine isPast E) <->
   currentUser <> None /\ isMine = false /\ isPast = false /\ user_participation E = None) /\
  (In Leave (eventCardButtons currentUser isMine isPast E) <->
   currentUser <> None /\ isMine = false /\ isPast = false /\ user_participation E <> None) /\
  (In Edit (eventCardButtons currentUser isMine isPast E) <-> isMine = true) /\
  (In Delete (eventCardButtons currentUser isMine isPast E) <-> isMine = true).
Proof.
  unfold eventCardButtons.
  destruct currentUser as [u|], isMine, isPast, (user_participation E) as [p|];
    cbn; intuition (try discriminate; try congruence).
Qed.

(** The world after a status update that the backend applies, with a
    detail view open. *)
Lemma setStatus_run (R : Remote) (w : World) (ev : EventWithMeta) (pid : string)
      (st : Decision) :
  selectedEvent (page w) = Some ev ->
  fails R (db w) (UpdateParticipantStatus pid (status_of st)) = None ->
  setStatus R pid st w =
  snd (fetchEventDetail R ev
         {| page := page w;
            db := with_participants (db w)
                    (map (fun p => if participant_id p =? pid
                                   then set_status (status_of st) p else p)
                         (participants_table (db w)));
            log := log w ++ [UpdateParticipantStatus pid (status_of st)] |}).
Proof.
  intros Hsel Hok. unfold setStatus, dispatch, handleUpdateParticipantStatus.
  rewrite Hsel. run_steps. unfold update_participant_status. rewrite Hok. reflexivity.
Qed.

Lemma existsb_false {A : Type} (f : A -> bool) (l : list A) :
  (forall x, In x l -> f x = false) -> existsb f l = false.
Proof.
  intros H. induction l as [|x l IH]; simpl; [reflexivity|].
  rewrite (H x (or_introl eq_refl)). apply IH. intros y Hy. apply H. now right.
Qed.

(** X26: the upload button follows the organizer's decision. With the
    detail view of an event open and the backend answering: once the
    organizer declines the participation of a volunteer (all of whose
    rows for the event have the declined id), the refreshed view offers
    that volunteer the upload button only if the event is their own; once
    the organizer accepts a row of the volunteer, the button is offered. *)
Theorem upload_button_follows_decision (R : Remote) (w : World) (ev : EventWithMeta)
        (u : User) (pid : string) :
  answers R ->
  selectedEvent (page w) = Some ev ->
  ((forall r, In r (participants_table (db w)) ->
              p_event_id r = event_id_ (base ev) -> volunteer_id r = uid u ->
              participant_id r = pid) ->
   uploadButtonShown (eventParticipants (page (setStatus R pid declined w))) (Some u) ev
   = isMyEvent (Some u) (base ev)) /\
  ((exists r, In r (participants_table (db w)) /\
              p_event_id r = event_id_ (base ev) /\ volunteer_id r = uid u /\
              participant_id r = pid) ->
   uploadButtonShown (eventParticipants (page (setStatus R pid accepted w))) (Some u) ev
   = true).
Proof.
  intros Hans Hsel. split.
  - intros Honly. rewrite (setStatus_run R w ev pid declined Hsel (Hans _ _)).
    rewrite fetchEventDetail_run.
    cbn [page db eventParticipants setDetailLoading setEventUploads setEventParticipants].
    unfold select_participants. rewrite Hans.
    cbn [nullish participants_table with_participants status_of].
    unfold uploadButtonShown, isParticipant.
    rewrite existsb_false; [reflexivity|].
    intros pe Hpe. apply in_map_iff in Hpe. destruct Hpe as [p [<- Hp]].
    cbn [detail_participant fst].
    apply filter_In in Hp. destruct Hp as [Hp Hev].
    apply in_map_iff in Hp. destruct Hp as [r [<- Hr]].
    destruct (String.eqb_spec (participant_id r) pid) as [E|E].
    + cbn [set_status volunteer_id status]. apply andb_false_r.
    + destruct (String.eqb_spec (volunteer_id r) (uid u)) as [Ev|_]; [|reflexivity].
      exfalso. apply E. apply Honly; [exact Hr | | exact Ev].
      now apply String.eqb_eq.
  - intros [r [Hr [Hev [Hvol Hid]]]].
    rewrite (setStatus_run R w ev pid accepted Hsel (Hans _ _)).
    rewrite fetchEventDetail_run.
    cbn [page db eventParticipants setDetailLoading setEventUploads setEventParticipants].
    unfold select_participants. rewrite Hans.
    cbn [nullish participants_table with_participants status_of].
    unfold uploadButtonShown, isParticipant.
    apply orb_true_iff. left. apply existsb_exists.
    exists (detail_participant R
              (with_participants (db w)
                 (map (fun p => if participant_id p =? pid
                                then set_status "accepted" p else p)
                      (participants_table (db w))))
              (set_status "accepted" r)).
    split.
    + apply in_map. apply filter_In. split.
      * apply in_map_iff. exists r. split; [|exact Hr].
        now rewrite (proj2 (String.eqb_eq _ _) Hid).
      * cbn [set_status p_event_id]. now apply String.eqb_eq.
    + cbn [detail_participant fst set_status volunteer_id status].
      rewrite (proj2 (String.eqb_eq _ _) Hvol). reflexivity.
Qed.

Lemma upload_button_follows_decision_witness :
  uploadButtonShown
    (eventParticipants
       (page (setStatus Sample.reliable "p-1" declined
                (Sample.world (Sample.viewing Sample.bucana
                                 (Sample.signed_in Sample.alice Sample.blank))))))
    (Some Sample.bob)
    {| base := Sample.bucana; organizer_email := Some "a@davao.ph";
       participant_count := Some 3; user_participation := None |}
  = false /\
  uploadButtonShown
    (eventParticipants
       (page (setStatus Sample.reliable "p-4" accepted
                (Sample.world (Sample.viewing Sample.bucana
                                 (Sample.signed_in Sample.alice Sample.blank))))))
    (Some {| uid := "user-d"; email := None |})
    {| base := Sample.bucana; organizer_email := Some "a@davao.ph";
       participant_count := Some 3; user_participation := None |}
  = true.
Proof.
  split.
  - apply (proj1 (upload_button_follows_decision Sample.reliable
                    (Sample.world (Sample.viewing Sample.bucana
                                     (Sample.signed_in Sample.alice Sample.blank)))
                    {| base := Sample.bucana; organizer_email := Some "a@davao.ph";
                       participant_count := Some 3; user_participation := None |}
                    Sample.bob "p-1" (fun _ _ => eq_refl) eq_refl)).
    intros r Hr He Hv. simpl in Hr.
    destruct Hr as [<-|[<-|[<-|[<-|[]]]]]; try reflexivity; discriminate.
  - apply (proj2 (upload_button_follows_decision Sample.reliable
                    (Sample.world (Sample.viewing Sample.bucana
                                     (Sample.signed_in Sample.alice Sample.blank)))
                    {| base := Sample.bucana; organizer_email := Some "a@davao.ph";
                       participant_count := Some 3; user_participation := None |}
                    {| uid := "user-d"; email := None |} "p-4"
                    (fun _ _ => eq_refl) eq_refl)).
    exists (Sample.row "p-4" "event-1" "user-d" "pending").
    simpl. auto 10.
Defined.

End VolunteerViewFacts.
